(** * Webpage_Scraping.py: a shallow embedding of the map-gallery scraper

    The script drives a browser through selenium, collects the links of
    every map gallery entry into a two-level dictionary, checks each link,
    adds a summary column and writes a CSV.  The browser is the only
    collaborator: it is modelled as a function from URLs to static page
    snapshots (or to the exception [driver.get] raises), and the script as
    a state-and-exception monad over the driver, the standard output and
    the [gallerylinks] dictionary, which Python mutates in place. *)

From Stdlib Require Import Ascii DecimalString DecimalZ.
From stdpp Require Import gmap strings list fin_maps.

(** ** Python values and exceptions *)

(** The values the script stores in its dictionaries: [get_attribute]
    returns a string or [None], everything else is a string. *)
Inductive pyval :=
  | PNone
  | PStr (s : string).

#[global] Instance pyval_eq_dec : EqDecision pyval.
Proof. solve_decision. Defined.

(** [x == y] on the values of the script. *)
Definition py_eq (x y : pyval) : bool := bool_decide (x = y).

(** Truthiness, as used by [or]: [None] and the empty string are falsy. *)
Definition truthy (v : pyval) : bool :=
  match v with
  | PNone => false
  | PStr s => negb (String.eqb s "")
  end.

(** [str(v)] *)
Definition py_str (v : pyval) : string :=
  match v with
  | PNone => "None"
  | PStr s => s
  end.

Inductive exn :=
  | NoSuchElementException
  | InvalidArgumentException
  | TimeoutException
  | WebDriverException
  | IndexError
  | KeyError
  | AttributeError
  | ValueError.

#[global] Instance exn_eq_dec : EqDecision exn.
Proof. solve_decision. Defined.

(** ** Strings *)

Module PyString.

(** [sub in s] *)
Fixpoint contains (sub s : string) : bool :=
  String.prefix sub s ||
  match s with
  | EmptyString => false
  | String _ s' => contains sub s'
  end.

(** [s.split(sep)] for a non-empty [sep]: [skip] counts the characters of
    a separator just matched that are still to be dropped, [cur] is the
    piece being read. *)
Fixpoint split_go (sep : string) (skip : nat) (cur s : string) : list string :=
  match s with
  | EmptyString => [cur]
  | String c s' =>
      match skip with
      | S n => split_go sep n cur s'
      | O =>
          if String.prefix sep s
          then cur :: split_go sep (String.length sep - 1) "" s'
          else split_go sep 0 (cur +:+ String c "") s'
      end
  end.

Definition split (s sep : string) : list string := split_go sep 0 "" s.

(** *** [int(s)]

    A Python string is held as its UTF-8 encoding, one byte for each
    character of the Rocq string; on encodings [contains] and [split]
    give what Python gives on the strings themselves.  [int] looks at the
    code points. *)

Definition continuation (b : Ascii.ascii) : option N :=
  let n := Ascii.N_of_ascii b in
  if (128 <=? n)%N && (n <? 192)%N then Some (n - 128)%N else None.

(** The code points of a well-formed encoding. *)
Fixpoint decode (s : string) : option (list N) :=
  match s with
  | EmptyString => Some []
  | String b s1 =>
      let n := Ascii.N_of_ascii b in
      if (n <? 128)%N then cons n <$> decode s1
      else if (n <? 192)%N then None
      else if (n <? 224)%N then
        match s1 with
        | String b1 s2 =>
            match continuation b1 with
            | Some c1 =>
                let cp := ((n - 192) * 64 + c1)%N in
                if (128 <=? cp)%N then cons cp <$> decode s2 else None
            | None => None
            end
        | EmptyString => None
        end
      else if (n <? 240)%N then
        match s1 with
        | String b1 (String b2 s3) =>
            match continuation b1, continuation b2 with
            | Some c1, Some c2 =>
                let cp := ((n - 224) * 4096 + c1 * 64 + c2)%N in
                if (2048 <=? cp)%N && negb ((55296 <=? cp)%N && (cp <=? 57343)%N)
                then cons cp <$> decode s3 else None
            | _, _ => None
            end
        | _ => None
        end
      else if (n <? 248)%N then
        match s1 with
        | String b1 (String b2 (String b3 s4)) =>
            match continuation b1, continuation b2, continuation b3 with
            | Some c1, Some c2, Some c3 =>
                let cp := ((n - 240) * 262144 + c1 * 4096 + c2 * 64 + c3)%N in
                if (65536 <=? cp)%N && (cp <=? 1114111)%N
                then cons cp <$> decode s4 else None
            | _, _, _ => None
            end
        | _ => None
        end
      else None
  end.

(** The blanks [int] skips: those of C among the ASCII characters, and
    the Unicode whitespace beyond them. *)
Definition is_space (c : N) : bool :=
  ((9 <=? c) && (c <=? 13) || (c =? 32) || (c =? 133) || (c =? 160) || (c =? 5760)
   || (8192 <=? c) && (c <=? 8202) || (c =? 8232) || (c =? 8233) || (c =? 8239)
   || (c =? 8287) || (c =? 12288))%N.

Fixpoint lstrip (l : list N) : list N :=
  match l with
  | c :: l' => if is_space c then lstrip l' else l
  | [] => []
  end.

Definition strip (l : list N) : list N := reverse (lstrip (reverse (lstrip l))).

(** The runs of decimal digits of Unicode 14, which CPython 3.11 carries:
    the code point of a zero and the length of the run, in which the
    values go round from 0 to 9. *)
Definition decimal_runs : list (N * N) :=
  [(48, 10); (1632, 10); (1776, 10); (1984, 10); (2406, 10); (2534, 10); (2662, 10);
   (2790, 10); (2918, 10); (3046, 10); (3174, 10); (3302, 10); (3430, 10); (3558, 10);
   (3664, 10); (3792, 10); (3872, 10); (4160, 10); (4240, 10); (6112, 10); (6160, 10);
   (6470, 10); (6608, 10); (6784, 10); (6800, 10); (6992, 10); (7088, 10); (7232, 10);
   (7248, 10); (42528, 10); (43216, 10); (43264, 10); (43472, 10); (43504, 10);
   (43600, 10); (44016, 10); (65296, 10); (66720, 10); (68912, 10); (69734, 10);
   (69872, 10); (69942, 10); (70096, 10); (70384, 10); (70736, 10); (70864, 10);
   (71248, 10); (71360, 10); (71472, 10); (71904, 10); (72016, 10); (72784, 10);
   (73040, 10); (73120, 10); (92768, 10); (92864, 10); (93008, 10); (120782, 50);
   (123200, 10); (123632, 10); (125264, 10); (130032, 10)]%N.

Definition digit_of (c : N) : option Z :=
  match List.find (fun r => (fst r <=? c) && (c <? fst r + snd r))%N decimal_runs with
  | Some r => Some (Z.of_N ((c - fst r) mod 10))
  | None => None
  end.

(** The digits of an integer literal; a single underscore may stand
    between two digits.  [prev] tells whether the last character read was
    a digit, [count] how many digits have been read. *)
Fixpoint digits (acc : Z) (count : N) (prev : bool) (l : list N) : option (Z * N) :=
  match l with
  | [] => if prev then Some (acc, count) else None
  | c :: l' =>
      match digit_of c with
      | Some d => digits (10 * acc + d)%Z (count + 1)%N true l'
      | None =>
          if (c =? 95)%N && prev
          then match l' with
               | c' :: _ =>
                   match digit_of c' with
                   | Some _ => digits acc count false l'
                   | None => None
                   end
               | [] => None
               end
          else None
      end
  end.

(** [sys.get_int_max_str_digits()], as CPython sets it. *)
Definition int_max_str_digits : N := 4300.

(** [int(s)] on a string: surrounding whitespace, an optional sign, then
    decimal digits, of any script, no more than the interpreter allows;
    [None] stands for [ValueError]. *)
Definition to_int (s : string) : option Z :=
  match decode s with
  | Some l =>
      let '(negative, body) :=
        match strip l with
        | 45%N :: l' => (true, l')
        | 43%N :: l' => (false, l')
        | l' => (false, l')
        end in
      match digits 0%Z 0%N false body with
      | Some (n, count) =>
          if (count <=? int_max_str_digits)%N
          then Some (if negative then (- n)%Z else n)
          else None
      | None => None
      end
  | None => None
  end.

(** [str(n)] on an integer, as an f-string formats it. *)
Definition of_int (n : Z) : string :=
  NilZero.string_of_int (Z.to_int n).

End PyString.

(** ** Results of fallible operations *)

Inductive result (A : Type) :=
  | Ok (a : A)
  | Raise (e : exn).
Arguments Ok {A} a.
Arguments Raise {A} e.

(** Results in sequence, for the pure parts of the script. *)
#[global] Instance result_bind : MBind result :=
  fun A B f r => match r with Ok a => f a | Raise e => Raise e end.

(** [l[i]] on a list: [IndexError] out of range. *)
Definition py_index {A} (l : list A) (i : nat) : result A :=
  match l !! i with
  | Some x => Ok x
  | None => Raise IndexError
  end.

(** [v.split(sep)] on a value of the script: [None] has no [split]. *)
Definition py_split (v : pyval) (sep : string) : result (list string) :=
  match v with
  | PStr s => Ok (PyString.split s sep)
  | PNone => Raise AttributeError
  end.

(** ** The browser: static page snapshots *)

Module Selenium.

(** A DOM node as the script sees it: its tag, its classes, its
    attributes (already resolved, as [get_attribute] returns them), its
    visible text and its children. *)
#[local] Unset Elimination Schemes.
Inductive element :=
  Elem (tag : string) (classes : list string) (attrs : list (string * string))
       (text : string) (children : list element).
#[local] Set Elimination Schemes.

Definition tag (e : element) : string := let 'Elem t _ _ _ _ := e in t.
Definition classes (e : element) : list string := let 'Elem _ c _ _ _ := e in c.
Definition attrs (e : element) : list (string * string) := let 'Elem _ _ a _ _ := e in a.
Definition text (e : element) : string := let 'Elem _ _ _ t _ := e in t.
Definition children (e : element) : list element := let 'Elem _ _ _ _ c := e in c.

Record page := Page { page_source : string; root : element }.

(** The nodes below [e], in document order. *)
Fixpoint descendants (e : element) : list element :=
  match e with
  | Elem _ _ _ _ cs => flat_map (fun c => c :: descendants c) cs
  end.

Definition document (p : page) : list element := root p :: descendants (root p).

(** [get_attribute(name)]: [None] when the attribute is not set. *)
Definition get_attribute (e : element) (name : string) : pyval :=
  match List.find (fun kv => String.eqb (fst kv) name) (attrs e) with
  | Some kv => PStr (snd kv)
  | None => PNone
  end.

(** A class name is turned into the CSS selector [.name], so that
    ['brgt.mcfw'] asks for both classes. *)
Definition has_class_name (name : string) (e : element) : bool :=
  forallb (fun c => bool_decide (c ∈ classes e)) (PyString.split name ".").

Definition has_tag_name (name : string) (e : element) : bool :=
  String.eqb (tag e) name.

Definition has_link_text (t : string) (e : element) : bool :=
  has_tag_name "a" e && String.eqb (text e) t.

Definition has_partial_link_text (t : string) (e : element) : bool :=
  has_tag_name "a" e && PyString.contains t (text e).

(** [find_element_by_*]: the first match in document order, or
    [NoSuchElementException]. *)
Definition find_element (by_ : element -> bool) (scope : list element) : result element :=
  match List.find by_ scope with
  | Some e => Ok e
  | None => Raise NoSuchElementException
  end.

(** [find_elements_by_*]: every match, possibly none. *)
Definition find_elements (by_ : element -> bool) (scope : list element) : list element :=
  List.filter by_ scope.

End Selenium.
Import Selenium.

(** ** Dictionaries *)

(** A second-level dictionary: the fields of one gallery entry. *)
Abbreviation entry := (gmap string pyval).

Module PyDict.

(** The first-level dictionary keeps its insertion order, in which the
    script iterates and writes the rows. *)
Definition dict (V : Type) : Type := list (string * V).

Section Ops.
Context {V : Type}.

Fixpoint get (k : string) (d : dict V) : option V :=
  match d with
  | [] => None
  | (k', v) :: d' => if String.eqb k' k then Some v else get k d'
  end.

(** [d[k] = v]: in place when the key is there, at the end otherwise. *)
Fixpoint set (k : string) (v : V) (d : dict V) : dict V :=
  match d with
  | [] => [(k, v)]
  | (k', v') :: d' => if String.eqb k' k then (k', v) :: d' else (k', v') :: set k v d'
  end.

Definition keys (d : dict V) : list string := map fst d.

End Ops.

End PyDict.
Import PyDict.

(** [v in m.values()] *)
Definition in_values (v : pyval) (m : entry) : bool :=
  existsb (py_eq v) (map snd (map_to_list m)).

(** [m.get(field) or k] *)
Definition get_or (m : entry) (field k : string) : pyval :=
  match m !! field with
  | Some v => if truthy v then v else PStr k
  | None => PStr k
  end.

(** ** The script's state and its monad *)

(** What [print] writes, with the interpolated values kept as data. *)
Inductive message :=
  | MsgTimedOut
  | MsgVisiting (url : string)
  | MsgWorkingOn (webpage : pyval)
  | MsgCheckingLinks (map_key : string)
  | MsgRasterCheckError (e : entry)
  | MsgGallery (g : dict entry)
  | MsgWritingCsv
  | MsgCsvWritten.

(** [fetched] lists the arguments of every [driver.get] call, [current] is
    the page the driver shows, [gallerylinks] is the one two-level
    dictionary the script builds and then mutates in place, [csvfile] the
    lines written so far. *)
Record state := State {
  fetched : list pyval;
  current : page;
  printed : list message;
  gallerylinks : dict entry;
  csvfile : list (list pyval)
}.

Definition M (A : Type) : Type := state -> result A * state.

Definition ret {A} (a : A) : M A := fun s => (Ok a, s).

Definition bind {A B} (m : M A) (f : A -> M B) : M B :=
  fun s =>
    match m s with
    | (Ok a, s') => f a s'
    | (Raise e, s') => (Raise e, s')
    end.

Declare Scope py_scope.
Delimit Scope py_scope with py.
Notation "x <- m ;; k" := (bind m (fun x => k))
  (at level 100, m at next level, right associativity) : py_scope.
Notation "m ;; k" := (bind m (fun _ => k))
  (at level 100, right associativity) : py_scope.
Open Scope py_scope.

(** A pure operation that may raise. *)
Definition lift {A} (r : result A) : M A := fun s => (r, s).

Definition raise {A} (e : exn) : M A := lift (Raise e).

(** [try: m except e: h]; what [m] did before raising stays done. *)
Definition try_except {A} (m : M A) (e : exn) (h : M A) : M A :=
  fun s =>
    match m s with
    | (Raise e', s') => if decide (e' = e) then h s' else (Raise e', s')
    | r => r
    end.

(** [for x in l: body x] *)
Fixpoint for_each {A} (l : list A) (body : A -> M unit) : M unit :=
  match l with
  | [] => ret tt
  | x :: l' => body x ;; for_each l' body
  end.

Definition print (m : message) : M unit :=
  fun s => (Ok tt, State (fetched s) (current s) (printed s ++ [m]) (gallerylinks s) (csvfile s)).

Definition read_gallery : M (dict entry) := fun s => (Ok (gallerylinks s), s).

Definition write_gallery (g : dict entry) : M unit :=
  fun s => (Ok tt, State (fetched s) (current s) (printed s) g (csvfile s)).

(** [gallerylinks[k]] *)
Definition get_entry (k : string) : M entry :=
  g <- read_gallery ;;
  match PyDict.get k g with
  | Some e => ret e
  | None => raise KeyError
  end.

(** [gallerylinks[k][field]] *)
Definition get_field (k field : string) : M pyval :=
  e <- get_entry k ;;
  match e !! field with
  | Some v => ret v
  | None => raise KeyError
  end.

(** [gallerylinks[k] = {}] *)
Definition new_entry (k : string) : M unit :=
  g <- read_gallery ;; write_gallery (PyDict.set k ∅ g).

(** [gallerylinks[k][field] = v] *)
Definition set_field (k field : string) (v : pyval) : M unit :=
  e <- get_entry k ;;
  g <- read_gallery ;;
  write_gallery (PyDict.set k (<[field := v]> e) g).

(** One row written to the report.  The file is opened in the default
    encoding of the platform, which is taken to be UTF-8: every string can
    be written, and a row never fails.  Under an encoding that lacks a
    character of a cell, [writerow] would raise [UnicodeEncodeError]; such
    platforms are outside this model, and so are the failures of [open]. *)
Definition write_line (cells : list pyval) : M unit :=
  fun s => (Ok tt, State (fetched s) (current s) (printed s) (gallerylinks s) (csvfile s ++ [cells])).

(** ** The driver *)

Section Driver.

(** The web as the browser renders it: the page behind a URL, or the
    exception [driver.get] raises for it. *)
Variable web : pyval -> result page.

(** [driver.get(url)] *)
Definition driver_get (url : pyval) : M unit :=
  fun s =>
    let log := fetched s ++ [url] in
    match web url with
    | Ok p => (Ok tt, State log p (printed s) (gallerylinks s) (csvfile s))
    | Raise e => (Raise e, State log (current s) (printed s) (gallerylinks s) (csvfile s))
    end.

(** [driver.page_source] *)
Definition driver_page_source : M string :=
  fun s => (Ok (page_source (current s)), s).

(** [driver.find_element_by_...] and [driver.find_elements_by_...] *)
Definition driver_find_element (by_ : element -> bool) : M element :=
  fun s => (find_element by_ (document (current s)), s).

Definition driver_find_elements (by_ : element -> bool) : M (list element) :=
  fun s => (Ok (find_elements by_ (document (current s))), s).

(** [element.find_element_by_...] *)
Definition element_find_element (e : element) (by_ : element -> bool) : M element :=
  lift (find_element by_ (descendants e)).

(** [WebDriverWait(driver, waittime).until(presence_of_element_located(by))]
    on a static page: the element is there, or the wait times out. *)
Definition wait_until_present (by_ : element -> bool) : M unit :=
  fun s =>
    match find_element by_ (document (current s)) with
    | Ok _ => (Ok tt, s)
    | Raise _ => (Raise TimeoutException, s)
    end.

End Driver.

(** ** The script *)

Definition link_values : list string :=
  ["REST_Link"; "AGOL_Link"; "Metadata_Link"; "WFS_Link"; "WMS_Link"; "Iframe_Webmap_Link"].

Definition error_msg : list string :=
  ["Please contact your system administrator."; "Unauthorized"; "Not Found";
   "Item does not exist or is inaccessible."; "Error occurred while processing request";
   "Error occurred"; "Please contact your system administrator."].

Definition csv_fields : list string :=
  ["gallery_entry_name"; "Gallery_Link"; "REST_Link"; "AGOL_Link"; "Metadata_Link"; "WFS_Link";
   "WMS_Link"; "Iframe_Webmap_Link"; "Iframe_Webmap_ID"; "PDF_Link_Text"; "PDF_Download_LINK";
   "PDF_File_Size"; "REST_Link_Status"; "AGOL_Link_Status"; "Metadata_Link_Status";
   "WFS_Link_Status"; "WMS_Link_Status"; "Iframe_Webmap_Link_Status"; "Summary Status"].

Definition gallery_url : string :=
  "https://www.cityofsalinas.org/our-government/information-center/map-gallery".

Section Script.

Variable web : pyval -> result page.

Definition load_map_page (URL : pyval) : M unit :=
  driver_get web URL ;;
  try_except
    (wait_until_present (has_partial_link_text "Services Directory"))
    TimeoutException
    (print MsgTimedOut).

Definition totalpages (URL : pyval) : M string :=
  driver_get web URL ;;
  pager <- driver_find_element (has_class_name "pager-last.last") ;;
  a <- element_find_element pager (has_tag_name "a") ;;
  let last_page := py_str (get_attribute a "href") in
  max_pg <- lift (py_index (PyString.split last_page "=") 1) ;;
  ret max_pg.

(** The loop of [gallery_links_visit], with [links_visited] passed along. *)
Fixpoint gallery_links_loop (linkcontainers : list element) (links_visited : list pyval)
  : M (list pyval) :=
  match linkcontainers with
  | [] => ret links_visited
  | item :: rest =>
      a <- element_find_element item (has_tag_name "a") ;;
      gallery_links_loop rest (links_visited ++ [get_attribute a "href"])
  end.

Definition gallery_links_visit (URL : pyval) : M (list pyval) :=
  driver_get web URL ;;
  linkcontainers <- driver_find_elements (has_class_name "brgt.mcfw") ;;
  gallery_links_loop linkcontainers [].

(** One [try]/[except NoSuchElementException] block of [galleryentries]
    that looks for a link and stores its [href] under [field]. *)
Definition scrape_link (shortname field : string) (by_ : element -> bool) : M unit :=
  try_except
    (a <- driver_find_element by_ ;;
     set_field shortname field (get_attribute a "href"))
    NoSuchElementException
    (set_field shortname field (PStr "Error")).

Definition scrape_metadata (shortname : string) : M unit :=
  try_except
    (pane <- driver_find_element (has_class_name "pane-node-field-map-meta-data") ;;
     a <- element_find_element pane (has_tag_name "a") ;;
     set_field shortname "Metadata_Link" (get_attribute a "href"))
    NoSuchElementException
    (set_field shortname "Metadata_Link" (PStr "Error")).

Definition scrape_iframe (shortname : string) : M unit :=
  try_except
    (field <- driver_find_element (has_class_name "field-name-field-map-iframe") ;;
     iframeElement <- element_find_element field (has_tag_name "iframe") ;;
     parts <- lift (py_split (get_attribute iframeElement "src") "&extent") ;;
     webmaplink <- lift (py_index parts 0) ;;
     set_field shortname "Iframe_Webmap_Link" (PStr webmaplink) ;;
     webmap_id <- lift (py_index (PyString.split webmaplink "webmap=") 1) ;;
     set_field shortname "Iframe_Webmap_ID" (PStr webmap_id))
    NoSuchElementException
    (set_field shortname "Iframe_Webmap_Link" (PStr "Error") ;;
     set_field shortname "Iframe_Webmap_ID" (PStr "Error")).

Definition scrape_pdf (shortname : string) : M unit :=
  try_except
    (PDFDiv <- driver_find_element (has_class_name "pane-node-field-map-pdf") ;;
     a <- element_find_element PDFDiv (has_tag_name "a") ;;
     set_field shortname "PDF_Link_Text" (PStr (text a)) ;;
     a' <- element_find_element PDFDiv (has_tag_name "a") ;;
     set_field shortname "PDF_Download_Link" (get_attribute a' "href") ;;
     size <- element_find_element PDFDiv (has_class_name "file-size") ;;
     set_field shortname "PDF_File_Size" (PStr (text size)))
    NoSuchElementException
    (set_field shortname "PDF_Link_Text" (PStr "Error") ;;
     set_field shortname "PDF_Download_Link" (PStr "Error") ;;
     set_field shortname "PDF_File_Size" (PStr "Error")).

(** What [galleryentries] stores for one page once its key is known. *)
Definition scrape_entry (shortname : string) (webpage : pyval) : M unit :=
  new_entry shortname ;;
  load_map_page webpage ;;
  set_field shortname "Gallery_Link" webpage ;;
  scrape_link shortname "REST_Link" (has_partial_link_text "Services Directory") ;;
  scrape_link shortname "AGOL_Link" (has_partial_link_text "ArcGIS Online") ;;
  scrape_metadata shortname ;;
  scrape_link shortname "WFS_Link" (has_link_text "WFS") ;;
  scrape_link shortname "WMS_Link" (has_link_text "WMS") ;;
  scrape_iframe shortname ;;
  scrape_pdf shortname.

(** The body of the loop of [galleryentries]. *)
Definition gallery_entry (webpage : pyval) : M unit :=
  print (MsgWorkingOn webpage) ;;
  parts <- lift (py_split webpage "/map/") ;;
  shortname <- lift (py_index parts 1) ;;
  scrape_entry shortname webpage.

(** [res] is the dictionary the script goes on to call [gallerylinks]. *)
Definition galleryentries (links_to_visit : list pyval) : M unit :=
  write_gallery [] ;;
  for_each links_to_visit gallery_entry.

(** The body of the inner loop of [checklinks]. *)
Definition check_link (map_key id_key : string) : M unit :=
  v <- get_field map_key id_key ;;
  if py_eq v (PStr "Error")
  then set_field map_key (id_key +:+ "_Status") (PStr "Error")
  else
    URL <- get_field map_key id_key ;;
    driver_get web URL ;;
    page_text <- driver_page_source ;;
    let valid_link := existsb (fun i => PyString.contains i page_text) error_msg in
    if valid_link
    then set_field map_key (id_key +:+ "_Status") (PStr "Error")
    else set_field map_key (id_key +:+ "_Status") (PStr "Active").

(** The raster check that follows the inner loop. *)
Definition check_raster (map_key : string) : M unit :=
  wfs <- get_field map_key "WFS_Link" ;;
  if py_eq wfs (PStr "Error")
  then
    try_except
      (rest <- get_field map_key "REST_Link" ;;
       let url := py_str rest +:+ "/0" in
       driver_get web (PStr url) ;;
       page_text <- driver_page_source ;;
       if PyString.contains "Raster Layer" page_text
       then
         set_field map_key "WFS_Link" (PStr "NA-Raster") ;;
         set_field map_key "WFS_Link_Status" (PStr "NA-Raster")
       else ret tt)
      InvalidArgumentException
      (e <- get_entry map_key ;;
       print (MsgRasterCheckError e) ;;
       set_field map_key "WFS_Link_Status" (PStr "Error"))
  else ret tt.

(** The body of the outer loop of [checklinks]. *)
Definition check_entry (map_key : string) : M unit :=
  print (MsgCheckingLinks map_key) ;;
  for_each link_values (check_link map_key) ;;
  check_raster map_key.

Definition checklinks : M unit :=
  g <- read_gallery ;;
  for_each (keys g) check_entry.

(** The body of the loop of [dictsumvalue]. *)
Definition sum_entry (map_keys : string) : M unit :=
  e <- get_entry map_keys ;;
  if in_values (PStr "Error") e
  then set_field map_keys "Summary Status" (PStr "Error")
  else set_field map_keys "Summary Status" (PStr "No problem").

Definition dictsumvalue : M unit :=
  g <- read_gallery ;;
  for_each (keys g) sum_entry.

(** [{field: gallerylinks[k].get(field) or k for field in csv_fields}] *)
Definition csv_row (k : string) (e : entry) : list (string * pyval) :=
  map (fun field => (field, get_or e field k)) csv_fields.

(** [DictWriter.writerow]: the cells in the order of the field names, an
    empty cell for a name the row lacks, [ValueError] for a key that is
    no field name. *)
Definition writerow (fieldnames : list string) (row : list (string * pyval)) : M unit :=
  if forallb (fun kv => bool_decide (fst kv ∈ fieldnames)) row
  then write_line (map (fun f => default (PStr "") (snd <$> List.find (fun kv => String.eqb (fst kv) f) row))
                       fieldnames)
  else raise ValueError.

Definition write_csv : M unit :=
  write_line (map PStr csv_fields) ;;
  g <- read_gallery ;;
  for_each (keys g) (fun k => e <- get_entry k ;; writerow csv_fields (csv_row k e)).

(** [int(totalpages(URL))] *)
Definition count_pages : M Z :=
  max_pg <- totalpages (PStr gallery_url) ;;
  match PyString.to_int max_pg with
  | Some n => ret n
  | None => raise ValueError
  end.

Definition page_url (page : Z) : string :=
  gallery_url +:+ "?page=" +:+ PyString.of_int page.

(** [range(1, pages + 1)] *)
Definition page_range (pages : Z) : list Z :=
  map (fun i => Z.of_nat (S i)) (seq 0 (Z.to_nat pages)).

(** The loop over the remaining index pages, with [links_to_visit]
    passed along. *)
Fixpoint collect_pages (pages : list Z) (links_to_visit : list pyval) : M (list pyval) :=
  match pages with
  | [] => ret links_to_visit
  | page :: rest =>
      let URL := page_url page in
      print (MsgVisiting URL) ;;
      links <- gallery_links_visit (PStr URL) ;;
      collect_pages rest (links_to_visit ++ links)
  end.

(** Index page 1 and then the others. *)
Definition collect_links (pages : Z) : M (list pyval) :=
  links <- gallery_links_visit (PStr gallery_url) ;;
  collect_pages (page_range pages) ([] ++ links).

(** The pages count and the links of all index pages. *)
Definition crawl : M (list pyval) :=
  pages <- count_pages ;;
  collect_links pages.

(** The script from its first statement to the written file. *)
Definition main : M unit :=
  links_to_visit <- crawl ;;
  galleryentries links_to_visit ;;
  checklinks ;;
  g <- read_gallery ;;
  print (MsgGallery g) ;;
  dictsumvalue ;;
  print MsgWritingCsv ;;
  write_csv ;;
  print MsgCsvWritten.

End Script.

(** The fields the script stores in an entry: those [galleryentries]
    scrapes, the statuses of [checklinks] and the summary. *)
Definition scraped_fields : list string :=
  ["Gallery_Link"; "REST_Link"; "AGOL_Link"; "Metadata_Link"; "WFS_Link"; "WMS_Link";
   "Iframe_Webmap_Link"; "Iframe_Webmap_ID"; "PDF_Link_Text"; "PDF_Download_Link";
   "PDF_File_Size"].

Definition status_fields : list string :=
  map (fun id_key => id_key +:+ "_Status") link_values.

Definition stored_fields : list string :=
  scraped_fields ++ status_fields ++ ["Summary Status"].

(** ** A small gallery to run the script on *)

Module Sample.

Definition a_link (href txt : string) : element := Elem "a" [] [("href", href)] txt [].
Definition div (cls : list string) (cs : list element) : element := Elem "div" cls [] "" cs.
Definition html (cs : list element) : element := Elem "html" [] [] "" cs.
Definition plain (source : string) : page := Page source (html []).

(** An index page with one entry and, when [last] is given, the
    last-page control. *)
Definition index_page (entry_url : string) (last : option string) : page :=
  Page "<html>map gallery</html>"
    (html (div ["brgt"; "mcfw"] [a_link entry_url "map"] ::
           match last with
           | Some href => [Elem "li" ["pager-last"; "last"] [] "" [a_link href "last"]]
           | None => []
           end)).

(** An entry with every link, and one with neither WFS, metadata,
    iframe nor PDF. *)
Definition zoning : page :=
  Page "zoning"
    (html [a_link "https://gis/rest/zoning" "View ArcGIS REST Services Directory";
           a_link "https://agol/zoning" "View in ArcGIS Online";
           div ["pane-node-field-map-meta-data"] [a_link "https://meta/zoning" "Metadata"];
           a_link "https://gis/wfs/zoning" "WFS";
           a_link "https://gis/wms/zoning" "WMS";
           div ["field-name-field-map-iframe"]
             [Elem "iframe" [] [("src", "https://arcgis/view?webmap=abc&extent=1,2")] "" []];
           div ["pane-node-field-map-pdf"]
             [a_link "https://h/zoning.pdf" "Zoning PDF"; Elem "span" ["file-size"] [] "2 MB" []]]).

Definition aerial : page :=
  Page "aerial"
    (html [a_link "https://gis/rest/aerial" "Services Directory";
           a_link "https://agol/aerial" "ArcGIS Online";
           a_link "https://gis/wms/aerial" "WMS"]).

(** An entry whose iframe does not name a web map. *)
Definition parcels : page :=
  Page "parcels"
    (html [div ["field-name-field-map-iframe"]
             [Elem "iframe" [] [("src", "https://arcgis/apps/viewer?id=7&extent=1,2")] "" []]]).

(** A gallery of two index pages: the last-page control points to
    page 1. *)
Definition web (u : pyval) : result page :=
  match u with
  | PNone => Raise InvalidArgumentException
  | PStr s =>
      if String.eqb s gallery_url
      then Ok (index_page "https://h/map/zoning" (Some (gallery_url +:+ "?page=1")))
      else if String.eqb s (gallery_url +:+ "?page=1")
      then Ok (index_page "https://h/map/aerial" None)
      else if String.eqb s "https://h/map/zoning" then Ok zoning
      else if String.eqb s "https://h/map/aerial" then Ok aerial
      else if String.eqb s "https://h/map/parcels" then Ok parcels
      else if String.eqb s "https://gis/rest/aerial/0" then Ok (plain "Type: Raster Layer")
      else if String.eqb s "https://agol/aerial"
      then Ok (plain "Item does not exist or is inaccessible.")
      else if PyString.contains "://" s then Ok (plain "fine")
      else Raise InvalidArgumentException
  end.

(** The index pages of a gallery of five pages, numbered 0 to 4; each
    carries the last-page control, which points to page 4. *)
Definition index_pages : list (string * page) :=
  map (fun i => (if Z.eqb i 0 then gallery_url else gallery_url +:+ "?page=" +:+ PyString.of_int i,
                 index_page ("https://h/map/m" +:+ PyString.of_int i)
                            (Some (gallery_url +:+ "?page=4"))))
      [0; 1; 2; 3; 4]%Z.

Definition web5 (u : pyval) : result page :=
  match u with
  | PNone => Raise InvalidArgumentException
  | PStr s =>
      match List.find (fun up => String.eqb (fst up) s) index_pages with
      | Some up => Ok (snd up)
      | None => Raise WebDriverException
      end
  end.


(** The state the script starts in: a blank page, nothing printed. *)
Definition start : state := State [] (plain "") [] [] [].

(** Entries as [galleryentries] leaves them. *)
Definition aerial_entry : entry :=
  list_to_map
    [("Gallery_Link", PStr "https://h/map/aerial"); ("REST_Link", PStr "https://gis/rest/aerial");
     ("AGOL_Link", PStr "https://agol/aerial"); ("Metadata_Link", PStr "Error");
     ("WFS_Link", PStr "Error"); ("WMS_Link", PStr "https://gis/wms/aerial");
     ("Iframe_Webmap_Link", PStr "Error"); ("Iframe_Webmap_ID", PStr "Error");
     ("PDF_Link_Text", PStr "Error"); ("PDF_Download_Link", PStr "Error");
     ("PDF_File_Size", PStr "Error")].

(** An entry of a raster service after [checklinks]: everything active,
    WFS not applicable. *)
Definition raster_entry : entry :=
  list_to_map
    [("Gallery_Link", PStr "https://h/map/aerial"); ("REST_Link", PStr "https://gis/rest/aerial");
     ("REST_Link_Status", PStr "Active"); ("WFS_Link", PStr "NA-Raster");
     ("WFS_Link_Status", PStr "NA-Raster"); ("WMS_Link", PStr "https://gis/wms/aerial");
     ("WMS_Link_Status", PStr "Active")].

Definition scraped : state := State [] (plain "") [] [("aerial", aerial_entry)] [].

(** An entry on whose page no link was found, and the dictionary with
    both entries. *)
Definition bare_entry : entry :=
  list_to_map
    [("Gallery_Link", PStr "https://h/map/bare"); ("REST_Link", PStr "Error");
     ("AGOL_Link", PStr "Error"); ("Metadata_Link", PStr "Error");
     ("WFS_Link", PStr "Error"); ("WMS_Link", PStr "Error");
     ("Iframe_Webmap_Link", PStr "Error"); ("Iframe_Webmap_ID", PStr "Error");
     ("PDF_Link_Text", PStr "Error"); ("PDF_Download_Link", PStr "Error");
     ("PDF_File_Size", PStr "Error")].

Definition scraped_two : state :=
  State [] (plain "") [] [("aerial", aerial_entry); ("bare", bare_entry)] [].

Definition checked : state :=
  State [] (plain "") [] [("aerial", raster_entry); ("broken", <["WMS_Link_Status" := PStr "Error"]> raster_entry)] [].

End Sample.

(** ** Relating the states of a run *)

(** Every run of [m], whether it returns or raises, takes a state to one
    related to it by [R]. *)
Definition respects (R : relation state) {A} (m : M A) : Prop :=
  forall s r s', m s = (r, s') -> R s s'.

(** Relations that look at one component of the state. *)
Definition on_gallery (R : relation (dict entry)) : relation state :=
  fun s s' => R (gallerylinks s) (gallerylinks s').

Definition on_fetched (R : relation (list pyval)) : relation state :=
  fun s s' => R (fetched s) (fetched s').

(** A component of the state stays as it is. *)
Definition unchanged {A} (proj : state -> A) : relation state :=
  fun s s' => proj s' = proj s.

(** The field [f] of the entry [k], when both are there. *)
Definition field_of (k f : string) (g : dict entry) : option pyval :=
  PyDict.get k g ≫= fun e => e !! f.

(** [P] is kept once it holds. *)
Definition kept {A} (P : A -> Prop) : relation A := fun x y => P x -> P y.

(** The status [check_link] gives to a link whose page is [p]. *)
Definition status_of (p : page) : pyval :=
  PStr (if existsb (fun i => PyString.contains i (page_source p)) error_msg
        then "Error" else "Active").

(** The summary [dictsumvalue] gives to an entry, and the entry with it. *)
Definition summary_of (e : entry) : string :=
  if in_values (PStr "Error") e then "Error" else "No problem".

Definition summed (e : entry) : entry :=
  <["Summary Status" := PStr (summary_of e)]> e.

(** The cells of the row of [k]. *)
Definition cells_of (k : string) (e : entry) : list pyval :=
  map (fun field => get_or e field k) csv_fields.

(** The entry of [shortname] is there and the driver shows [p]: what holds
    between the blocks of [galleryentries] for one page. *)
Definition settled (shortname : string) (p : page) (s : state) : Prop :=
  is_Some (PyDict.get shortname (gallerylinks s)) /\ current s = p.

(** Every run of [m] that returns ends in a state where [Q] holds. *)
Definition ensures {A} (m : M A) (Q : state -> Prop) : Prop :=
  forall s a s', m s = (Ok a, s') -> Q s'.

(** The entry [k] has the field [f]. *)
Definition has_field (k f : string) (s : state) : Prop :=
  is_Some (field_of k f (gallerylinks s)).

(** No entry has a field outside [F]. *)
Definition fields_in (F : list string) (g : dict entry) : Prop :=
  forall k e f, PyDict.get k g = Some e -> is_Some (e !! f) -> f ∈ F.

(** The entry [k], and the keys, stay as they are. *)
Definition same_entry (k : string) : relation (dict entry) :=
  fun g g' => PyDict.get k g' = PyDict.get k g.

Definition same_keys : relation (dict entry) :=
  fun g g' => keys g' = keys g.

(** Every entry has the fields [galleryentries] scrapes. *)
Definition all_scraped (s : state) : Prop :=
  forall k f, k ∈ keys (gallerylinks s) -> f ∈ scraped_fields -> has_field k f s.

(** The link field [id_key] of the entry [k] holds [url], in a run that
    started with the log [log0]; and moreover the run has fetched [url]
    and recorded the status of its page. *)
Definition link_intact (log0 : list pyval) (k id_key : string) (url : pyval) (s : state) : Prop :=
  field_of k id_key (gallerylinks s) = Some url /\ exists l, fetched s = log0 ++ l.

Definition link_checked (web : pyval -> result page) (log0 : list pyval) (k id_key : string)
    (url : pyval) (s : state) : Prop :=
  field_of k id_key (gallerylinks s) = Some url /\
  exists p l, web url = Ok p /\
    field_of k (id_key +:+ "_Status") (gallerylinks s) = Some (status_of p) /\
    fetched s = log0 ++ l /\ url ∈ l.

(** What a link block of [galleryentries] stores: the [href] of the
    element when it was found, the absent marker otherwise. *)
Definition href_or_error (found : result element) : pyval :=
  match found with
  | Ok a => get_attribute a "href"
  | Raise _ => PStr "Error"
  end.

(** The entry of a page after the blocks that come before the iframe. *)
Definition links_entry (p : page) (webpage : pyval) : entry :=
  <["WMS_Link" := href_or_error (find_element (has_link_text "WMS") (document p))]>
  (<["WFS_Link" := href_or_error (find_element (has_link_text "WFS") (document p))]>
  (<["Metadata_Link" :=
       href_or_error
         (pane ← find_element (has_class_name "pane-node-field-map-meta-data") (document p);
          find_element (has_tag_name "a") (descendants pane))]>
  (<["AGOL_Link" :=
       href_or_error (find_element (has_partial_link_text "ArcGIS Online") (document p))]>
  (<["REST_Link" :=
       href_or_error (find_element (has_partial_link_text "Services Directory") (document p))]>
  (<["Gallery_Link" := webpage]> ∅))))).

(** The two iframe fields of an entry, given the page: absent markers when
    the pane or its iframe is missing; otherwise the source up to
    ["&extent"] and, of that, what follows ["webmap="]. *)
Definition iframe_fields (p : page) (e : entry) : Prop :=
  match field ← find_element (has_class_name "field-name-field-map-iframe") (document p);
        find_element (has_tag_name "iframe") (descendants field) with
  | Raise _ =>
      e !! "Iframe_Webmap_Link" = Some (PStr "Error") /\
      e !! "Iframe_Webmap_ID" = Some (PStr "Error")
  | Ok iframe =>
      exists src webmaplink webmap_id,
        get_attribute iframe "src" = PStr src /\
        PyString.split src "&extent" !! 0 = Some webmaplink /\
        PyString.split webmaplink "webmap=" !! 1 = Some webmap_id /\
        e !! "Iframe_Webmap_Link" = Some (PStr webmaplink) /\
        e !! "Iframe_Webmap_ID" = Some (PStr webmap_id)
  end.

(** The three PDF fields of an entry, given the page: those of the link
    and the size when the pane, its link and its size are all there, and
    three absent markers otherwise. *)
Definition pdf_fields (p : page) (e : entry) : Prop :=
  match PDFDiv ← find_element (has_class_name "pane-node-field-map-pdf") (document p);
        a ← find_element (has_tag_name "a") (descendants PDFDiv);
        size ← find_element (has_class_name "file-size") (descendants PDFDiv);
        Ok (a, size) with
  | Ok (a, size) =>
      e !! "PDF_Link_Text" = Some (PStr (text a)) /\
      e !! "PDF_Download_Link" = Some (get_attribute a "href") /\
      e !! "PDF_File_Size" = Some (PStr (text size))
  | Raise _ =>
      e !! "PDF_Link_Text" = Some (PStr "Error") /\
      e !! "PDF_Download_Link" = Some (PStr "Error") /\
      e !! "PDF_File_Size" = Some (PStr "Error")
  end.

(** The field [f] of the entry [k] stays as it is. *)
Definition same_field (k f : string) : relation (dict entry) :=
  fun g g' => field_of k f g' = field_of k f g.

(** The WFS link of the entry [k] stays as it is, or goes from the absent
    marker to the raster sentinel. *)
Definition wfs_kept_or_raster (k : string) : relation (dict entry) :=
  fun g g' =>
    field_of k "WFS_Link" g' = field_of k "WFS_Link" g \/
    (field_of k "WFS_Link" g = Some (PStr "Error") /\
     field_of k "WFS_Link" g' = Some (PStr "NA-Raster")).

(** ** What the Link Validator asks of the driver *)

(** The address [check_link] loads for the field [id_key] of [e]: none
    when the field holds the absent marker. *)
Definition link_fetch (e : entry) (id_key : string) : list pyval :=
  match e !! id_key with
  | Some v => if decide (v = PStr "Error") then [] else [v]
  | None => []
  end.

(** The address the raster check loads: none unless the WFS link is the
    absent marker. *)
Definition raster_fetch (e : entry) : list pyval :=
  match e !! "WFS_Link", e !! "REST_Link" with
  | Some wfs, Some rest =>
      if decide (wfs = PStr "Error") then [PStr (py_str rest +:+ "/0")] else []
  | _, _ => []
  end.

(** The addresses loaded for one entry, and for the whole dictionary in
    the order of its keys. *)
Definition entry_fetches (e : entry) : list pyval :=
  flat_map (link_fetch e) link_values ++ raster_fetch e.

Definition fetches_of (g : dict entry) (ks : list string) : list pyval :=
  flat_map (fun k => from_option entry_fetches [] (PyDict.get k g)) ks.

Definition validator_fetches (g : dict entry) : list pyval :=
  fetches_of g (keys g).

(** How the raster check leaves the WFS fields of an entry [e'] whose WFS
    link was the absent marker: [url] is the address it loads, [out] what
    the run has printed. *)
Definition raster_checked (web : pyval -> result page) (url : pyval) (e' : entry)
    (out : list message) : Prop :=
  match web url with
  | Ok p =>
      if PyString.contains "Raster Layer" (page_source p)
      then e' !! "WFS_Link" = Some (PStr "NA-Raster") /\
           e' !! "WFS_Link_Status" = Some (PStr "NA-Raster")
      else e' !! "WFS_Link" = Some (PStr "Error") /\
           e' !! "WFS_Link_Status" = Some (PStr "Error")
  | Raise InvalidArgumentException =>
      e' !! "WFS_Link" = Some (PStr "Error") /\
      e' !! "WFS_Link_Status" = Some (PStr "Error") /\
      MsgRasterCheckError e' ∈ out
  | Raise _ => False
  end.

(** How [checklinks] leaves an entry [e] that it has checked once: [e'] is
    the entry at the end. *)
Definition entry_checked (web : pyval -> result page) (e e' : entry)
    (out : list message) : Prop :=
  (forall f, f ∉ status_fields -> f <> "WFS_Link" -> e' !! f = e !! f) /\
  (forall id_key, id_key ∈ link_values -> id_key <> "WFS_Link" ->
     e !! id_key = Some (PStr "Error") ->
     e' !! (id_key +:+ "_Status") = Some (PStr "Error")) /\
  (forall wfs, e !! "WFS_Link" = Some wfs -> wfs <> PStr "Error" ->
     e' !! "WFS_Link" = Some wfs) /\
  (e !! "WFS_Link" = Some (PStr "Error") ->
     exists rest, e !! "REST_Link" = Some rest /\
       raster_checked web (PStr (py_str rest +:+ "/0")) e' out).

(** The link fields stay as they are, but for a WFS link that goes from
    the absent marker to the raster sentinel. *)
Definition links_kept : relation (dict entry) :=
  fun g g' =>
    forall k id_key v, id_key ∈ link_values ->
      field_of k id_key g = Some v ->
      field_of k id_key g' = Some v \/
      (id_key = "WFS_Link" /\ v = PStr "Error" /\
       field_of k id_key g' = Some (PStr "NA-Raster")).

(** [v] is an address the validator may load, given the dictionary [g]:
    the value of a link field, other than the absent marker, or the REST
    link, followed by ["/0"], of an entry whose WFS link is absent or has
    been found to be that of a raster. *)
Definition validator_fetch (g : dict entry) (v : pyval) : Prop :=
  (exists k id_key, id_key ∈ link_values /\ field_of k id_key g = Some v /\ v <> PStr "Error") \/
  (exists k rest,
     field_of k "REST_Link" g = Some rest /\ v = PStr (py_str rest +:+ "/0") /\
     (field_of k "WFS_Link" g = Some (PStr "Error") \/
      field_of k "WFS_Link" g = Some (PStr "NA-Raster"))).

(** The log has grown by such addresses only, and the links are kept. *)
Definition fetches_links : relation state :=
  fun s s' =>
    links_kept (gallerylinks s) (gallerylinks s') /\
    exists d, fetched s' = fetched s ++ d /\ Forall (validator_fetch (gallerylinks s')) d.

(** * Properties *)

(** ** Strings *)

Example split_page_example : PyString.split "https://h/map-gallery?page=4" "=" = ["https://h/map-gallery?page"; "4"].
Proof. reflexivity. Qed.

Example split_map_example : PyString.split "https://h/map/zoning/map/x" "/map/" = ["https://h"; "zoning"; "x"].
Proof. reflexivity. Qed.

Example split_absent_example : PyString.split "https://h/zoning" "/map/" = ["https://h/zoning"].
Proof. reflexivity. Qed.

Example split_overlap_example : PyString.split "aaaa" "aa" = [""; ""; ""].
Proof. reflexivity. Qed.

Example to_int_examples :
  PyString.to_int "4" = Some 4%Z /\ PyString.to_int " -1_0 " = Some (-10)%Z /\
  PyString.to_int "4&x" = None /\ PyString.to_int "" = None /\ PyString.to_int "1__0" = None.
Proof. repeat split; reflexivity. Qed.

(** [int] reads the digits and the blanks of every script, the blanks of
    C alone among the ASCII characters; it takes no more digits than the
    interpreter allows. *)
Example to_int_unicode_examples :
  PyString.to_int "٤" = Some 4%Z /\ PyString.to_int "-١٢" = Some (-12)%Z /\
  PyString.to_int "４ " = Some 4%Z /\ PyString.to_int " 4" = Some 4%Z /\
  PyString.to_int ("4" +:+ String (Ascii.ascii_of_nat 28) "") = None /\
  PyString.to_int "−4" = None /\ PyString.to_int "- 4" = None /\
  PyString.to_int "4é" = None /\
  PyString.to_int ("4" +:+ String (Ascii.ascii_of_nat 160) "") = None.
Proof. repeat split; reflexivity. Qed.

Example to_int_limit_example :
  PyString.to_int (String.concat "" (replicate 4300 "0") +:+ "") = Some 0%Z /\
  PyString.to_int (String.concat "" (replicate 4301 "0") +:+ "") = None.
Proof. split; vm_compute; reflexivity. Qed.

Example of_int_examples : PyString.of_int 12 = "12" /\ PyString.of_int 0 = "0" /\ PyString.of_int (-3) = "-3".
Proof. repeat split; reflexivity. Qed.


Module PyStringFacts.
Import PyString.

Lemma append_cons (c : Ascii.ascii) (a t : string) : String c a +:+ t = String c (a +:+ t).
Proof. reflexivity. Qed.

Lemma append_empty_r (s : string) : s +:+ "" = s.
Proof.
  induction s as [|c s IH]; [done|].
  change (String c s +:+ "") with (String c (s +:+ "")). by rewrite IH.
Qed.

Lemma append_snoc (a : string) (c : Ascii.ascii) (s : string) :
  (a +:+ String c "") +:+ s = a +:+ String c s.
Proof.
  induction a as [|x a IH]; [done|].
  change ((String x a +:+ String c "") +:+ s) with (String x ((a +:+ String c "") +:+ s)).
  by rewrite IH.
Qed.

Lemma prefix_empty_r (sub : string) : String.prefix sub "" = true -> sub = "".
Proof. by destruct sub. Qed.

Lemma prefix_app_r (sub a t : string) :
  String.prefix sub a = true -> String.prefix sub (a +:+ t) = true.
Proof.
  revert a. induction sub as [|c sub IH]; intros a H; [by destruct (a +:+ t)|].
  destruct a as [|x a]; [done|].
  rewrite append_cons. simpl in *.
  destruct (Ascii.ascii_dec c x); [by apply IH | done].
Qed.

Lemma contains_app_r (sub a t : string) :
  contains sub a = true -> contains sub (a +:+ t) = true.
Proof.
  induction a as [|x a IH]; intros H.
  - simpl in H. rewrite orb_false_r in H. apply prefix_empty_r in H as ->.
    by destruct t.
  - change (contains sub (String x a))
      with (String.prefix sub (String x a) || contains sub a) in H.
    rewrite append_cons.
    change (contains sub (String x (a +:+ t)))
      with (String.prefix sub (String x (a +:+ t)) || contains sub (a +:+ t)).
    apply orb_true_iff in H as [H|H].
    + apply (prefix_app_r _ (String x a) t) in H. rewrite append_cons in H. by rewrite H.
    + rewrite (IH H). by rewrite orb_true_r.
Qed.

Lemma split_go_cons (sep cur : string) (c : Ascii.ascii) (s : string) :
  split_go sep 0 cur (String c s) =
    if String.prefix sep (String c s)
    then cur :: split_go sep (String.length sep - 1) "" s
    else split_go sep 0 (cur +:+ String c "") s.
Proof. reflexivity. Qed.

Lemma split_go_nonempty (sep : string) (skip : nat) (cur s : string) :
  split_go sep skip cur s <> [].
Proof.
  revert skip cur. induction s as [|c s IH]; intros skip cur; [done|].
  destruct skip; [|apply IH].
  rewrite split_go_cons.
  destruct (String.prefix sep (String c s)); [done | apply IH].
Qed.

(** Without the separator the string comes back whole. *)
Lemma split_go_absent (sep cur s : string) :
  contains sep s = false -> split_go sep 0 cur s = [cur +:+ s].
Proof.
  revert cur. induction s as [|c s IH]; intros cur H.
  - by rewrite append_empty_r.
  - change (contains sep (String c s))
      with (String.prefix sep (String c s) || contains sep s) in H.
    apply orb_false_iff in H as [Hp Hc].
    rewrite split_go_cons.
    rewrite Hp, (IH _ Hc). by rewrite append_snoc.
Qed.

Lemma split_absent (s sep : string) : contains sep s = false -> split s sep = [s].
Proof. intros H. unfold split. by rewrite split_go_absent. Qed.

(** With the separator there are at least two pieces. *)
Lemma split_go_present (sep cur s : string) :
  sep <> "" -> contains sep s = true ->
  exists a b rest, split_go sep 0 cur s = a :: b :: rest.
Proof.
  intros Hsep. revert cur. induction s as [|c s IH]; intros cur H.
  - simpl in H. rewrite orb_false_r in H. by apply prefix_empty_r in H.
  - change (contains sep (String c s))
      with (String.prefix sep (String c s) || contains sep s) in H.
    rewrite split_go_cons.
    destruct (String.prefix sep (String c s)) eqn:Hp.
    + destruct (split_go sep (String.length sep - 1) "" s) as [|b rest] eqn:E.
      * by apply split_go_nonempty in E.
      * by exists cur, b, rest.
    + by apply IH.
Qed.

(** [s.split(sep)[1]] exists exactly when [sep in s]. *)
Lemma split_second (s sep : string) :
  sep <> "" -> is_Some (split s sep !! 1) <-> contains sep s = true.
Proof.
  intros Hsep. split.
  - intros [x Hx]. destruct (contains sep s) eqn:E; [done|].
    by rewrite (split_absent _ _ E) in Hx.
  - intros H. destruct (split_go_present sep "" s Hsep H) as (a & b & rest & E).
    unfold split. rewrite E. by exists b.
Qed.

(** The first piece starts the string. *)
Lemma split_go_first (sep cur s a : string) (rest : list string) :
  split_go sep 0 cur s = a :: rest -> exists t, cur +:+ s = a +:+ t.
Proof.
  revert cur. induction s as [|c s IH]; intros cur H.
  - simpl in H. injection H as <- _. by exists "".
  - change (split_go sep 0 cur (String c s))
      with (if String.prefix sep (String c s)
            then cur :: split_go sep (String.length sep - 1) "" s
            else split_go sep 0 (cur +:+ String c "") s) in H.
    destruct (String.prefix sep (String c s)).
    + injection H as <- _. by exists (String c s).
    + apply IH in H as [t Ht]. exists t. by rewrite <- Ht, append_snoc.
Qed.

Lemma split_first (s sep a : string) :
  split s sep !! 0 = Some a -> exists t, s = a +:+ t.
Proof.
  unfold split. destruct (split_go sep 0 "" s) as [|x rest] eqn:E; [done|].
  intros [= ->]. by apply split_go_first in E.
Qed.




End PyStringFacts.
Import PyStringFacts.

(** ** Dictionaries *)

Module PyDictFacts.

Section Facts.
Context {V : Type}.
Implicit Types (d : dict V) (k : string) (v : V).

Lemma get_set_eq k v d : PyDict.get k (PyDict.set k v d) = Some v.
Proof.
  induction d as [|[k' v'] d IH]; simpl.
  - by rewrite String.eqb_refl.
  - destruct (String.eqb k' k) eqn:E; simpl; by rewrite E.
Qed.

Lemma get_set_ne k k' v d : k <> k' -> PyDict.get k' (PyDict.set k v d) = PyDict.get k' d.
Proof.
  intros Hne. induction d as [|[k0 v0] d IH]; simpl.
  - destruct (String.eqb_spec k k'); [done | done].
  - destruct (String.eqb_spec k0 k) as [->|]; simpl.
    + by destruct (String.eqb_spec k k').
    + by rewrite IH.
Qed.

Lemma get_set k k' v d :
  PyDict.get k' (PyDict.set k v d) = if decide (k = k') then Some v else PyDict.get k' d.
Proof.
  case_decide as E; [subst; apply get_set_eq | by apply get_set_ne].
Qed.

Lemma set_set k v v' d : PyDict.set k v' (PyDict.set k v d) = PyDict.set k v' d.
Proof.
  induction d as [|[k0 v0] d IH]; simpl.
  - by rewrite String.eqb_refl.
  - destruct (String.eqb k0 k) eqn:E; simpl; rewrite E; [done | by rewrite IH].
Qed.

Lemma set_get_id k v d : PyDict.get k d = Some v -> PyDict.set k v d = d.
Proof.
  induction d as [|[k' v'] d IH]; simpl; [done|].
  destruct (String.eqb k' k); [by intros [= ->]|]. intros H. by rewrite IH.
Qed.

Lemma keys_set k v v' d : PyDict.get k d = Some v' -> keys (PyDict.set k v d) = keys d.
Proof.
  induction d as [|[k0 v0] d IH]; simpl; [done|].
  destruct (String.eqb_spec k0 k) as [->|]; simpl; [done|].
  intros H. unfold keys in *. f_equal. by apply IH.
Qed.

Lemma elem_of_keys k d : k ∈ keys d <-> is_Some (PyDict.get k d).
Proof.
  induction d as [|[k0 v0] d IH]; simpl.
  - split; [by intros ?%elem_of_nil | by intros [? ?]].
  - rewrite elem_of_cons, IH.
    destruct (String.eqb_spec k0 k) as [E|Hne]; [split; eauto|].
    split; [intros [?|?]; by subst | by right].
Qed.

Lemma get_elem_of k v d : PyDict.get k d = Some v -> (k, v) ∈ d.
Proof.
  induction d as [|[k0 v0] d IH]; simpl; [done|].
  destruct (String.eqb_spec k0 k) as [->|]; [intros [= ->]; left | right; auto].
Qed.

End Facts.

End PyDictFacts.
Import PyDictFacts.

(** [v in m.values()] says that some field holds [v]. *)
Lemma in_values_spec (v : pyval) (m : entry) :
  in_values v m = true <-> exists f, m !! f = Some v.
Proof.
  unfold in_values. rewrite existsb_exists. split.
  - intros (x & Hx & E). apply bool_decide_eq_true in E as <-.
    apply list_elem_of_In, list_elem_of_fmap in Hx as ([f w] & -> & Hfw).
    exists f. by apply elem_of_map_to_list in Hfw.
  - intros [f Hf]. exists v. split; [|by apply bool_decide_eq_true].
    apply list_elem_of_In, list_elem_of_fmap. exists (f, v).
    split; [done | by apply elem_of_map_to_list].
Qed.

(** ** Runs *)

Lemma bind_Ok {A B} (m : M A) (f : A -> M B) s b s' :
  bind m f s = (Ok b, s') -> exists a s1, m s = (Ok a, s1) /\ f a s1 = (Ok b, s').
Proof.
  unfold bind. destruct (m s) as [[a|e] s1]; [eauto | done].
Qed.

Lemma bind_run {A B} (m : M A) (f : A -> M B) s a s1 :
  m s = (Ok a, s1) -> bind m f s = f a s1.
Proof. unfold bind. by intros ->. Qed.

Lemma bind_raise {A B} (m : M A) (f : A -> M B) s e s1 :
  m s = (Raise e, s1) -> bind m f s = (Raise e, s1).
Proof. unfold bind. by intros ->. Qed.

Lemma try_except_Ok {A} (m h : M A) e s a s' :
  try_except m e h s = (Ok a, s') ->
  m s = (Ok a, s') \/ exists s1, m s = (Raise e, s1) /\ h s1 = (Ok a, s').
Proof.
  unfold try_except. destruct (m s) as [[x|e'] s1]; [by left|].
  case_decide; [subst; eauto | done].
Qed.

Lemma for_each_cons {A} (x : A) l (body : A -> M unit) :
  for_each (x :: l) body = bind (body x) (fun _ => for_each l body).
Proof. reflexivity. Qed.

(** A loop that returns ran its body to the end on every element. *)
Lemma for_each_Ok {A} (l : list A) (body : A -> M unit) s s' x :
  for_each l body s = (Ok tt, s') -> x ∈ l ->
  exists s1 s2, body x s1 = (Ok tt, s2).
Proof.
  revert s. induction l as [|y l IH]; intros s H Hx; [by apply elem_of_nil in Hx|].
  rewrite for_each_cons in H. apply bind_Ok in H as ([] & s1 & Hy & Hl).
  apply elem_of_cons in Hx as [->|Hx]; eauto.
Qed.

(** What the body of [x] establishes from [I], and every body keeps once
    it holds, holds after the loop. *)
Lemma for_each_establishes {A} (I J : state -> Prop) (l : list A) (body : A -> M unit) x s s' :
  x ∈ l ->
  (forall y s1 s2, y ∈ l -> I s1 -> body y s1 = (Ok tt, s2) -> I s2) ->
  (forall y s1 s2, y ∈ l -> J s1 -> body y s1 = (Ok tt, s2) -> J s2) ->
  (forall s1 s2, I s1 -> body x s1 = (Ok tt, s2) -> J s2) ->
  I s -> for_each l body s = (Ok tt, s') -> J s'.
Proof.
  intros Hx HI HJ HIJ Hs H.
  assert (forall l0, l0 ⊆ l -> forall s, (I s /\ x ∈ l0) \/ J s ->
            for_each l0 body s = (Ok tt, s') -> J s') as Hgo.
  { induction l0 as [|y l0 IH]; intros Hsub s0 Hs0 H0.
    - injection H0 as <-. destruct Hs0 as [[_ Hx0]|?]; [by apply elem_of_nil in Hx0 | done].
    - rewrite for_each_cons in H0. apply bind_Ok in H0 as ([] & s1 & Hy & Hl).
      assert (y ∈ l) as Hyl by (apply Hsub; left).
      assert (l0 ⊆ l) as Hsub0 by (intros z Hz; apply Hsub; by right).
      apply (IH Hsub0 s1); [|done].
      destruct Hs0 as [[Hs0 Hx0]|Hs0]; [|right; by eapply HJ].
      apply elem_of_cons in Hx0 as [->|Hx0].
      + right. by eapply HIJ.
      + left. split; [by eapply HI | done]. }
  apply (Hgo l ltac:(done) s); [left; by split | done].
Qed.

(** A loop whose bodies return under an invariant returns. *)
Lemma for_each_returns {A} (I : state -> Prop) (l : list A) (body : A -> M unit) s :
  (forall x s1, x ∈ l -> I s1 -> exists s2, body x s1 = (Ok tt, s2) /\ I s2) ->
  I s -> exists s', for_each l body s = (Ok tt, s') /\ I s'.
Proof.
  revert s. induction l as [|x l IH]; intros s Hbody Hs; [by exists s|].
  destruct (Hbody x s) as (s1 & Hx & Hs1); [left | done |].
  destruct (IH s1) as (s' & Hl & Hs'); [|done|].
  { intros y s2 Hy. apply Hbody. by right. }
  exists s'. split; [|done]. rewrite for_each_cons. by rewrite (bind_run _ _ _ _ _ Hx).
Qed.

Section Respects.
Context (R : relation state) `{!PreOrder R}.

Lemma respects_same {A} (m : M A) : (forall s, snd (m s) = s) -> respects R m.
Proof. intros H s r s' E. specialize (H s). rewrite E in H. simpl in H. by subst. Qed.

Lemma respects_ret {A} (a : A) : respects R (ret a).
Proof. by apply respects_same. Qed.

Lemma respects_lift {A} (r : result A) : respects R (lift r).
Proof. by apply respects_same. Qed.

Lemma respects_raise {A} (e : exn) : respects R (@raise A e).
Proof. by apply respects_same. Qed.

Lemma respects_bind {A B} (m : M A) (f : A -> M B) :
  respects R m -> (forall a, respects R (f a)) -> respects R (bind m f).
Proof.
  intros Hm Hf s r s' E. unfold bind in E.
  destruct (m s) as [[a|e] s1] eqn:Em.
  - etrans; [by eapply Hm | by eapply Hf].
  - injection E as <- <-. by eapply Hm.
Qed.

Lemma respects_try_except {A} (m h : M A) e :
  respects R m -> respects R h -> respects R (try_except m e h).
Proof.
  intros Hm Hh s r s' E. unfold try_except in E.
  destruct (m s) as [[a|e'] s1] eqn:Em.
  - injection E as <- <-. by eapply Hm.
  - case_decide.
    + etrans; [by eapply Hm | by eapply Hh].
    + injection E as <- <-. by eapply Hm.
Qed.

Lemma respects_for_each {A} (l : list A) (body : A -> M unit) :
  (forall x, x ∈ l -> respects R (body x)) -> respects R (for_each l body).
Proof.
  induction l as [|x l IH]; intros H; [apply respects_ret|].
  rewrite for_each_cons. apply respects_bind; [apply H; left|].
  intros _. apply IH. intros y Hy. apply H. by right.
Qed.

Lemma respects_read_gallery : respects R read_gallery.
Proof. by apply respects_same. Qed.

Lemma respects_get_entry k : respects R (get_entry k).
Proof.
  apply respects_same. intros s. unfold get_entry, bind, read_gallery.
  by destruct (PyDict.get k (gallerylinks s)).
Qed.

Lemma respects_get_field k f : respects R (get_field k f).
Proof.
  apply respects_same. intros s. unfold get_field, get_entry, bind, read_gallery.
  destruct (PyDict.get k (gallerylinks s)) as [e|]; simpl; [|done].
  by destruct (e !! f).
Qed.

Lemma respects_driver_page_source : respects R driver_page_source.
Proof. by apply respects_same. Qed.

Lemma respects_driver_find_element by_ : respects R (driver_find_element by_).
Proof. by apply respects_same. Qed.

Lemma respects_driver_find_elements by_ : respects R (driver_find_elements by_).
Proof. by apply respects_same. Qed.

Lemma respects_element_find_element e by_ : respects R (element_find_element e by_).
Proof. by apply respects_same. Qed.

Lemma respects_wait_until_present by_ : respects R (wait_until_present by_).
Proof.
  apply respects_same. intros s. unfold wait_until_present.
  by destruct (find_element by_ (document (current s))).
Qed.

End Respects.

(** ** Reading and writing the dictionary *)

Lemma get_entry_run k s e :
  PyDict.get k (gallerylinks s) = Some e -> get_entry k s = (Ok e, s).
Proof. intros H. unfold get_entry, bind, read_gallery. by rewrite H. Qed.

Lemma get_field_run k f s e v :
  PyDict.get k (gallerylinks s) = Some e -> e !! f = Some v ->
  get_field k f s = (Ok v, s).
Proof.
  intros H Hf. unfold get_field. rewrite (bind_run _ _ _ _ _ (get_entry_run _ _ _ H)).
  by rewrite Hf.
Qed.

Lemma set_field_run k f v s e :
  PyDict.get k (gallerylinks s) = Some e ->
  set_field k f v s =
    (Ok tt, State (fetched s) (current s) (printed s)
              (PyDict.set k (<[f := v]> e) (gallerylinks s)) (csvfile s)).
Proof.
  intros H. unfold set_field. by rewrite (bind_run _ _ _ _ _ (get_entry_run _ _ _ H)).
Qed.

(** A run of [set_field] that returns has found the entry and changed
    nothing but its field. *)
Lemma set_field_Ok k f v s s' :
  set_field k f v s = (Ok tt, s') ->
  exists e, PyDict.get k (gallerylinks s) = Some e /\
    s' = State (fetched s) (current s) (printed s)
           (PyDict.set k (<[f := v]> e) (gallerylinks s)) (csvfile s).
Proof.
  destruct (PyDict.get k (gallerylinks s)) as [e|] eqn:E.
  - rewrite (set_field_run _ _ _ _ _ E). intros [= <-]. by exists e.
  - unfold set_field, get_entry, bind, read_gallery. by rewrite E.
Qed.

Lemma get_field_Ok k f s v s' :
  get_field k f s = (Ok v, s') ->
  s' = s /\ exists e, PyDict.get k (gallerylinks s) = Some e /\ e !! f = Some v.
Proof.
  unfold get_field, get_entry, bind, read_gallery.
  destruct (PyDict.get k (gallerylinks s)) as [e|] eqn:E; simpl; [|done].
  destruct (e !! f) as [w|] eqn:Ef; simpl; [|done].
  intros [= <- <-]. eauto.
Qed.

Lemma get_field_no_entry k f s :
  PyDict.get k (gallerylinks s) = None -> get_field k f s = (Raise KeyError, s).
Proof. intros H. unfold get_field, get_entry, bind, read_gallery. by rewrite H. Qed.

Lemma get_field_no_field k f s e :
  PyDict.get k (gallerylinks s) = Some e -> e !! f = None ->
  get_field k f s = (Raise KeyError, s).
Proof.
  intros H Hf. unfold get_field. rewrite (bind_run _ _ _ _ _ (get_entry_run _ _ _ H)).
  by rewrite Hf.
Qed.

(** ** The Link Validator, field by field *)

Section Validator.
Variable web : pyval -> result page.

(** [check_link] on a field that holds something else than ["Error"]. *)
Lemma check_link_present k id s e url :
  PyDict.get k (gallerylinks s) = Some e ->
  e !! id = Some url -> url <> PStr "Error" ->
  check_link web k id s =
    match web url with
    | Ok p =>
        (Ok tt, State (fetched s ++ [url]) p (printed s)
                  (PyDict.set k (<[id +:+ "_Status" := status_of p]> e) (gallerylinks s))
                  (csvfile s))
    | Raise ex =>
        (Raise ex, State (fetched s ++ [url]) (current s) (printed s) (gallerylinks s) (csvfile s))
    end.
Proof.
  intros Hk Hid Hne. unfold check_link.
  rewrite (bind_run _ _ _ _ _ (get_field_run _ _ _ _ _ Hk Hid)).
  unfold py_eq. rewrite bool_decide_eq_false_2 by done.
  rewrite (bind_run _ _ _ _ _ (get_field_run _ _ _ _ _ Hk Hid)).
  unfold bind at 1. unfold driver_get. destruct (web url) as [p|ex]; [|done].
  unfold bind at 1. unfold driver_page_source, status_of.
  cbn [current page_source].
  destruct (existsb (fun i => PyString.contains i (page_source p)) error_msg);
    by rewrite (set_field_run _ _ _ _ e).
Qed.

(** [check_link] on a field that holds ["Error"]. *)
Lemma check_link_error k id s e :
  PyDict.get k (gallerylinks s) = Some e ->
  e !! id = Some (PStr "Error") ->
  check_link web k id s =
    (Ok tt, State (fetched s) (current s) (printed s)
              (PyDict.set k (<[id +:+ "_Status" := PStr "Error"]> e) (gallerylinks s))
              (csvfile s)).
Proof.
  intros Hk Hid. unfold check_link.
  rewrite (bind_run _ _ _ _ _ (get_field_run _ _ _ _ _ Hk Hid)).
  unfold py_eq. rewrite bool_decide_eq_true_2 by done.
  by apply set_field_run.
Qed.

(** [check_raster] on an entry whose WFS link is ["Error"]. *)
Lemma check_raster_error k s e rest :
  PyDict.get k (gallerylinks s) = Some e ->
  e !! "WFS_Link" = Some (PStr "Error") ->
  e !! "REST_Link" = Some rest ->
  let url := PStr (py_str rest +:+ "/0") in
  check_raster web k s =
    match web url with
    | Ok p =>
        if PyString.contains "Raster Layer" (page_source p)
        then (Ok tt, State (fetched s ++ [url]) p (printed s)
                       (PyDict.set k (<["WFS_Link_Status" := PStr "NA-Raster"]>
                                        (<["WFS_Link" := PStr "NA-Raster"]> e))
                                   (gallerylinks s))
                       (csvfile s))
        else (Ok tt, State (fetched s ++ [url]) p (printed s) (gallerylinks s) (csvfile s))
    | Raise InvalidArgumentException =>
        (Ok tt, State (fetched s ++ [url]) (current s) (printed s ++ [MsgRasterCheckError e])
                  (PyDict.set k (<["WFS_Link_Status" := PStr "Error"]> e) (gallerylinks s))
                  (csvfile s))
    | Raise ex =>
        (Raise ex, State (fetched s ++ [url]) (current s) (printed s) (gallerylinks s) (csvfile s))
    end.
Proof.
  intros Hk Hwfs Hrest url. unfold check_raster.
  rewrite (bind_run _ _ _ _ _ (get_field_run _ _ _ _ _ Hk Hwfs)).
  unfold py_eq. rewrite bool_decide_eq_true_2 by done.
  unfold try_except.
  rewrite (bind_run _ _ _ _ _ (get_field_run _ _ _ _ _ Hk Hrest)).
  unfold bind at 1. unfold driver_get. fold url. destruct (web url) as [p|ex].
  - unfold bind at 1. unfold driver_page_source. simpl.
    destruct (PyString.contains "Raster Layer" (page_source p)); [|done].
    unfold bind. rewrite (set_field_run _ _ _ _ e) by done. simpl.
    erewrite set_field_run by (simpl; apply get_set_eq). simpl.
    by rewrite set_set.
  - destruct ex; try done. simpl.
    unfold bind at 1. rewrite (get_entry_run _ _ e) by done.
    unfold bind, print. simpl. by rewrite (set_field_run _ _ _ _ e).
Qed.

End Validator.

(** ** The Summary Reducer *)

Lemma sum_entry_run k s e :
  PyDict.get k (gallerylinks s) = Some e ->
  sum_entry k s =
    (Ok tt, State (fetched s) (current s) (printed s)
              (PyDict.set k (summed e) (gallerylinks s)) (csvfile s)).
Proof.
  intros Hk. unfold sum_entry. rewrite (bind_run _ _ _ _ _ (get_entry_run _ _ _ Hk)).
  unfold summed, summary_of.
  destruct (in_values (PStr "Error") e); by apply set_field_run.
Qed.

(** The summary says whether some field holds ["Error"]. *)
Lemma summary_of_spec (e : entry) :
  ((exists f, e !! f = Some (PStr "Error")) /\ summary_of e = "Error") \/
  ((forall f, e !! f <> Some (PStr "Error")) /\ summary_of e = "No problem").
Proof.
  unfold summary_of. destruct (in_values (PStr "Error") e) eqn:E.
  - left. split; [by apply in_values_spec | done].
  - right. split; [|done]. intros f Hf.
    assert (in_values (PStr "Error") e = true) by (apply in_values_spec; eauto).
    congruence.
Qed.

Lemma summary_of_summed (e : entry) : summary_of (summed e) = summary_of e.
Proof.
  destruct (summary_of_spec e) as [[[f Hf] E]|[Hno E]];
    destruct (summary_of_spec (summed e)) as [[[f' Hf'] E']|[Hno' E']];
    rewrite ?E, ?E'; try done.
  - exfalso. destruct (decide (f = "Summary Status")) as [->|Hne].
    + apply (Hno' "Summary Status"). unfold summed. by rewrite lookup_insert_eq, E.
    + apply (Hno' f). unfold summed. by rewrite lookup_insert_ne.
  - exfalso. unfold summed in Hf'. rewrite E in Hf'.
    destruct (decide (f' = "Summary Status")) as [->|Hne].
    + by rewrite lookup_insert_eq in Hf'.
    + rewrite lookup_insert_ne in Hf' by done. by apply (Hno f').
Qed.

Lemma summed_idemp (e : entry) : summed (summed e) = summed e.
Proof.
  unfold summed at 1. rewrite summary_of_summed. unfold summed.
  by rewrite insert_insert_eq.
Qed.

(** The loop of [dictsumvalue] over keys of the dictionary returns, and
    has summed exactly the entries of these keys. *)
Lemma sum_entries_run (ks : list string) s :
  (forall k, k ∈ ks -> k ∈ keys (gallerylinks s)) ->
  exists g',
    for_each ks sum_entry s =
      (Ok tt, State (fetched s) (current s) (printed s) g' (csvfile s)) /\
    keys g' = keys (gallerylinks s) /\
    forall k, PyDict.get k g' =
      if decide (k ∈ ks) then summed <$> PyDict.get k (gallerylinks s)
      else PyDict.get k (gallerylinks s).
Proof.
  revert s. induction ks as [|x ks IH]; intros s Hks.
  - exists (gallerylinks s). by destruct s.
  - destruct (proj1 (elem_of_keys x (gallerylinks s))) as [ex Hx]; [apply Hks; left|].
    pose proof (sum_entry_run _ _ _ Hx) as Hrun.
    set (s1 := State (fetched s) (current s) (printed s)
                 (PyDict.set x (summed ex) (gallerylinks s)) (csvfile s)) in *.
    destruct (IH s1) as (g' & Hloop & Hkeys & Hget).
    { intros k Hk. simpl. rewrite (keys_set _ _ _ _ Hx). apply Hks. by right. }
    exists g'. split; [|split].
    + rewrite for_each_cons, (bind_run _ _ _ _ _ Hrun). apply Hloop.
    + rewrite Hkeys. simpl. by rewrite (keys_set _ _ _ _ Hx).
    + intros k. rewrite Hget. simpl. rewrite get_set.
      destruct (decide (x = k)) as [->|Hne], (decide (k ∈ ks)) as [Hin|Hnin];
        case_decide as Hc; rewrite ?Hx; simpl; rewrite ?summed_idemp; try done.
      * exfalso. apply Hc. left.
      * exfalso. apply Hc. left.
      * exfalso. apply Hc. by right.
      * exfalso. apply elem_of_cons in Hc as [->|?]; done.
Qed.

Lemma dictsumvalue_run s :
  exists g',
    dictsumvalue s = (Ok tt, State (fetched s) (current s) (printed s) g' (csvfile s)) /\
    keys g' = keys (gallerylinks s) /\
    forall k, PyDict.get k g' = summed <$> PyDict.get k (gallerylinks s).
Proof.
  destruct (sum_entries_run (keys (gallerylinks s)) s) as (g' & Hrun & Hkeys & Hget); [done|].
  exists g'. split; [|split]; [done..|].
  intros k. rewrite Hget. case_decide as Hk; [done|].
  destruct (PyDict.get k (gallerylinks s)) eqn:E; [|done].
  exfalso. apply Hk, elem_of_keys. eauto.
Qed.

(** ** The Report Writer *)

Lemma writerow_csv_row k e s :
  writerow csv_fields (csv_row k e) s =
    (Ok tt, State (fetched s) (current s) (printed s) (gallerylinks s)
              (csvfile s ++ [cells_of k e])).
Proof. reflexivity. Qed.

(** Falsy values are [None] and the empty string. *)
Lemma truthy_false (v : pyval) : truthy v = false <-> v = PNone \/ v = PStr "".
Proof.
  destruct v as [|s]; simpl; [split; [by left | done]|].
  rewrite negb_false_iff.
  destruct (String.eqb_spec s "") as [->|Hne]; split; try done; [by right|].
  intros [?|[= ?]]; done.
Qed.

Lemma get_or_present (e : entry) field k v :
  e !! field = Some v -> v <> PNone -> v <> PStr "" -> get_or e field k = v.
Proof.
  intros H Hn He. unfold get_or. rewrite H.
  destruct (truthy v) eqn:E; [done|]. apply truthy_false in E as [?|?]; done.
Qed.

Lemma get_or_fallback (e : entry) field k :
  e !! field = None \/ e !! field = Some PNone \/ e !! field = Some (PStr "") ->
  get_or e field k = PStr k.
Proof. unfold get_or. by intros [->|[->| ->]]. Qed.

(** The rows written for a list of keys of the dictionary. *)
Lemma write_rows_run (ks : list string) s :
  (forall k, k ∈ ks -> k ∈ keys (gallerylinks s)) ->
  exists rows,
    for_each ks (fun k => e <- get_entry k ;; writerow csv_fields (csv_row k e)) s =
      (Ok tt, State (fetched s) (current s) (printed s) (gallerylinks s) (csvfile s ++ rows)) /\
    Forall2 (fun k row => exists e, PyDict.get k (gallerylinks s) = Some e /\ row = cells_of k e)
            ks rows.
Proof.
  revert s. induction ks as [|x ks IH]; intros s Hks.
  - exists []. split; [|constructor]. rewrite app_nil_r. by destruct s.
  - destruct (proj1 (elem_of_keys x (gallerylinks s))) as [ex Hx]; [apply Hks; left|].
    set (s1 := State (fetched s) (current s) (printed s) (gallerylinks s)
                 (csvfile s ++ [cells_of x ex])).
    destruct (IH s1) as (rows & Hloop & Hrows); [intros k Hk; apply Hks; by right|].
    exists (cells_of x ex :: rows). split; [|constructor; eauto].
    rewrite for_each_cons. unfold bind at 1.
    rewrite (bind_run _ _ _ _ _ (get_entry_run _ _ _ Hx)), writerow_csv_row.
    fold s1. rewrite Hloop. simpl. by rewrite <- app_assoc.
Qed.

Lemma write_csv_run s :
  exists rows,
    write_csv s =
      (Ok tt, State (fetched s) (current s) (printed s) (gallerylinks s)
                (csvfile s ++ map PStr csv_fields :: rows)) /\
    Forall2 (fun k row => exists e, PyDict.get k (gallerylinks s) = Some e /\ row = cells_of k e)
            (keys (gallerylinks s)) rows.
Proof.
  set (s1 := State (fetched s) (current s) (printed s) (gallerylinks s)
               (csvfile s ++ [map PStr csv_fields])).
  destruct (write_rows_run (keys (gallerylinks s1)) s1) as (rows & Hloop & Hrows); [done|].
  exists rows. split; [|done].
  unfold write_csv, bind, write_line, read_gallery. fold s1.
  unfold bind in Hloop. rewrite Hloop. simpl. by rewrite <- app_assoc.
Qed.

Lemma lookup_map {A B} (f : A -> B) (l : list A) (i : nat) :
  map f l !! i = f <$> l !! i.
Proof.
  revert i. induction l as [|x l IH]; intros [|i]; simpl; [done..|]. apply IH.
Qed.

Lemma field_of_set k f v e g :
  field_of k f (PyDict.set k (<[f := v]> e) g) = Some v.
Proof. unfold field_of. rewrite get_set_eq. simpl. apply lookup_insert_eq. Qed.


(** ** The crawl over the index pages *)

Section Crawl.
Variable web : pyval -> result page.

Lemma driver_get_run url s p :
  web url = Ok p ->
  driver_get web url s =
    (Ok tt, State (fetched s ++ [url]) p (printed s) (gallerylinks s) (csvfile s)).
Proof. intros H. unfold driver_get. by rewrite H. Qed.

Lemma driver_get_Ok url s s' :
  driver_get web url s = (Ok tt, s') ->
  exists p, web url = Ok p /\
    s' = State (fetched s ++ [url]) p (printed s) (gallerylinks s) (csvfile s).
Proof. unfold driver_get. destruct (web url) as [p|]; [|done]. intros [= <-]. eauto. Qed.

Lemma gallery_links_loop_state l acc s r s' :
  gallery_links_loop l acc s = (r, s') -> s' = s.
Proof.
  revert acc. induction l as [|item l IH]; intros acc; simpl.
  - by intros [= _ <-].
  - unfold bind, element_find_element, lift.
    destruct (find_element _ _); [apply IH | by intros [= _ <-]].
Qed.

(** One visit of an index page is one call of [driver.get], whatever
    comes of it. *)
Lemma gallery_links_visit_fetched URL s r s' :
  gallery_links_visit web URL s = (r, s') -> fetched s' = fetched s ++ [URL].
Proof.
  unfold gallery_links_visit, bind at 1, driver_get.
  destruct (web URL) as [p|ex]; [|by intros [= _ <-]].
  unfold bind, driver_find_elements. intros H%gallery_links_loop_state. by subst.
Qed.

Lemma collect_pages_fetched pages acc s links s' :
  collect_pages web pages acc s = (Ok links, s') ->
  fetched s' = fetched s ++ map (fun page => PStr (page_url page)) pages.
Proof.
  revert acc s. induction pages as [|page pages IH]; intros acc s; simpl.
  - intros [= _ <-]. by rewrite app_nil_r.
  - intros H. apply bind_Ok in H as ([] & s1 & Hp & H).
    apply bind_Ok in H as (ls & s2 & Hv & H).
    apply IH in H. apply gallery_links_visit_fetched in Hv.
    injection Hp as <-. simpl in Hv. rewrite H, Hv. by rewrite <- app_assoc.
Qed.

Lemma collect_links_fetched pages s links s' :
  collect_links web pages s = (Ok links, s') ->
  fetched s' =
    fetched s ++ PStr gallery_url :: map (fun page => PStr (page_url page)) (page_range pages).
Proof.
  unfold collect_links. intros H. apply bind_Ok in H as (ls & s1 & Hv & H).
  apply collect_pages_fetched in H. apply gallery_links_visit_fetched in Hv.
  rewrite H, Hv. by rewrite <- app_assoc.
Qed.

(** [totalpages] on a page that loads: what the last-page control gives. *)
Lemma totalpages_run URL s p :
  web URL = Ok p ->
  totalpages web URL s =
    (pager ← find_element (has_class_name "pager-last.last") (document p);
     a ← find_element (has_tag_name "a") (descendants pager);
     py_index (PyString.split (py_str (get_attribute a "href")) "=") 1,
     State (fetched s ++ [URL]) p (printed s) (gallerylinks s) (csvfile s)).
Proof.
  intros Hweb. unfold totalpages. rewrite (bind_run _ _ _ _ _ (driver_get_run _ _ _ Hweb)).
  unfold bind, driver_find_element, element_find_element, lift, ret. simpl.
  destruct (find_element _ (document p)) as [pager|]; simpl; [|done].
  destruct (find_element _ (descendants pager)) as [a|]; simpl; [|done].
  by destruct (py_index _ 1).
Qed.

End Crawl.

(** ** Relations every step of a script respects *)

#[global] Instance kept_preorder {A} (P : A -> Prop) : PreOrder (kept P).
Proof. split; [intros x Hx; exact Hx | intros x y z Hxy Hyz Hx; by apply Hyz, Hxy]. Qed.

#[global] Instance on_gallery_preorder (R : relation (dict entry)) `{!PreOrder R} :
  PreOrder (on_gallery R).
Proof.
  split; [intros s; unfold on_gallery; reflexivity|].
  intros x y z Hxy Hyz. unfold on_gallery in *. by etrans.
Qed.

#[global] Instance on_fetched_preorder (R : relation (list pyval)) `{!PreOrder R} :
  PreOrder (on_fetched R).
Proof.
  split; [intros s; unfold on_fetched; reflexivity|].
  intros x y z Hxy Hyz. unfold on_fetched in *. by etrans.
Qed.

#[global] Instance unchanged_preorder {A} (proj : state -> A) : PreOrder (unchanged proj).
Proof.
  split; [by intros s|]. intros x y z Hxy Hyz. unfold unchanged in *. congruence.
Qed.

Lemma set_field_inv k f v s r s' :
  set_field k f v s = (r, s') ->
  (exists e, PyDict.get k (gallerylinks s) = Some e /\ r = Ok tt /\
     s' = State (fetched s) (current s) (printed s)
            (PyDict.set k (<[f := v]> e) (gallerylinks s)) (csvfile s)) \/
  (PyDict.get k (gallerylinks s) = None /\ r = Raise KeyError /\ s' = s).
Proof.
  destruct (PyDict.get k (gallerylinks s)) as [e|] eqn:E.
  - rewrite (set_field_run _ _ _ _ _ E). intros [= <- <-]. left. by exists e.
  - unfold set_field, get_entry, bind, read_gallery. rewrite E. intros [= <- <-]. by right.
Qed.

(** A step that changes the state, taken apart. *)
Ltac step_apart :=
  let s := fresh "s" in
  let r := fresh "r" in
  let s' := fresh "s'" in
  let H := fresh "H" in
  let e := fresh "e" in
  let He := fresh "He" in
  intros s r s' H;
  first
    [ apply set_field_inv in H as [(e & He & -> & ->)|(He & -> & ->)]
    | unfold driver_get in H; destruct (_ : result page); simplify_eq
    | cbv [new_entry bind read_gallery write_gallery print write_line] in H; simplify_eq ];
  unfold on_gallery, on_fetched, unchanged; simpl.

Ltac unfold_script :=
  progress unfold load_map_page, totalpages, gallery_links_visit, scrape_link, scrape_metadata,
    scrape_iframe, scrape_pdf, scrape_entry, gallery_entry, galleryentries, check_link,
    check_raster, check_entry, checklinks, sum_entry, dictsumvalue, writerow, write_csv,
    count_pages, collect_links, crawl.

(** The steps that leave the state alone. *)
Ltac respects_pure :=
  first
    [ apply respects_ret | apply respects_lift | apply respects_raise
    | apply respects_read_gallery | apply respects_get_entry | apply respects_get_field
    | apply respects_driver_page_source | apply respects_driver_find_element
    | apply respects_driver_find_elements | apply respects_element_find_element
    | apply respects_wait_until_present ];
  try apply _.

(** Down the structure of a script; what is left are the steps that
    change the state in a way the relation has to allow. *)
Ltac respects_go :=
  lazymatch goal with
  | |- PreOrder _ => apply _
  | |- forall _, _ => intro; respects_go
  | |- respects _ (bind _ _) => apply respects_bind; respects_go
  | |- respects _ (try_except _ _ _) => apply respects_try_except; respects_go
  | |- respects _ (for_each _ _) => apply respects_for_each; respects_go
  | |- respects _ (if ?b then _ else _) => destruct b; respects_go
  | |- respects _ (match ?x with _ => _ end) => destruct x; respects_go
  | |- respects _ (let _ := _ in _) => cbv zeta; respects_go
  | |- _ => first [ respects_pure | unfold_script; respects_go | idtac ]
  end.

Lemma find_element_Raise by_ scope e :
  find_element by_ scope = Raise e -> e = NoSuchElementException.
Proof. unfold find_element. destruct (List.find by_ scope); [done | by intros [= <-]]. Qed.

(** ** The Entry Scraper *)

Section Scraper.
Variable web : pyval -> result page.

Lemma load_map_page_Ok URL s s' :
  load_map_page web URL s = (Ok tt, s') ->
  exists p, web URL = Ok p /\ current s' = p /\ gallerylinks s' = gallerylinks s.
Proof.
  unfold load_map_page. intros H. apply bind_Ok in H as ([] & s1 & Hget & H).
  apply driver_get_Ok in Hget as (p & Hweb & ->). exists p. split; [done|].
  unfold try_except, wait_until_present, print in H. simpl in H.
  destruct (find_element _ (document p)); simpl in H; by injection H as <-.
Qed.

Lemma load_map_page_run URL s p :
  web URL = Ok p ->
  exists s', load_map_page web URL s = (Ok tt, s') /\
    current s' = p /\ gallerylinks s' = gallerylinks s.
Proof.
  intros Hweb. unfold load_map_page.
  rewrite (bind_run _ _ _ _ _ (driver_get_run _ _ _ _ Hweb)).
  unfold try_except, wait_until_present, print. simpl.
  destruct (find_element _ (document p)); simpl; eauto.
Qed.

Lemma set_field_settled sn p f v s :
  settled sn p s -> exists s', set_field sn f v s = (Ok tt, s') /\ settled sn p s'.
Proof.
  intros [[e He] Hp]. eexists. split; [by apply set_field_run|].
  split; [|done]. simpl. rewrite get_set_eq. eauto.
Qed.

Lemma scrape_link_settled sn p f by_ s :
  settled sn p s -> exists s', scrape_link sn f by_ s = (Ok tt, s') /\ settled sn p s'.
Proof.
  intros Hs. unfold scrape_link, try_except, bind, driver_find_element.
  destruct (find_element by_ _) as [a|ex] eqn:E.
  - destruct (set_field_settled sn p f (get_attribute a "href") s Hs) as (s' & -> & Hs').
    eauto.
  - apply find_element_Raise in E as ->. simpl.
    destruct (set_field_settled sn p f (PStr "Error") s Hs) as (s' & -> & Hs'). eauto.
Qed.

Lemma scrape_metadata_settled sn p s :
  settled sn p s -> exists s', scrape_metadata sn s = (Ok tt, s') /\ settled sn p s'.
Proof.
  intros Hs. unfold scrape_metadata, try_except, bind, driver_find_element,
    element_find_element, lift.
  destruct (set_field_settled sn p "Metadata_Link" (PStr "Error") s Hs) as (s1 & H1 & Hs1).
  destruct (find_element _ (document _)) as [pane|ex] eqn:E.
  - destruct (find_element _ (descendants pane)) as [a|ex] eqn:Ea.
    + destruct (set_field_settled sn p "Metadata_Link" (get_attribute a "href") s Hs)
        as (s' & -> & Hs'). eauto.
    + apply find_element_Raise in Ea as ->. simpl. rewrite H1. eauto.
  - apply find_element_Raise in E as ->. simpl. rewrite H1. eauto.
Qed.

(** The iframe block when the iframe is there: it returns only if the
    source, cut at ["&extent"], has a piece after ["webmap="]. *)
Lemma scrape_iframe_found sn s field iframe :
  find_element (has_class_name "field-name-field-map-iframe") (document (current s)) = Ok field ->
  find_element (has_tag_name "iframe") (descendants field) = Ok iframe ->
  is_Some (PyDict.get sn (gallerylinks s)) ->
  exists s',
    scrape_iframe sn s =
      (src ← py_split (get_attribute iframe "src") "&extent";
       webmaplink ← py_index src 0;
       _ ← py_index (PyString.split webmaplink "webmap=") 1;
       Ok tt, s').
Proof.
  intros Hfield Hiframe [e He].
  unfold scrape_iframe, try_except, bind at 1, driver_find_element. rewrite Hfield.
  unfold bind at 1, element_find_element, lift. rewrite Hiframe.
  unfold bind at 1. destruct (py_split _ _) as [parts|ex] eqn:Esplit; simpl.
  2:{ destruct (get_attribute iframe "src"); simplify_eq/=. eauto. }
  unfold bind at 1. destruct (py_index parts 0) as [webmaplink|ex] eqn:E0; simpl.
  2:{ unfold py_index in E0. destruct (parts !! 0); simplify_eq. eauto. }
  unfold bind at 1. rewrite (set_field_run _ _ _ _ _ He).
  unfold bind at 1. destruct (py_index _ 1) as [webmap_id|ex] eqn:E1; simpl.
  2:{ unfold py_index in E1. destruct (_ !! 1); simplify_eq. eauto. }
  erewrite set_field_run by (simpl; apply get_set_eq). eauto.
Qed.


Lemma py_index_Ok {A} (l : list A) i x : py_index l i = Ok x <-> l !! i = Some x.
Proof. unfold py_index. destruct (l !! i); split; intros H; by simplify_eq. Qed.

Lemma py_index_Raise {A} (l : list A) i : l !! i = None -> py_index l i = Raise IndexError.
Proof. unfold py_index. by intros ->. Qed.

(** On a page that loads, the scraper reaches the iframe block with the
    entry there and the page shown. *)
Lemma scrape_entry_reaches_iframe sn webpage p s :
  web webpage = Ok p ->
  exists s1, settled sn p s1 /\
    scrape_entry web sn webpage s = (scrape_iframe sn ;; scrape_pdf sn) s1.
Proof.
  intros Hweb. unfold scrape_entry.
  unfold bind at 1, new_entry at 1, bind at 1, read_gallery, write_gallery.
  set (s1 := State _ _ _ _ _).
  destruct (load_map_page_run webpage s1 p Hweb) as (s2 & Hload & Hp & Hg).
  rewrite (bind_run _ _ _ _ _ Hload).
  assert (settled sn p s2) as Hs.
  { split; [|done]. rewrite Hg. simpl. rewrite get_set_eq. eauto. }
  clear Hload Hp Hg.
  destruct (set_field_settled sn p "Gallery_Link" webpage _ Hs) as (s3 & Hrun & Hs3).
  rewrite (bind_run _ _ _ _ _ Hrun). clear Hrun Hs.
  destruct (scrape_link_settled sn p "REST_Link"
              (has_partial_link_text "Services Directory") _ Hs3) as (s4 & Hrun & Hs4).
  rewrite (bind_run _ _ _ _ _ Hrun). clear Hrun Hs3.
  destruct (scrape_link_settled sn p "AGOL_Link"
              (has_partial_link_text "ArcGIS Online") _ Hs4) as (s5 & Hrun & Hs5).
  rewrite (bind_run _ _ _ _ _ Hrun). clear Hrun Hs4.
  destruct (scrape_metadata_settled sn p _ Hs5) as (s6 & Hrun & Hs6).
  rewrite (bind_run _ _ _ _ _ Hrun). clear Hrun Hs5.
  destruct (scrape_link_settled sn p "WFS_Link" (has_link_text "WFS") _ Hs6)
    as (s7 & Hrun & Hs7).
  rewrite (bind_run _ _ _ _ _ Hrun). clear Hrun Hs6.
  destruct (scrape_link_settled sn p "WMS_Link" (has_link_text "WMS") _ Hs7)
    as (s8 & Hrun & Hs8).
  rewrite (bind_run _ _ _ _ _ Hrun). clear Hrun Hs7.
  by exists s8.
Qed.

(** The loop body on a URL: the key is what follows ["/map/"]. *)
Lemma gallery_entry_run url s :
  gallery_entry web (PStr url) s =
    (shortname <- lift (py_index (PyString.split url "/map/") 1) ;;
     scrape_entry web shortname (PStr url))
      (State (fetched s) (current s) (printed s ++ [MsgWorkingOn (PStr url)])
             (gallerylinks s) (csvfile s)).
Proof. reflexivity. Qed.

(** A URL without ["/map/"]: [IndexError] before anything is loaded. *)
Lemma gallery_entry_no_map url s :
  PyString.contains "/map/" url = false ->
  gallery_entry web (PStr url) s =
    (Raise IndexError,
     State (fetched s) (current s) (printed s ++ [MsgWorkingOn (PStr url)])
           (gallerylinks s) (csvfile s)).
Proof.
  intros H. rewrite gallery_entry_run. unfold bind, lift.
  by rewrite (split_absent _ _ H).
Qed.

(** An iframe whose source lacks ["webmap="]: [IndexError] as well. *)
Lemma gallery_entry_no_webmap url s p field iframe src :
  PyString.contains "/map/" url = true ->
  web (PStr url) = Ok p ->
  find_element (has_class_name "field-name-field-map-iframe") (document p) = Ok field ->
  find_element (has_tag_name "iframe") (descendants field) = Ok iframe ->
  get_attribute iframe "src" = PStr src ->
  PyString.contains "webmap=" src = false ->
  exists s', gallery_entry web (PStr url) s = (Raise IndexError, s').
Proof.
  intros Hmap Hweb Hfield Hiframe Hsrc Hwebmap.
  rewrite gallery_entry_run. unfold bind at 1, lift.
  destruct (proj2 (split_second url "/map/" ltac:(done)) Hmap) as [sn Hsn].
  rewrite (proj2 (py_index_Ok _ _ _) Hsn).
  match goal with |- context [scrape_entry web sn (PStr url) ?s0] =>
    destruct (scrape_entry_reaches_iframe sn (PStr url) p s0 Hweb) as (s1 & [He Hp] & ->)
  end.
  rewrite <- Hp in Hfield.
  destruct (scrape_iframe_found sn s1 field iframe Hfield Hiframe He) as (s2 & Hrun).
  rewrite Hsrc in Hrun. simpl in Hrun.
  destruct (PyString.split src "&extent" !! 0) as [webmaplink|] eqn:E0.
  2:{ unfold PyString.split in E0.
      destruct (PyString.split_go "&extent" 0 "" src) eqn:E; [|done].
      by apply split_go_nonempty in E. }
  rewrite (proj2 (py_index_Ok _ _ _) E0) in Hrun. simpl in Hrun.
  assert (PyString.contains "webmap=" webmaplink = false) as Hno.
  { destruct (PyString.contains "webmap=" webmaplink) eqn:Ec; [|done].
    apply split_first in E0 as [t ->].
    by rewrite (contains_app_r _ _ t Ec) in Hwebmap. }
  rewrite (split_absent _ _ Hno) in Hrun. simpl in Hrun.
  exists s2. unfold bind at 1. by rewrite Hrun.
Qed.

(** The loop body returns only on a URL with ["/map/"] whose iframe, if
    the page has one, names a web map. *)
Lemma gallery_entry_Ok webpage s s' :
  gallery_entry web webpage s = (Ok tt, s') ->
  exists url, webpage = PStr url /\ PyString.contains "/map/" url = true /\
    forall p field iframe,
      web webpage = Ok p ->
      find_element (has_class_name "field-name-field-map-iframe") (document p) = Ok field ->
      find_element (has_tag_name "iframe") (descendants field) = Ok iframe ->
      exists src, get_attribute iframe "src" = PStr src /\
        PyString.contains "webmap=" src = true.
Proof.
  destruct webpage as [|url]; [done|]. intros H. exists url. split; [done|].
  rewrite gallery_entry_run in H. apply bind_Ok in H as (sn & s0 & Hsn & H).
  unfold lift in Hsn. injection Hsn as Hsn <-. apply py_index_Ok in Hsn.
  split; [apply split_second; [done | eauto]|].
  intros p field iframe Hweb Hfield Hiframe.
  match type of H with scrape_entry web sn (PStr url) ?s0 = _ =>
    destruct (scrape_entry_reaches_iframe sn (PStr url) p s0 Hweb) as (s1 & [He Hp] & Hreach)
  end.
  rewrite Hreach in H. apply bind_Ok in H as ([] & s2 & Hframe & _).
  rewrite <- Hp in Hfield.
  destruct (scrape_iframe_found sn s1 field iframe Hfield Hiframe He) as (s2' & Hrun).
  rewrite Hrun in Hframe. clear Hrun.
  destruct (get_attribute iframe "src") as [|src]; [done|]. exists src. split; [done|].
  simpl in Hframe.
  destruct (py_index (PyString.split src "&extent") 0) as [webmaplink|] eqn:E0; [|done].
  simpl in Hframe.
  destruct (py_index (PyString.split webmaplink "webmap=") 1) as [webmap_id|] eqn:E1; [|done].
  apply py_index_Ok in E0, E1. apply split_first in E0 as [t ->].
  apply contains_app_r, split_second; [done | eauto].
Qed.

End Scraper.

(** ** What a run that returns has established *)

Lemma ensures_bind_tail {A B} (m : M A) (f : A -> M B) Q :
  (forall a, ensures (f a) Q) -> ensures (bind m f) Q.
Proof. intros Hf s b s' H. apply bind_Ok in H as (a & s1 & _ & H). by eapply Hf. Qed.

Lemma ensures_bind_head {A B} (m : M A) (f : A -> M B) Q :
  ensures m Q -> (forall a, respects (kept Q) (f a)) -> ensures (bind m f) Q.
Proof.
  intros Hm Hf s b s' H. apply bind_Ok in H as (a & s1 & Hrun & H).
  eapply Hf; [done|]. by eapply Hm.
Qed.

Lemma ensures_try_except {A} (m h : M A) e Q :
  ensures m Q -> ensures h Q -> ensures (try_except m e h) Q.
Proof.
  intros Hm Hh s a s' H. apply try_except_Ok in H as [H|(s1 & _ & H)];
    [by eapply Hm | by eapply Hh].
Qed.

Lemma ensures_for_each {A} (l : list A) (body : A -> M unit) x Q :
  x ∈ l -> ensures (body x) Q -> (forall y, y ∈ l -> respects (kept Q) (body y)) ->
  ensures (for_each l body) Q.
Proof.
  intros Hx Hbody Hkept s [] s' H.
  apply (for_each_establishes (fun _ => True) Q l body x s s'); try done.
  - intros y s1 s2 Hy Hs1 Hrun. by eapply Hkept.
  - intros s1 s2 _ Hrun. by eapply Hbody.
Qed.

Lemma ensures_set_field k f v : ensures (set_field k f v) (has_field k f).
Proof.
  intros s [] s' H. apply set_field_Ok in H as (e & He & ->).
  unfold has_field. simpl. by rewrite field_of_set.
Qed.

(** A field, once there, stays; other entries are not touched. *)
Lemma has_field_set k f k' f' v e g :
  PyDict.get k' g = Some e ->
  is_Some (field_of k f g) -> is_Some (field_of k f (PyDict.set k' (<[f' := v]> e) g)).
Proof.
  intros He. unfold field_of. rewrite get_set.
  destruct (decide (k' = k)) as [->|]; [|done].
  rewrite He. simpl. rewrite lookup_insert. by case_decide.
Qed.

Lemma fields_in_set F k f v e g :
  f ∈ F -> PyDict.get k g = Some e -> fields_in F g ->
  fields_in F (PyDict.set k (<[f := v]> e) g).
Proof.
  intros Hf He HF k' e' f' Hk' Hf'. rewrite get_set in Hk'.
  destruct (decide (k = k')) as [->|]; [|by eapply HF].
  injection Hk' as <-. rewrite lookup_insert in Hf'.
  case_decide; [by subst | by eapply HF].
Qed.

Lemma fields_in_new F k g : fields_in F g -> fields_in F (PyDict.set k ∅ g).
Proof.
  intros HF k' e' f' Hk' Hf'. rewrite get_set in Hk'.
  destruct (decide (k = k')) as [->|]; [|by eapply HF].
  injection Hk' as <-. rewrite lookup_empty in Hf'. by destruct Hf'.
Qed.

Lemma status_field_stored id_key : id_key ∈ link_values -> id_key +:+ "_Status" ∈ stored_fields.
Proof.
  intros H. repeat (apply elem_of_cons in H as [->|H]); [..|by apply elem_of_nil in H];
    apply (bool_decide_unpack _); by vm_compute.
Qed.

(** The steps of [respects_go] that are left, for the relations on the
    fields of the dictionary. *)
Ltac respects_fields :=
  respects_go; step_apart; unfold kept, has_field; simpl; try done;
  try (intros ?; assumption);
  first
    [ by apply has_field_set
    | intros ?; apply fields_in_set; [|done..];
      first [ by apply status_field_stored
            | apply (bool_decide_unpack _); by vm_compute ]
    | intros ?; by apply fields_in_new
    | by rewrite get_set_ne
    | by erewrite keys_set ].

(** Down a script to the step that sets the field. *)
Ltac ensures_go :=
  lazymatch goal with
  | |- forall _, _ => intro; ensures_go
  | |- ensures (set_field _ _ _) _ => apply ensures_set_field
  | |- ensures (try_except _ _ _) _ => apply ensures_try_except; ensures_go
  | |- ensures (if ?b then _ else _) _ => destruct b; ensures_go
  | |- ensures (let _ := _ in _) _ => cbv zeta; ensures_go
  | |- ensures (bind _ _) _ =>
      first [ apply ensures_bind_tail; ensures_go
            | apply ensures_bind_head; [ensures_go | intros ?; respects_fields] ]
  | |- _ => unfold_script; ensures_go
  end.

Section Fields.
Variable web : pyval -> result page.

Lemma scrape_entry_ensures sn webpage f :
  f ∈ scraped_fields -> ensures (scrape_entry web sn webpage) (has_field sn f).
Proof.
  intros H. repeat (apply elem_of_cons in H as [->|H]); [..|by apply elem_of_nil in H].
  all: unfold scrape_entry; ensures_go.
Qed.
End Fields.

Lemma checklinks_keeps_csvfile web : respects (unchanged csvfile) (checklinks web).
Proof. respects_go; by step_apart. Qed.

#[global] Instance same_entry_preorder k : PreOrder (same_entry k).
Proof. split; [done | intros x y z; unfold same_entry; congruence]. Qed.

#[global] Instance same_keys_preorder : PreOrder same_keys.
Proof. split; [done | intros x y z; unfold same_keys; congruence]. Qed.

Lemma for_each_invariant {A} (I : state -> Prop) (l : list A) (body : A -> M unit) s s' :
  (forall y s1 s2, y ∈ l -> I s1 -> body y s1 = (Ok tt, s2) -> I s2) ->
  I s -> for_each l body s = (Ok tt, s') -> I s'.
Proof.
  revert s. induction l as [|x l IH]; intros s Hbody Hs H.
  - by injection H as <-.
  - rewrite for_each_cons in H. apply bind_Ok in H as ([] & s1 & Hx & H).
    apply (IH s1); [|by eapply Hbody; [left|..]|done].
    intros y t1 t2 Hy. apply Hbody. by right.
Qed.

Section Pipeline.
Variable web : pyval -> result page.

Lemma scrape_entry_same_entry sn webpage k :
  sn <> k -> respects (on_gallery (same_entry k)) (scrape_entry web sn webpage).
Proof. intros Hne. unfold same_entry. respects_fields. Qed.

Lemma scrape_entry_keys sn webpage s s' k :
  scrape_entry web sn webpage s = (Ok tt, s') ->
  k ∈ keys (gallerylinks s') -> k = sn \/ k ∈ keys (gallerylinks s).
Proof.
  intros H Hk. destruct (decide (sn = k)) as [->|Hne]; [by left|right].
  apply (scrape_entry_same_entry sn webpage k Hne) in H.
  unfold on_gallery, same_entry in H. apply elem_of_keys. rewrite <- H.
  by apply elem_of_keys.
Qed.

Lemma gallery_entry_all_scraped webpage s s' :
  all_scraped s -> gallery_entry web webpage s = (Ok tt, s') -> all_scraped s'.
Proof.
  intros Hs H. unfold gallery_entry in H.
  apply bind_Ok in H as ([] & s1 & Hprint & H). injection Hprint as <-.
  apply bind_Ok in H as (parts & s2 & Hparts & H).
  unfold lift in Hparts. injection Hparts as _ <-.
  apply bind_Ok in H as (sn & s3 & Hsn & H).
  unfold lift in Hsn. injection Hsn as _ <-.
  intros k f Hk Hf. destruct (scrape_entry_keys _ _ _ _ _ H Hk) as [->|Hk0].
  - by eapply scrape_entry_ensures.
  - destruct (decide (sn = k)) as [->|Hne]; [by eapply scrape_entry_ensures|].
    apply (scrape_entry_same_entry sn webpage k Hne) in H.
    unfold on_gallery, same_entry in H. unfold has_field, field_of. rewrite H.
    by apply (Hs k f).
Qed.

Lemma galleryentries_fields links s s' :
  galleryentries web links s = (Ok tt, s') ->
  all_scraped s' /\ fields_in stored_fields (gallerylinks s').
Proof.
  unfold galleryentries. intros H. apply bind_Ok in H as ([] & s0 & Hw & H).
  injection Hw as <-. split.
  - eapply for_each_invariant; [|shelve|exact H].
    intros y s1 s2 _ Hs1 Hrun. by eapply gallery_entry_all_scraped.
    Unshelve. intros k f Hk. simpl in Hk. by apply elem_of_nil in Hk.
  - assert (respects (on_gallery (kept (fields_in stored_fields)))
              (for_each links (gallery_entry web))) as Hresp by respects_fields.
    apply Hresp in H. apply H. by intros k e f.
Qed.

Lemma checklinks_fields s s' :
  checklinks web s = (Ok tt, s') ->
  keys (gallerylinks s') = keys (gallerylinks s) /\
  (forall k f, has_field k f s -> has_field k f s') /\
  (forall k id_key, k ∈ keys (gallerylinks s) -> id_key ∈ link_values ->
     has_field k (id_key +:+ "_Status") s') /\
  (fields_in stored_fields (gallerylinks s) -> fields_in stored_fields (gallerylinks s')).
Proof.
  intros H. split; [|split; [|split]].
  - assert (respects (on_gallery same_keys) (checklinks web)) as Hresp.
    { unfold same_keys. respects_fields. }
    by apply Hresp in H.
  - intros k f. assert (respects (kept (has_field k f)) (checklinks web)) as Hresp
      by respects_fields.
    by apply Hresp in H.
  - intros k id_key Hk Hid. unfold checklinks in H.
    apply bind_Ok in H as (g & s0 & Hg & H). injection Hg as <- <-.
    revert H. apply (ensures_for_each (keys (gallerylinks s)) (check_entry web) k); [done|..].
    + unfold check_entry. apply ensures_bind_tail. intros _. apply ensures_bind_head.
      * apply (ensures_for_each link_values (check_link web k) id_key); [done|..].
        -- ensures_go.
        -- intros y Hy. respects_fields.
      * intros _. respects_fields.
    + intros y Hy. respects_fields.
  - assert (respects (on_gallery (kept (fields_in stored_fields))) (checklinks web)) as Hresp
      by respects_fields.
    by apply Hresp in H.
Qed.

Lemma crawl_keeps_csvfile : respects (unchanged csvfile) (crawl web).
Proof.
  assert (forall l acc, respects (unchanged csvfile) (gallery_links_loop l acc)) as Hloop.
  { intros l acc. apply respects_same; [apply _|]. intros s.
    destruct (gallery_links_loop l acc s) as [r s'] eqn:E.
    by apply gallery_links_loop_state in E. }
  assert (forall URL, respects (unchanged csvfile) (gallery_links_visit web URL)) as Hvisit.
  { intros URL. unfold gallery_links_visit. respects_go; [by step_apart | apply Hloop]. }
  assert (forall pages acc, respects (unchanged csvfile) (collect_pages web pages acc)) as Hpages.
  { induction pages as [|page pages IH]; intros acc; simpl; [respects_go|].
    apply respects_bind; [apply _ | by step_apart |]. intros _.
    apply respects_bind; [apply _ | apply Hvisit | intros links; apply IH]. }
  unfold crawl, collect_links. apply respects_bind; [apply _ | |].
  - respects_go.  by step_apart.
  - intros pages. apply respects_bind; [apply _ | apply Hvisit | intros links; apply Hpages].
Qed.

(** The script, when it returns: the file has the header and one row
    per entry, and every entry has the stored fields and no other. *)
Lemma main_Ok s s' :
  main web s = (Ok tt, s') ->
  (exists rows,
     csvfile s' = csvfile s ++ map PStr csv_fields :: rows /\
     Forall2 (fun k row => exists e, PyDict.get k (gallerylinks s') = Some e /\
                                     row = cells_of k e)
             (keys (gallerylinks s')) rows) /\
  forall k e, PyDict.get k (gallerylinks s') = Some e ->
    forall f, is_Some (e !! f) <-> f ∈ stored_fields.
Proof.
  unfold main. intros H.
  apply bind_Ok in H as (links & s1 & Hcrawl & H).
  apply bind_Ok in H as ([] & s2 & Hentries & H).
  apply bind_Ok in H as ([] & s3 & Hcheck & H).
  unfold bind at 1, read_gallery, bind at 1, print at 1 in H.
  destruct (dictsumvalue_run
              (State (fetched s3) (current s3)
                 (printed s3 ++ [MsgGallery (gallerylinks s3)]) (gallerylinks s3) (csvfile s3)))
    as (g' & Hsum & Hkeys & Hget).
  rewrite (bind_run _ _ _ _ _ Hsum) in H. simpl in H.
  unfold bind at 1, print at 1 in H.
  match type of H with bind write_csv _ ?s0 = _ =>
    destruct (write_csv_run s0) as (rows & Hcsv & Hrows)
  end.
  rewrite (bind_run _ _ _ _ _ Hcsv) in H. unfold print in H. injection H as <-. simpl in *.
  apply crawl_keeps_csvfile in Hcrawl.
  assert (respects (unchanged csvfile) (galleryentries web links)) as Hr2
    by (respects_go; by step_apart).
  apply Hr2 in Hentries as Hcsv2.
  apply checklinks_keeps_csvfile in Hcheck as Hcsv3.
  unfold unchanged in *. split.
  { exists rows. split; [congruence | done]. }
  apply galleryentries_fields in Hentries as [Hlow Hup].
  apply checklinks_fields in Hcheck as (Hk3 & Hkept & Hstatus & Hup3).
  intros k e Hk f. rewrite Hget in Hk.
  destruct (PyDict.get k (gallerylinks s3)) as [e0|] eqn:Hk0; [|done].
  injection Hk as <-.
  assert (k ∈ keys (gallerylinks s2)) as Hin by (rewrite <- Hk3; apply elem_of_keys; eauto).
  unfold summed. rewrite lookup_insert. split.
  - case_decide as Hf; [subst; intros _; apply (bool_decide_unpack _); by vm_compute|].
    intros Hsome. by apply (Hup3 Hup k e0 f).
  - intros Hf. case_decide; [done|].
    unfold stored_fields in Hf. rewrite !elem_of_app in Hf. destruct Hf as [Hf|[Hf|Hf]].
    + pose proof (Hkept k f (Hlow k f Hin Hf)) as Hhas.
      unfold has_field, field_of in Hhas. by rewrite Hk0 in Hhas.
    + apply list_elem_of_In, in_map_iff in Hf as (id_key & <- & Hid).
      apply list_elem_of_In in Hid.
      pose proof (Hstatus k id_key Hin Hid) as Hhas.
      unfold has_field, field_of in Hhas. by rewrite Hk0 in Hhas.
    + apply list_elem_of_singleton in Hf. by subst.
Qed.

End Pipeline.

(** ** The Link Validator, over the whole dictionary *)

Lemma field_of_set_other k f k' f' v e g :
  PyDict.get k' g = Some e -> k' <> k \/ f' <> f ->
  field_of k f (PyDict.set k' (<[f' := v]> e) g) = field_of k f g.
Proof.
  intros He Hne. unfold field_of. rewrite get_set.
  destruct (decide (k' = k)) as [->|]; [|done].
  rewrite He. simpl. apply lookup_insert_ne. by destruct Hne.
Qed.

(** The names of the statuses differ from those of the links and from
    each other. *)
Lemma status_ne_link id_key id_key' :
  id_key ∈ link_values -> id_key' ∈ link_values -> id_key' +:+ "_Status" <> id_key.
Proof.
  intros H H'.
  repeat (apply elem_of_cons in H as [->|H]); [..|by apply elem_of_nil in H];
    repeat (apply elem_of_cons in H' as [->|H']); try (by apply elem_of_nil in H'); done.
Qed.

Lemma status_inj id_key id_key' :
  id_key ∈ link_values -> id_key' ∈ link_values ->
  id_key' +:+ "_Status" = id_key +:+ "_Status" -> id_key' = id_key.
Proof.
  intros H H'.
  repeat (apply elem_of_cons in H as [->|H]); [..|by apply elem_of_nil in H];
    repeat (apply elem_of_cons in H' as [->|H']); try (by apply elem_of_nil in H'); done.
Qed.

Section WholeValidator.
Variable web : pyval -> result page.
Variable log0 : list pyval.
Variables (k id_key : string) (url : pyval).
Hypothesis Hid : id_key ∈ link_values.
Hypothesis Hurl : url <> PStr "Error".

Lemma link_intact_mono s s' :
  link_intact log0 k id_key url s ->
  field_of k id_key (gallerylinks s') = field_of k id_key (gallerylinks s) ->
  (exists l, fetched s' = fetched s ++ l) ->
  link_intact log0 k id_key url s'.
Proof.
  intros [Hi [l0 Hl0]] E1 [l Hl]. split; [congruence|].
  exists (l0 ++ l). by rewrite Hl, Hl0, app_assoc.
Qed.

Lemma link_checked_mono s s' :
  link_checked web log0 k id_key url s ->
  field_of k id_key (gallerylinks s') = field_of k id_key (gallerylinks s) ->
  field_of k (id_key +:+ "_Status") (gallerylinks s')
    = field_of k (id_key +:+ "_Status") (gallerylinks s) ->
  (exists l, fetched s' = fetched s ++ l) ->
  link_checked web log0 k id_key url s'.
Proof.
  intros [Hi (p & l0 & Hp & Hst & Hl0 & Hin)] E1 E2 [l Hl]. split; [congruence|].
  exists p, (l0 ++ l). split; [done|]. split; [congruence|].
  split; [by rewrite Hl, Hl0, app_assoc | apply elem_of_app; by left].
Qed.

Lemma link_checked_intact s :
  link_checked web log0 k id_key url s -> link_intact log0 k id_key url s.
Proof. intros [Hi (p & l & _ & _ & Hl & _)]. split; [done | by exists l]. Qed.

(** What is left of a step once it is taken apart: the fields are
    those of before, the log has grown. *)
Ltac same_link side :=
  simpl; try done;
  first
    [ rewrite field_of_set_other; [done | done | side; congruence]
    | by exists []; rewrite app_nil_r
    | by eexists ].

(** Checking another entry leaves this link as it is. *)
Lemma check_entry_other_intact y :
  y <> k -> respects (kept (link_intact log0 k id_key url)) (check_entry web y).
Proof.
  intros Hne. respects_go; step_apart; unfold kept; simpl; try done.
  all: intros HI; apply (link_intact_mono _ _ HI); same_link ltac:(left).
Qed.

Lemma check_entry_other_checked y :
  y <> k -> respects (kept (link_checked web log0 k id_key url)) (check_entry web y).
Proof.
  intros Hne. respects_go; step_apart; unfold kept; simpl; try done.
  all: intros HJ; apply (link_checked_mono _ _ HJ); same_link ltac:(left).
Qed.

(** Checking another link of this entry leaves this link as it is. *)
Lemma check_link_intact id_key' :
  id_key' ∈ link_values ->
  respects (kept (link_intact log0 k id_key url)) (check_link web k id_key').
Proof.
  intros Hid'. pose proof (status_ne_link _ _ Hid Hid').
  respects_go; step_apart; unfold kept; simpl; try done.
  all: intros HI; apply (link_intact_mono _ _ HI); same_link ltac:(right).
Qed.

Lemma check_link_other_checked id_key' :
  id_key' ∈ link_values -> id_key' <> id_key ->
  respects (kept (link_checked web log0 k id_key url)) (check_link web k id_key').
Proof.
  intros Hid' Hne. pose proof (status_ne_link _ _ Hid Hid').
  assert (id_key' +:+ "_Status" <> id_key +:+ "_Status")
    by (intros E; by apply status_inj in E).
  respects_go; step_apart; unfold kept; simpl; try done.
  all: intros HJ; apply (link_checked_mono _ _ HJ); same_link ltac:(right).
Qed.

(** Checking this link fetches it and records the status. *)
Lemma check_link_checks s s' :
  link_intact log0 k id_key url s -> check_link web k id_key s = (Ok tt, s') ->
  link_checked web log0 k id_key url s'.
Proof.
  unfold link_intact, field_of. intros [Hi [l Hl]] H.
  destruct (PyDict.get k (gallerylinks s)) as [e|] eqn:Hk; [|done]. simpl in Hi.
  rewrite (check_link_present web _ _ _ _ _ Hk Hi Hurl) in H.
  destruct (web url) as [p|] eqn:Hweb; [|done]. injection H as <-.
  pose proof (status_ne_link _ _ Hid Hid).
  split; [|exists p, (l ++ [url]); split; [done|split; [|split]]]; simpl.
  - rewrite field_of_set_other; [|done|by right].
    unfold field_of. by rewrite Hk.
  - by rewrite field_of_set.
  - by rewrite Hl, app_assoc.
  - apply elem_of_app. right. by left.
Qed.

(** The raster check leaves a checked link as it is. *)
Lemma check_raster_checked s s' :
  link_checked web log0 k id_key url s -> check_raster web k s = (Ok tt, s') ->
  link_checked web log0 k id_key url s'.
Proof.
  intros HJ H. destruct (decide (id_key = "WFS_Link")) as [->|Hne].
  - pose proof HJ as [Hi _]. unfold field_of in Hi.
    destruct (PyDict.get k (gallerylinks s)) as [e|] eqn:Hk; [|done]. simpl in Hi.
    unfold check_raster in H. rewrite (bind_run _ _ _ _ _ (get_field_run _ _ _ _ _ Hk Hi)) in H.
    unfold py_eq in H. rewrite bool_decide_eq_false_2 in H by done.
    by injection H as <-.
  - assert (respects (kept (link_checked web log0 k id_key url)) (check_raster web k)) as Hresp.
    { assert ("WFS_Link" ∈ link_values) as Hwfs by (apply (bool_decide_unpack _); by vm_compute).
      assert ("WFS_Link_Status" <> id_key) by exact (status_ne_link _ _ Hid Hwfs).
      assert ("WFS_Link_Status" <> id_key +:+ "_Status").
      { intros E. apply Hne. symmetry. by apply status_inj. }
      pose proof (status_ne_link "WFS_Link" _ Hwfs Hid).
      respects_go; step_apart; unfold kept; simpl; try done.
      all: intros HJ'; apply (link_checked_mono _ _ HJ'); same_link ltac:(right). }
    apply Hresp in H. by apply H.
Qed.

Lemma check_entry_checks s s' :
  link_intact log0 k id_key url s -> check_entry web k s = (Ok tt, s') ->
  link_checked web log0 k id_key url s'.
Proof.
  intros Hi H. unfold check_entry in H.
  apply bind_Ok in H as ([] & s1 & Hprint & H). injection Hprint as <-.
  apply bind_Ok in H as ([] & s2 & Hloop & H).
  apply (check_raster_checked s2 s'); [|done].
  apply (fun h1 h2 h3 h4 =>
           for_each_establishes (link_intact log0 k id_key url)
             (link_checked web log0 k id_key url)
             link_values (check_link web k) id_key _ _ Hid h1 h2 h3 h4 Hloop); [| | |exact Hi].
  - intros y t1 t2 Hy Ht1 Hrun. apply (check_link_intact y Hy) in Hrun. by apply Hrun.
  - intros y t1 t2 Hy Ht1 Hrun. destruct (decide (y = id_key)) as [->|Hne].
    + apply (check_link_checks t1 t2); [by apply link_checked_intact | done].
    + apply (check_link_other_checked y Hy Hne) in Hrun. by apply Hrun.
  - apply check_link_checks.
Qed.

Lemma checklinks_checks s s' :
  link_intact log0 k id_key url s -> checklinks web s = (Ok tt, s') ->
  link_checked web log0 k id_key url s'.
Proof.
  intros Hi H. unfold checklinks in H.
  apply bind_Ok in H as (g & s0 & Hg & H). injection Hg as <- <-.
  assert (k ∈ keys (gallerylinks s)) as Hk.
  { apply elem_of_keys. destruct Hi as [Hi _]. unfold field_of in Hi.
    destruct (PyDict.get k (gallerylinks s)); [eauto | done]. }
  apply (fun h1 h2 h3 h4 =>
           for_each_establishes (link_intact log0 k id_key url)
             (link_checked web log0 k id_key url)
             (keys (gallerylinks s)) (check_entry web) k _ _ Hk h1 h2 h3 h4 H); [| | |exact Hi].
  - intros y t1 t2 Hy Ht1 Hrun. destruct (decide (y = k)) as [->|Hne].
    + by apply link_checked_intact, (check_entry_checks t1 t2).
    + apply (check_entry_other_intact y Hne) in Hrun. by apply Hrun.
  - intros y t1 t2 Hy Ht1 Hrun. destruct (decide (y = k)) as [->|Hne].
    + apply (check_entry_checks t1 t2); [by apply link_checked_intact | done].
    + apply (check_entry_other_checked y Hne) in Hrun. by apply Hrun.
  - apply check_entry_checks.
Qed.

End WholeValidator.

(** ** The Link Validator, entry by entry *)

Lemma not_status_field id_key f :
  id_key ∈ link_values -> f ∉ status_fields -> id_key +:+ "_Status" <> f.
Proof.
  intros Hid Hf <-. apply Hf. unfold status_fields.
  apply list_elem_of_In, in_map_iff. exists id_key. split; [done | by apply list_elem_of_In].
Qed.

(** What has been printed may grow on both sides. *)
Lemma entry_checked_out web e e' out pre post :
  entry_checked web e e' out -> entry_checked web e e' (pre ++ out ++ post).
Proof.
  intros (H1 & H2 & H3 & H4). split; [done|]. split; [done|]. split; [done|].
  intros Hw. destruct (H4 Hw) as (rest & Hrest & Hr). exists rest. split; [done|].
  unfold raster_checked in *. destruct (web _) as [p|[]]; try done.
  destruct Hr as (? & ? & Hin). split; [done|]. split; [done|].
  rewrite !elem_of_app. auto.
Qed.

Lemma fetches_of_ext g g' ks :
  (forall k, k ∈ ks -> PyDict.get k g' = PyDict.get k g) -> fetches_of g' ks = fetches_of g ks.
Proof.
  unfold fetches_of. induction ks as [|k ks IH]; intros H; [done|]. simpl.
  rewrite H by left. f_equal. apply IH. intros k' Hk'. apply H. by right.
Qed.

Section ValidatorExact.
Variable web : pyval -> result page.

(** A run of [check_link] that returns. *)
Lemma check_link_exact k id_key s s' e :
  PyDict.get k (gallerylinks s) = Some e ->
  check_link web k id_key s = (Ok tt, s') ->
  exists status,
    is_Some (e !! id_key) /\
    (e !! id_key = Some (PStr "Error") -> status = PStr "Error") /\
    gallerylinks s' = PyDict.set k (<[id_key +:+ "_Status" := status]> e) (gallerylinks s) /\
    fetched s' = fetched s ++ link_fetch e id_key /\
    printed s' = printed s.
Proof.
  intros Hk H. unfold link_fetch. destruct (e !! id_key) as [v|] eqn:Hv.
  2:{ unfold check_link in H.
      by rewrite (bind_raise _ _ _ _ _ (get_field_no_field _ _ _ _ Hk Hv)) in H. }
  destruct (decide (v = PStr "Error")) as [->|Hne].
  - rewrite (check_link_error web _ _ _ _ Hk Hv) in H. injection H as <-.
    exists (PStr "Error"). simpl. by rewrite app_nil_r.
  - rewrite (check_link_present web _ _ _ _ _ Hk Hv Hne) in H.
    destruct (web v) as [p|]; [|done]. injection H as <-.
    exists (status_of p). simpl. split; [done|]. split; [|done]. by intros [= ?].
Qed.

(** The inner loop, over link names [l]. *)
Lemma check_links_exact k (l : list string) s s' e :
  (forall id_key, id_key ∈ l -> id_key ∈ link_values) ->
  PyDict.get k (gallerylinks s) = Some e ->
  for_each l (check_link web k) s = (Ok tt, s') ->
  exists e1,
    gallerylinks s' = PyDict.set k e1 (gallerylinks s) /\
    fetched s' = fetched s ++ flat_map (link_fetch e) l /\
    printed s' = printed s /\
    Forall (fun id_key => is_Some (e !! id_key)) l /\
    (forall f, (forall id_key, id_key ∈ l -> id_key +:+ "_Status" <> f) -> e1 !! f = e !! f) /\
    (forall id_key, id_key ∈ l -> e !! id_key = Some (PStr "Error") ->
       e1 !! (id_key +:+ "_Status") = Some (PStr "Error")).
Proof.
  revert s e. induction l as [|id_key l IH]; intros s e Hl Hk H.
  - injection H as <-. exists e. rewrite (set_get_id _ _ _ Hk), app_nil_r.
    repeat split; try done. intros i Hi. by apply elem_of_nil in Hi.
  - rewrite for_each_cons in H. apply bind_Ok in H as ([] & s1 & Hstep & H).
    assert (id_key ∈ link_values) as Hid by (apply Hl; left).
    apply (check_link_exact _ _ _ _ _ Hk) in Hstep as (status & Hsome & Hst & Hg & Hf & Hp).
    set (e0 := <[id_key +:+ "_Status" := status]> e) in *.
    assert (forall i, i ∈ link_values -> e0 !! i = e !! i) as Hagree.
    { intros i Hi. apply lookup_insert_ne. by apply status_ne_link. }
    assert (forall i, i ∈ link_values -> link_fetch e0 i = link_fetch e i) as Hfetch.
    { intros i Hi. unfold link_fetch. by rewrite Hagree. }
    destruct (IH s1 e0) as (e1 & Hg1 & Hf1 & Hp1 & Hsome1 & Hother & Herr).
    { intros i Hi. apply Hl. by right. }
    { rewrite Hg. apply get_set_eq. }
    { done. }
    exists e1. split; [by rewrite Hg1, Hg, set_set|].
    split.
    { rewrite Hf1, Hf. simpl. rewrite <- app_assoc. do 2 f_equal.
      clear -Hfetch Hl. induction l as [|i l IHl]; [done|]. simpl.
      rewrite Hfetch by (apply Hl; right; left). f_equal. apply IHl.
      intros j Hj. apply Hl. apply elem_of_cons in Hj as [->|Hj]; [left | right; by right]. }
    split; [congruence|]. split.
    { constructor; [done|]. apply Forall_forall. intros i Hi.
      rewrite <- Hagree by (apply Hl; by right).
      by apply (proj1 (Forall_forall _ _) Hsome1). }
    split.
    { intros f Hf'. rewrite Hother by (intros i Hi; apply Hf'; by right).
      apply lookup_insert_ne. apply Hf'. left. }
    intros i Hi Hei. destruct (decide (i ∈ l)) as [Hil|Hil].
    + apply Herr; [done|]. rewrite Hagree; [done|]. apply Hl. by right.
    + apply elem_of_cons in Hi as [->|Hi]; [|done].
      rewrite Hother.
      * unfold e0. rewrite lookup_insert_eq. f_equal. by apply Hst.
      * intros j Hj E. apply status_inj in E; [by subst | done |]. apply Hl. by right.
Qed.

(** One entry: what comes of it, what is loaded and what is printed. *)
Lemma check_entry_exact k s s' e :
  PyDict.get k (gallerylinks s) = Some e ->
  check_entry web k s = (Ok tt, s') ->
  exists e' out,
    gallerylinks s' = PyDict.set k e' (gallerylinks s) /\
    fetched s' = fetched s ++ entry_fetches e /\
    printed s' = printed s ++ out /\
    entry_checked web e e' out.
Proof.
  intros Hk H. unfold check_entry in H.
  apply bind_Ok in H as ([] & s0 & Hprint & H). injection Hprint as <-.
  apply bind_Ok in H as ([] & s1 & Hloop & Hraster).
  destruct (check_links_exact k link_values _ _ e (fun _ Hi => Hi)
              (Hk : PyDict.get k (gallerylinks (State _ _ _ _ _)) = _) Hloop)
    as (e1 & Hg1 & Hf1 & Hp1 & Hsome & Hother & Herr).
  simpl in Hg1, Hf1, Hp1.
  assert ("WFS_Link" ∈ link_values) as Hin1 by (apply (bool_decide_unpack _); by vm_compute).
  assert ("REST_Link" ∈ link_values) as Hin2 by (apply (bool_decide_unpack _); by vm_compute).
  assert (forall f, f ∉ status_fields -> e1 !! f = e !! f) as Hplain.
  { intros f Hf. apply Hother. intros i Hi. by apply not_status_field. }
  assert (forall i, i ∈ link_values -> e1 !! i = e !! i) as Hlinks.
  { intros i Hi. apply Hother. intros j Hj. by apply status_ne_link. }
  assert (PyDict.get k (gallerylinks s1) = Some e1) as Hk1 by (rewrite Hg1; apply get_set_eq).
  destruct (proj1 (Forall_forall _ _) Hsome _ Hin1) as [wfs Hwfs].
  destruct (proj1 (Forall_forall _ _) Hsome _ Hin2) as [rest Hrest].
  pose proof Hwfs as Hwfs1. rewrite <- Hlinks in Hwfs1 by done.
  pose proof Hrest as Hrest1. rewrite <- Hlinks in Hrest1 by done.
  unfold entry_fetches, raster_fetch. rewrite Hwfs, Hrest.
  destruct (decide (wfs = PStr "Error")) as [->|Hne].
  - pose proof (Herr _ Hin1 Hwfs) as Hst.
    rewrite (check_raster_error web _ _ _ _ Hk1 Hwfs1 Hrest1) in Hraster.
    assert (forall e', (forall f, f ∉ status_fields -> f <> "WFS_Link" -> e' !! f = e1 !! f) ->
              (forall i, i ∈ link_values -> i <> "WFS_Link" ->
                 e' !! (i +:+ "_Status") = e1 !! (i +:+ "_Status")) ->
              forall out, raster_checked web (PStr (py_str rest +:+ "/0")) e' out ->
              entry_checked web e e' out) as Hchecked.
    { intros e' Hsame Hstat out Hr. split; [|split; [|split]].
      - intros f Hf Hn. by rewrite Hsame, Hplain.
      - intros i Hi Hn Hei. rewrite Hstat by done. by apply Herr.
      - intros w Hw Hn. congruence.
      - intros _. by exists rest. }
    destruct (web (PStr (py_str rest +:+ "/0"))) as [p|ex] eqn:Hweb;
      [destruct (PyString.contains "Raster Layer" (page_source p)) eqn:Hc|destruct ex];
      try done; injection Hraster as <-; simpl.
    + eexists _, [MsgCheckingLinks k]. rewrite Hg1, set_set, Hf1, Hp1, <- app_assoc.
      split; [done|]. split; [done|]. split; [done|]. apply Hchecked.
      * intros f Hf Hn. rewrite !lookup_insert_ne; [done | done |].
        intros <-. apply Hf. apply (bool_decide_unpack _). by vm_compute.
      * intros i Hi Hn. rewrite !lookup_insert_ne; [done | by apply not_eq_sym, status_ne_link |].
        intros E. apply (status_inj i "WFS_Link") in E; done.
      * unfold raster_checked. rewrite Hweb, Hc. rewrite lookup_insert_eq.
        by rewrite lookup_insert_ne, lookup_insert_eq.
    + exists e1, [MsgCheckingLinks k]. rewrite Hg1, Hf1, Hp1, <- app_assoc.
      split; [done|]. split; [done|]. split; [done|]. apply Hchecked; [done..|].
      unfold raster_checked. by rewrite Hweb, Hc.
    + exists e1, [MsgCheckingLinks k; MsgRasterCheckError e1].
      rewrite Hg1, set_set, Hf1, Hp1, <- !app_assoc, (insert_id _ _ _ Hst).
      split; [done|]. split; [done|]. split; [done|]. apply Hchecked; [done..|].
      unfold raster_checked. rewrite Hweb. split; [done|]. split; [done|].
      apply elem_of_cons. right. left.
  - unfold check_raster in Hraster.
    rewrite (bind_run _ _ _ _ _ (get_field_run _ _ _ _ _ Hk1 Hwfs1)) in Hraster.
    unfold py_eq in Hraster. rewrite bool_decide_eq_false_2 in Hraster by done.
    injection Hraster as <-.
    exists e1, [MsgCheckingLinks k]. rewrite app_nil_r.
    split; [done|]. split; [done|]. split; [done|].
    split; [|split; [|split]].
    + intros f Hf _. by apply Hplain.
    + intros i Hi _ Hei. by apply Herr.
    + intros w Hw _. by rewrite Hlinks.
    + intros Hw. congruence.
Qed.

(** The outer loop over keys that are each there once. *)
Lemma check_entries_exact (ks : list string) s s' :
  NoDup ks ->
  (forall k, k ∈ ks -> k ∈ keys (gallerylinks s)) ->
  for_each ks (check_entry web) s = (Ok tt, s') ->
  exists out,
    printed s' = printed s ++ out /\
    keys (gallerylinks s') = keys (gallerylinks s) /\
    fetched s' = fetched s ++ fetches_of (gallerylinks s) ks /\
    (forall k, k ∉ ks -> PyDict.get k (gallerylinks s') = PyDict.get k (gallerylinks s)) /\
    (forall k e, k ∈ ks -> PyDict.get k (gallerylinks s) = Some e ->
       exists e', PyDict.get k (gallerylinks s') = Some e' /\ entry_checked web e e' out).
Proof.
  revert s. induction ks as [|k ks IH]; intros s Hnd Hks H.
  - injection H as <-. exists []. rewrite !app_nil_r. repeat split; try done.
    intros k e Hk. by apply elem_of_nil in Hk.
  - apply NoDup_cons in Hnd as [Hk Hnd].
    rewrite for_each_cons in H. apply bind_Ok in H as ([] & s1 & Hstep & H).
    destruct (proj1 (elem_of_keys k (gallerylinks s))) as [e He]; [apply Hks; left|].
    destruct (check_entry_exact _ _ _ _ He Hstep) as (e' & out1 & Hg1 & Hf1 & Hp1 & Hc1).
    assert (keys (gallerylinks s1) = keys (gallerylinks s)) as Hkeys1
      by (rewrite Hg1; by eapply keys_set).
    destruct (IH s1 Hnd) as (out2 & Hp2 & Hkeys2 & Hf2 & Hout & Hin); [|done|].
    { intros k' Hk'. rewrite Hkeys1. apply Hks. by right. }
    assert (forall k', k' <> k ->
              PyDict.get k' (gallerylinks s1) = PyDict.get k' (gallerylinks s)) as Hother.
    { intros k' Hne. rewrite Hg1. by apply get_set_ne. }
    exists (out1 ++ out2). split; [by rewrite Hp2, Hp1, app_assoc|].
    split; [congruence|]. split; [|split].
    + rewrite Hf2, Hf1, <- app_assoc. f_equal. unfold fetches_of at 2. simpl.
      rewrite He. simpl. f_equal. apply fetches_of_ext.
      intros k' Hk'. apply Hother. by intros ->.
    + intros k' Hk'. apply not_elem_of_cons in Hk' as [Hne Hk'].
      by rewrite Hout, Hother.
    + intros k' e0 Hk' He0. destruct (decide (k' = k)) as [->|Hne].
      * exists e'. split; [rewrite Hout by done; rewrite Hg1; apply get_set_eq|].
        assert (e0 = e) as -> by congruence.
        rewrite <- (app_nil_l (out1 ++ out2)). by apply entry_checked_out.
      * apply elem_of_cons in Hk' as [?|Hk']; [done|].
        destruct (Hin k' e0 Hk') as (e0' & He0' & Hc0); [by rewrite Hother|].
        exists e0'. split; [done|].
        rewrite <- (app_nil_r out2). by apply entry_checked_out.
Qed.

(** The Link Validator on a dictionary, when it returns. *)
Lemma checklinks_exact s s' :
  NoDup (keys (gallerylinks s)) ->
  checklinks web s = (Ok tt, s') ->
  exists out,
    printed s' = printed s ++ out /\
    keys (gallerylinks s') = keys (gallerylinks s) /\
    fetched s' = fetched s ++ validator_fetches (gallerylinks s) /\
    (forall k e, PyDict.get k (gallerylinks s) = Some e ->
       exists e', PyDict.get k (gallerylinks s') = Some e' /\ entry_checked web e e' out).
Proof.
  intros Hnd H. unfold checklinks in H.
  apply bind_Ok in H as (g & s0 & Hg & H). injection Hg as <- <-.
  destruct (check_entries_exact _ _ _ Hnd (fun _ Hk => Hk) H) as (out & Hp & Hkeys & Hf & _ & Hin).
  exists out. split; [done|]. split; [done|]. split; [done|].
  intros k e Hk. apply Hin; [|done]. apply elem_of_keys. eauto.
Qed.

End ValidatorExact.

Lemma probe_url_not_marker (rest : string) : rest +:+ "/0" <> "Error".
Proof.
  destruct rest as [|a [|b [|c [|d [|x rest]]]]]; try done.
  rewrite !append_cons. intros [= _ _ _ _ H]. by destruct rest.
Qed.



(** The addresses of one entry stand together in those of the
    dictionary. *)
Lemma validator_fetches_split (g : dict entry) k e :
  PyDict.get k g = Some e ->
  exists before after, validator_fetches g = before ++ entry_fetches e ++ after.
Proof.
  intros Hk. assert (k ∈ keys g) as Hin by (apply elem_of_keys; eauto).
  apply list_elem_of_split in Hin as (ks1 & ks2 & E).
  exists (fetches_of g ks1), (fetches_of g ks2).
  unfold validator_fetches. rewrite E. unfold fetches_of.
  rewrite flat_map_app. simpl. by rewrite Hk.
Qed.

(** * The claims of the specification *)



(** C2 as stated fails for the WFS link: the sample entry has no WFS link,
    and after a run of the validator, which returns, the status of that
    link is not ["Error"] but ["NA-Raster"], for which the raster probe
    has been loaded. *)
Lemma absent_wfs_link_ends_as_raster :
  let s' := snd (checklinks Sample.web Sample.scraped) in
  fst (checklinks Sample.web Sample.scraped) = Ok tt /\
  "WFS_Link" ∈ link_values /\
  field_of "aerial" "WFS_Link" (gallerylinks Sample.scraped) = Some (PStr "Error") /\
  field_of "aerial" "WFS_Link_Status" (gallerylinks s') = Some (PStr "NA-Raster") /\
  PStr "https://gis/rest/aerial/0" ∈ fetched s' /\
  ~ (forall k id_key, id_key ∈ link_values ->
       field_of k id_key (gallerylinks Sample.scraped) = Some (PStr "Error") ->
       field_of k (id_key +:+ "_Status") (gallerylinks s') = Some (PStr "Error")).
Proof.
  assert ("WFS_Link" ∈ link_values) as Hin by (apply (bool_decide_unpack _); by vm_compute).
  split; [by vm_compute|]. split; [done|]. split; [by vm_compute|]. split; [by vm_compute|].
  split; [apply (bool_decide_unpack _); by vm_compute|].
  intros H. specialize (H "aerial" "WFS_Link" Hin eq_refl). vm_compute in H. discriminate H.
Qed.

(** C3.  The Link Validator on a dictionary, whose keys are distinct, and
    an entry whose WFS link is the absent marker, which per-field
    checking leaves as it is: a run that returns has called [driver.get]
    on the REST link followed by ["/0"], right after the addresses of the
    link fields of this entry; if the page loads and its source contains
    ["Raster Layer"], the WFS link and its status are ["NA-Raster"] at the
    end; if it loads without, both are ["Error"]; if [driver.get] raises
    [InvalidArgumentException] the run goes on all the same: the entry
    has been printed with the message and the WFS status is ["Error"].
    No other exception lets the run return. *)
Theorem raster_check_overrides_or_records_error
    (web : pyval -> result page) (s s' : state) (map_key : string)
    (e : entry) (rest : pyval) :
  checklinks web s = (Ok tt, s') ->
  NoDup (keys (gallerylinks s)) ->
  PyDict.get map_key (gallerylinks s) = Some e ->
  e !! "WFS_Link" = Some (PStr "Error") ->
  e !! "REST_Link" = Some rest ->
  let url := PStr (py_str rest +:+ "/0") in
  exists before after out e',
    fetched s' = fetched s ++ before ++ (flat_map (link_fetch e) link_values ++ [url]) ++ after /\
    printed s' = printed s ++ out /\
    PyDict.get map_key (gallerylinks s') = Some e' /\
    (forall p, web url = Ok p -> PyString.contains "Raster Layer" (page_source p) = true ->
       e' !! "WFS_Link" = Some (PStr "NA-Raster") /\
       e' !! "WFS_Link_Status" = Some (PStr "NA-Raster")) /\
    (forall p, web url = Ok p -> PyString.contains "Raster Layer" (page_source p) = false ->
       e' !! "WFS_Link" = Some (PStr "Error") /\
       e' !! "WFS_Link_Status" = Some (PStr "Error")) /\
    (web url = Raise InvalidArgumentException ->
       MsgRasterCheckError e' ∈ out /\
       e' !! "WFS_Link_Status" = Some (PStr "Error") /\
       e' !! "WFS_Link" = Some (PStr "Error")) /\
    (forall ex, web url = Raise ex -> ex = InvalidArgumentException).
Proof.
  intros Hrun Hnd Hk Hwfs Hrest url.
  destruct (checklinks_exact web s s' Hnd Hrun) as (out & Hp & _ & Hf & Hin).
  destruct (Hin _ _ Hk) as (e' & Hk' & _ & _ & _ & Hr).
  destruct (Hr Hwfs) as (rest' & Hrest' & Hraster).
  assert (rest' = rest) as -> by congruence. fold url in Hraster.
  destruct (validator_fetches_split _ _ _ Hk) as (before & after & Hsplit).
  exists before, after, out, e'. split.
  { rewrite Hf, Hsplit. do 3 f_equal. unfold entry_fetches, raster_fetch.
    rewrite Hwfs, Hrest. by rewrite decide_True. }
  split; [done|]. split; [done|]. unfold raster_checked in Hraster.
  destruct (web url) as [p|ex].
  - split; [|split; [|split]]; try done.
    + intros p' [= <-] Hc. by rewrite Hc in Hraster.
    + intros p' [= <-] Hc. by rewrite Hc in Hraster.
  - destruct ex; try done. destruct Hraster as (? & ? & ?).
    split; [done|]. split; [done|]. split; [done|]. by intros ex [= <-].
Qed.

Lemma raster_check_overrides_or_records_error_witness :
  let s' := snd (checklinks Sample.web Sample.scraped_two) in
  field_of "aerial" "WFS_Link" (gallerylinks s') = Some (PStr "NA-Raster") /\
  field_of "aerial" "WFS_Link_Status" (gallerylinks s') = Some (PStr "NA-Raster") /\
  Sample.web (PStr "Error/0") = Raise InvalidArgumentException /\
  field_of "bare" "WFS_Link_Status" (gallerylinks s') = Some (PStr "Error") /\
  exists e', PyDict.get "bare" (gallerylinks s') = Some e' /\
             MsgRasterCheckError e' ∈ printed s'.
Proof.
  intros s'.
  destruct (raster_check_overrides_or_records_error Sample.web Sample.scraped_two s'
              "aerial" Sample.aerial_entry (PStr "https://gis/rest/aerial"))
    as (_ & _ & _ & e1 & _ & _ & Hk1 & Hraster & _);
    [by vm_compute | apply (bool_decide_unpack _); by vm_compute | done
    | by vm_compute | by vm_compute |].
  destruct (raster_check_overrides_or_records_error Sample.web Sample.scraped_two s'
              "bare" Sample.bare_entry (PStr "Error"))
    as (_ & _ & out & e2 & _ & Hp & Hk2 & _ & _ & Hinvalid & _);
    [by vm_compute | apply (bool_decide_unpack _); by vm_compute | done
    | by vm_compute | by vm_compute |].
  destruct (Hraster (Sample.plain "Type: Raster Layer")) as [Hw Hs]; [done | by vm_compute |].
  destruct Hinvalid as (Hmsg & Hst & _); [done|].
  clearbody s'. unfold field_of. rewrite Hk1, Hk2. simpl.
  split; [done|]. split; [done|]. split; [done|]. split; [done|].
  exists e2. split; [done|]. rewrite Hp. apply elem_of_app. by right.
Defined.

(** C4.  Summary Reducer: [dictsumvalue] returns, and the summary status
    it gives to every entry is ["Error"] exactly when some value of the
    entry is ["Error"], and ["No problem"] otherwise; so an entry without
    an ["Error"] value, the raster sentinel or not, gets ["No problem"].
    Nothing else in the entry changes. *)
Theorem summary_is_error_iff_some_value_is (s : state) :
  exists s',
    dictsumvalue s = (Ok tt, s') /\
    forall map_keys e, PyDict.get map_keys (gallerylinks s) = Some e ->
      exists st,
        PyDict.get map_keys (gallerylinks s') = Some (<["Summary Status" := PStr st]> e) /\
        (st = "Error" <-> exists f, e !! f = Some (PStr "Error")) /\
        (st = "No problem" <-> forall f, e !! f <> Some (PStr "Error")).
Proof.
  destruct (dictsumvalue_run s) as (g' & Hrun & _ & Hget).
  eexists. split; [apply Hrun|]. intros k e Hk. simpl.
  exists (summary_of e). split; [by rewrite Hget, Hk|].
  destruct (summary_of_spec e) as [[[f Hf] ->]|[Hno ->]].
  - split; [split; [eauto | done]|]. split; [done|]. intros H. by apply H in Hf.
  - split; [|done]. split; [done|]. intros [f Hf]. by apply Hno in Hf.
Qed.

Lemma summary_is_error_iff_some_value_is_witness :
  exists s',
    dictsumvalue Sample.checked = (Ok tt, s') /\
    forall map_keys e, PyDict.get map_keys (gallerylinks Sample.checked) = Some e ->
      exists st,
        PyDict.get map_keys (gallerylinks s') = Some (<["Summary Status" := PStr st]> e) /\
        (st = "Error" <-> exists f, e !! f = Some (PStr "Error")) /\
        (st = "No problem" <-> forall f, e !! f <> Some (PStr "Error")).
Proof. apply (summary_is_error_iff_some_value_is Sample.checked). Defined.

(** The example of the specification: statuses active, WFS not
    applicable for a raster, and next to it an entry with one error. *)
Example summary_of_raster_entry :
  let g := gallerylinks (snd (dictsumvalue Sample.checked)) in
  field_of "aerial" "Summary Status" g = Some (PStr "No problem") /\
  field_of "broken" "Summary Status" g = Some (PStr "Error").
Proof. vm_compute. done. Qed.

(** C9.  Report Writer: [write_csv] returns and appends the header and one
    row per entry; in the row of an entry the cell of a column is the
    entry's value of that field when it is there and truthy, and the
    entry's key when the field is missing, [None] or the empty string. *)
Theorem report_cell_is_value_or_key (s : state) :
  exists rows s',
    write_csv s = (Ok tt, s') /\
    csvfile s' = csvfile s ++ map PStr csv_fields :: rows /\
    length rows = length (keys (gallerylinks s)) /\
    forall j k e i field,
      keys (gallerylinks s) !! j = Some k ->
      PyDict.get k (gallerylinks s) = Some e ->
      csv_fields !! i = Some field ->
      exists row cell,
        rows !! j = Some row /\ row !! i = Some cell /\
        (forall v, e !! field = Some v -> v <> PNone -> v <> PStr "" -> cell = v) /\
        (e !! field = None \/ e !! field = Some PNone \/ e !! field = Some (PStr "") ->
         cell = PStr k).
Proof.
  destruct (write_csv_run s) as (rows & Hrun & Hrows).
  exists rows. eexists. split; [apply Hrun|]. split; [done|].
  split; [symmetry; by eapply Forall2_length|].
  intros j k e i field Hj Hk Hi.
  destruct (Forall2_lookup_l _ _ _ _ _ Hrows Hj) as (row & Hrow & e' & Hk' & ->).
  assert (e' = e) as -> by congruence.
  exists (cells_of k e), (get_or e field k). split; [done|]. split.
  - unfold cells_of. by rewrite lookup_map, Hi.
  - split; [intros v; apply get_or_present | apply get_or_fallback].
Qed.

Lemma report_cell_is_value_or_key_witness :
  exists rows s',
    write_csv Sample.checked = (Ok tt, s') /\
    csvfile s' = csvfile Sample.checked ++ map PStr csv_fields :: rows /\
    length rows = length (keys (gallerylinks Sample.checked)) /\
    forall j k e i field,
      keys (gallerylinks Sample.checked) !! j = Some k ->
      PyDict.get k (gallerylinks Sample.checked) = Some e ->
      csv_fields !! i = Some field ->
      exists row cell,
        rows !! j = Some row /\ row !! i = Some cell /\
        (forall v, e !! field = Some v -> v <> PNone -> v <> PStr "" -> cell = v) /\
        (e !! field = None \/ e !! field = Some PNone \/ e !! field = Some (PStr "") ->
         cell = PStr k).
Proof. apply (report_cell_is_value_or_key Sample.checked). Defined.

(** The example of the specification: no [PDF_Link_Text], so the cell is
    the key. *)
Example report_fallback_example :
  get_or Sample.raster_entry "PDF_Link_Text" "downtown-parking" = PStr "downtown-parking" /\
  get_or Sample.raster_entry "WMS_Link_Status" "downtown-parking" = PStr "Active".
Proof. vm_compute. done. Qed.

(** C8.  Pagination: when the last-page parameter is ["4"], a crawl that
    returns has called [gallery_links_visit] on exactly five index pages,
    the gallery page itself and its pages 1 to 4, in this order and each
    once. *)
Theorem crawl_visits_pages_0_to_4
    (web : pyval -> result page) (s s1 s2 : state) (links : list pyval) :
  totalpages web (PStr gallery_url) s = (Ok "4", s1) ->
  crawl web s = (Ok links, s2) ->
  let visited :=
    [PStr gallery_url; PStr (gallery_url +:+ "?page=1"); PStr (gallery_url +:+ "?page=2");
     PStr (gallery_url +:+ "?page=3"); PStr (gallery_url +:+ "?page=4")] in
  fetched s2 = fetched s1 ++ visited /\ length visited = 5 /\ NoDup visited.
Proof.
  intros Htotal Hcrawl visited. split; [|split; [done|]].
  - unfold crawl, count_pages in Hcrawl.
    apply bind_Ok in Hcrawl as (pages & s1' & Hcount & Hcollect).
    rewrite (bind_run _ _ _ _ _ Htotal) in Hcount. injection Hcount as <- <-.
    by apply collect_links_fetched in Hcollect.
  - apply (bool_decide_unpack _). by vm_compute.
Qed.

Lemma crawl_visits_pages_0_to_4_witness :
  let s1 := snd (totalpages Sample.web5 (PStr gallery_url) Sample.start) in
  let s2 := snd (crawl Sample.web5 Sample.start) in
  let visited :=
    [PStr gallery_url; PStr (gallery_url +:+ "?page=1"); PStr (gallery_url +:+ "?page=2");
     PStr (gallery_url +:+ "?page=3"); PStr (gallery_url +:+ "?page=4")] in
  fetched s2 = fetched s1 ++ visited /\ length visited = 5 /\ NoDup visited.
Proof.
  apply (crawl_visits_pages_0_to_4 Sample.web5 Sample.start _ _
           (map (fun i => PStr ("https://h/map/m" +:+ PyString.of_int i)) [0; 1; 2; 3; 4]%Z)).
  - vm_compute. reflexivity.
  - vm_compute. reflexivity.
Defined.




(** C10.  Entry Scraper: [galleryentries] returns only if every entry URL
    contains ["/map/"] and the source of every iframe it finds contains
    ["webmap="]; a first URL without ["/map/"], or a first page whose
    iframe source lacks ["webmap="], makes it raise [IndexError], which
    nothing catches, where a missing element would have been recorded as
    ["Error"]. *)
Theorem entry_scraper_needs_map_and_webmap (web : pyval -> result page) :
  (forall links s s' webpage,
     galleryentries web links s = (Ok tt, s') -> webpage ∈ links ->
     exists url, webpage = PStr url /\ PyString.contains "/map/" url = true /\
       forall p field iframe,
         web webpage = Ok p ->
         find_element (has_class_name "field-name-field-map-iframe") (document p) = Ok field ->
         find_element (has_tag_name "iframe") (descendants field) = Ok iframe ->
         exists src, get_attribute iframe "src" = PStr src /\
           PyString.contains "webmap=" src = true) /\
  (forall url rest s,
     PyString.contains "/map/" url = false ->
     exists s', galleryentries web (PStr url :: rest) s = (Raise IndexError, s')) /\
  (forall url rest s p field iframe src,
     PyString.contains "/map/" url = true ->
     web (PStr url) = Ok p ->
     find_element (has_class_name "field-name-field-map-iframe") (document p) = Ok field ->
     find_element (has_tag_name "iframe") (descendants field) = Ok iframe ->
     get_attribute iframe "src" = PStr src ->
     PyString.contains "webmap=" src = false ->
     exists s', galleryentries web (PStr url :: rest) s = (Raise IndexError, s')).
Proof.
  split; [|split].
  - intros links s s' webpage H Hin. unfold galleryentries in H.
    apply bind_Ok in H as ([] & s0 & _ & H).
    destruct (for_each_Ok _ _ _ _ _ H Hin) as (s1 & s2 & Hbody).
    by apply gallery_entry_Ok in Hbody.
  - intros url rest s Hmap. eexists. unfold galleryentries, bind at 1, write_gallery.
    rewrite for_each_cons. apply bind_raise. by apply gallery_entry_no_map.
  - intros url rest s p field iframe src Hmap Hweb Hfield Hiframe Hsrc Hwebmap.
    unfold galleryentries, bind at 1, write_gallery. rewrite for_each_cons.
    match goal with |- context [bind _ _ ?s0] =>
      destruct (gallery_entry_no_webmap web url s0 p field iframe src) as (s' & Hrun); try done
    end.
    exists s'. by apply bind_raise.
Qed.

Lemma entry_scraper_needs_map_and_webmap_witness :
  (exists s', galleryentries Sample.web [PStr "https://h/zoning"] Sample.start
              = (Raise IndexError, s')) /\
  (exists s', galleryentries Sample.web [PStr "https://h/map/parcels"] Sample.start
              = (Raise IndexError, s')).
Proof.
  split.
  - apply (proj1 (proj2 (entry_scraper_needs_map_and_webmap Sample.web))). reflexivity.
  - apply (proj2 (proj2 (entry_scraper_needs_map_and_webmap Sample.web))
             "https://h/map/parcels" [] Sample.start Sample.parcels
             (Sample.div ["field-name-field-map-iframe"]
                [Elem "iframe" [] [("src", "https://arcgis/apps/viewer?id=7&extent=1,2")] "" []])
             (Elem "iframe" [] [("src", "https://arcgis/apps/viewer?id=7&extent=1,2")] "" [])
             "https://arcgis/apps/viewer?id=7&extent=1,2"); reflexivity.
Defined.

(** C5 as stated fails: after the whole script has run on the sample
    gallery, the entry of ["zoning"] has no field [gallery_entry_name],
    which is one of the 19 columns. *)
Lemma schema_field_missing_from_record :
  let out := main Sample.web Sample.start in
  fst out = Ok tt /\
  ~ (forall k e, PyDict.get k (gallerylinks (snd out)) = Some e ->
       forall f, f ∈ csv_fields -> is_Some (e !! f)).
Proof.
  split; [by vm_compute|]. intros H.
  destruct (PyDict.get "zoning" (gallerylinks (snd (main Sample.web Sample.start))))
    as [e|] eqn:E; [|by vm_compute in E].
  specialize (H "zoning" e E "gallery_entry_name" ltac:(left)).
  vm_compute in E. injection E as <-. vm_compute in H. by destruct H.
Qed.

(** C5, as the code has it.  After the whole script has run, every entry
    has a value for each of the columns other than [gallery_entry_name]
    and [PDF_Download_LINK]; [gallery_entry_name] is never a field of the
    entry, and its cell in the row of the entry is the entry's key. *)
Theorem stored_schema_fields_are_defined
    (web : pyval -> result page) (s s' : state) :
  main web s = (Ok tt, s') ->
  (forall k e, PyDict.get k (gallerylinks s') = Some e ->
     (forall f, f ∈ csv_fields -> f <> "gallery_entry_name" -> f <> "PDF_Download_LINK" ->
        is_Some (e !! f)) /\
     e !! "gallery_entry_name" = None) /\
  exists rows,
    csvfile s' = csvfile s ++ map PStr csv_fields :: rows /\
    length rows = length (keys (gallerylinks s')) /\
    forall j k, keys (gallerylinks s') !! j = Some k ->
      exists row, rows !! j = Some row /\ length row = length csv_fields /\
        csv_fields !! 0 = Some "gallery_entry_name" /\ row !! 0 = Some (PStr k).
Proof.
  intros H. apply main_Ok in H as [(rows & Hcsv & Hrows) Hfields].
  assert (forall k e, PyDict.get k (gallerylinks s') = Some e ->
            e !! "gallery_entry_name" = None) as Hname.
  { intros k e Hk. destruct (e !! "gallery_entry_name") eqn:E; [|done].
    assert ("gallery_entry_name" ∈ stored_fields) as Hin
      by (apply (Hfields k e Hk); rewrite E; eauto).
    by apply (bool_decide_pack _) in Hin. }
  split.
  - intros k e Hk. split; [|by eapply Hname].
    intros f Hf Hn Hp. apply (Hfields k e Hk).
    repeat (apply elem_of_cons in Hf as [->|Hf]); [..|by apply elem_of_nil in Hf];
      try done; apply (bool_decide_unpack _); by vm_compute.
  - exists rows. split; [done|]. split; [symmetry; by eapply Forall2_length|].
    intros j k Hj.
    destruct (Forall2_lookup_l _ _ _ _ _ Hrows Hj) as (row & Hrow & e & Hk & ->).
    exists (cells_of k e). split; [done|]. split; [by unfold cells_of; rewrite length_map|].
    split; [done|]. unfold cells_of. simpl. f_equal.
    apply get_or_fallback. left. by eapply Hname.
Qed.

Lemma stored_schema_fields_are_defined_witness :
  let s' := snd (main Sample.web Sample.start) in
  (forall k e, PyDict.get k (gallerylinks s') = Some e ->
     (forall f, f ∈ csv_fields -> f <> "gallery_entry_name" -> f <> "PDF_Download_LINK" ->
        is_Some (e !! f)) /\
     e !! "gallery_entry_name" = None) /\
  exists rows,
    csvfile s' = csvfile Sample.start ++ map PStr csv_fields :: rows /\
    length rows = length (keys (gallerylinks s')) /\
    forall j k, keys (gallerylinks s') !! j = Some k ->
      exists row, rows !! j = Some row /\ length row = length csv_fields /\
        csv_fields !! 0 = Some "gallery_entry_name" /\ row !! 0 = Some (PStr k).
Proof.
  apply (stored_schema_fields_are_defined Sample.web Sample.start).
  vm_compute. reflexivity.
Defined.

(** C6.  After the whole script has run, the cell of the column
    [PDF_Download_LINK] is, in every row, the key of the entry: the entry
    has the field [PDF_Download_Link], where the scraper stored the link
    or ["Error"], and no field [PDF_Download_LINK]. *)
Theorem pdf_download_cell_is_the_key
    (web : pyval -> result page) (s s' : state) :
  main web s = (Ok tt, s') ->
  exists rows,
    csvfile s' = csvfile s ++ map PStr csv_fields :: rows /\
    length rows = length (keys (gallerylinks s')) /\
    csv_fields !! 10 = Some "PDF_Download_LINK" /\
    forall j k, keys (gallerylinks s') !! j = Some k ->
      exists row e,
        rows !! j = Some row /\ PyDict.get k (gallerylinks s') = Some e /\
        row !! 10 = Some (PStr k) /\
        is_Some (e !! "PDF_Download_Link") /\ e !! "PDF_Download_LINK" = None.
Proof.
  intros H. apply main_Ok in H as [(rows & Hcsv & Hrows) Hfields].
  exists rows. split; [done|]. split; [symmetry; by eapply Forall2_length|].
  split; [done|]. intros j k Hj.
  destruct (Forall2_lookup_l _ _ _ _ _ Hrows Hj) as (row & Hrow & e & Hk & ->).
  exists (cells_of k e), e. split; [done|]. split; [done|].
  assert (e !! "PDF_Download_LINK" = None) as Hnone.
  { destruct (e !! "PDF_Download_LINK") eqn:E; [|done].
    assert ("PDF_Download_LINK" ∈ stored_fields) as Hin
      by (apply (Hfields k e Hk); rewrite E; eauto).
    by apply (bool_decide_pack _) in Hin. }
  split; [|split; [|done]].
  - unfold cells_of. simpl. f_equal. apply get_or_fallback. by left.
  - apply (Hfields k e Hk). apply (bool_decide_unpack _). by vm_compute.
Qed.

Lemma pdf_download_cell_is_the_key_witness :
  let s' := snd (main Sample.web Sample.start) in
  exists rows,
    csvfile s' = csvfile Sample.start ++ map PStr csv_fields :: rows /\
    length rows = length (keys (gallerylinks s')) /\
    csv_fields !! 10 = Some "PDF_Download_LINK" /\
    forall j k, keys (gallerylinks s') !! j = Some k ->
      exists row e,
        rows !! j = Some row /\ PyDict.get k (gallerylinks s') = Some e /\
        row !! 10 = Some (PStr k) /\
        is_Some (e !! "PDF_Download_Link") /\ e !! "PDF_Download_LINK" = None.
Proof.
  apply (pdf_download_cell_is_the_key Sample.web Sample.start).
  vm_compute. reflexivity.
Defined.

(** In the sample gallery the link of the PDF of ["zoning"] was found, and
    the cell holds the key all the same. *)
Example pdf_link_found_but_cell_is_key :
  let s' := snd (main Sample.web Sample.start) in
  field_of "zoning" "PDF_Download_Link" (gallerylinks s') = Some (PStr "https://h/zoning.pdf") /\
  (csvfile s' !! 1) ≫= (fun row => row !! 10) = Some (PStr "zoning").
Proof. vm_compute. done. Qed.

(** C1.  Link Validator, a link field that holds something else than the
    absent marker: when [checklinks] returns, it has called [driver.get]
    on the value of the field, the page has loaded, and the status field
    of the link is ["Error"] if the source of the page contains one of
    the phrases of [error_msg], and ["Active"] if it contains none; this
    for every entry and each of the six link fields. *)
Theorem present_link_is_fetched_and_classified
    (web : pyval -> result page) (s s' : state) (map_key id_key : string)
    (e : entry) (url : pyval) :
  checklinks web s = (Ok tt, s') ->
  PyDict.get map_key (gallerylinks s) = Some e ->
  id_key ∈ link_values ->
  e !! id_key = Some url ->
  url <> PStr "Error" ->
  exists p l,
    web url = Ok p /\ fetched s' = fetched s ++ l /\ url ∈ l /\
    ((exists phrase, phrase ∈ error_msg /\ PyString.contains phrase (page_source p) = true) ->
       field_of map_key (id_key +:+ "_Status") (gallerylinks s') = Some (PStr "Error")) /\
    ((forall phrase, phrase ∈ error_msg -> PyString.contains phrase (page_source p) = false) ->
       field_of map_key (id_key +:+ "_Status") (gallerylinks s') = Some (PStr "Active")).
Proof.
  intros Hrun Hk Hid He Hurl.
  destruct (checklinks_checks web (fetched s) map_key id_key url Hid Hurl s s')
    as [_ (p & l & Hweb & Hst & Hl & Hin)]; [|done|].
  { split; [|by exists []; rewrite app_nil_r]. unfold field_of. by rewrite Hk. }
  exists p, l. split; [done|]. split; [done|]. split; [done|].
  rewrite Hst. unfold status_of. split.
  - intros (phrase & Hphrase & Hc).
    destruct (existsb _ error_msg) eqn:E; [done|].
    assert (existsb (fun i => PyString.contains i (page_source p)) error_msg = true); [|congruence].
    apply existsb_exists. exists phrase. split; [by apply list_elem_of_In | done].
  - intros Hnone. destruct (existsb _ error_msg) eqn:E; [|done].
    apply existsb_exists in E as (phrase & Hphrase & Hc).
    apply list_elem_of_In in Hphrase. rewrite (Hnone _ Hphrase) in Hc. done.
Qed.

Lemma present_link_is_fetched_and_classified_witness :
  let s' := snd (checklinks Sample.web Sample.scraped) in
  let url := PStr "https://agol/aerial" in
  exists p l,
    Sample.web url = Ok p /\ fetched s' = fetched Sample.scraped ++ l /\ url ∈ l /\
    ((exists phrase, phrase ∈ error_msg /\ PyString.contains phrase (page_source p) = true) ->
       field_of "aerial" "AGOL_Link_Status" (gallerylinks s') = Some (PStr "Error")) /\
    ((forall phrase, phrase ∈ error_msg -> PyString.contains phrase (page_source p) = false) ->
       field_of "aerial" "AGOL_Link_Status" (gallerylinks s') = Some (PStr "Active")).
Proof.
  apply (present_link_is_fetched_and_classified Sample.web Sample.scraped _
           "aerial" "AGOL_Link" Sample.aerial_entry (PStr "https://agol/aerial")).
  - vm_compute. reflexivity.
  - reflexivity.
  - repeat constructor.
  - vm_compute. reflexivity.
  - discriminate.
Defined.

(** On the sample entry: the page of the ArcGIS Online link says that the
    item does not exist, the pages of the REST and WMS links are fine. *)
Example validator_on_sample_entry :
  let g := gallerylinks (snd (checklinks Sample.web Sample.scraped)) in
  field_of "aerial" "AGOL_Link_Status" g = Some (PStr "Error") /\
  field_of "aerial" "REST_Link_Status" g = Some (PStr "Active") /\
  field_of "aerial" "WMS_Link_Status" g = Some (PStr "Active") /\
  field_of "aerial" "Metadata_Link_Status" g = Some (PStr "Error") /\
  field_of "aerial" "WFS_Link_Status" g = Some (PStr "NA-Raster").
Proof. vm_compute. done. Qed.

(** * Further properties of the script *)

(** ** Loading pages *)

Lemma find_element_Ok_elem by_ scope e :
  find_element by_ scope = Ok e -> e ∈ scope /\ by_ e = true.
Proof.
  unfold find_element. destruct (List.find by_ scope) as [x|] eqn:E; [|done].
  intros [= <-]. apply find_some in E as [Hin Hby]. split; [by apply list_elem_of_In | done].
Qed.

Lemma find_element_absent by_ scope :
  (forall x, x ∈ scope -> by_ x = false) -> find_element by_ scope = Raise NoSuchElementException.
Proof.
  intros H. unfold find_element. destruct (List.find by_ scope) as [x|] eqn:E; [|done].
  apply find_some in E as [Hin Hby]. apply list_elem_of_In in Hin. by rewrite (H x Hin) in Hby.
Qed.

(** X1.  [load_map_page] never lets the timeout of the wait escape: when
    [driver.get] returns, [load_map_page] returns with the page shown and
    one more entry in the log, and it has printed the timeout message
    exactly when the page has no link whose text contains
    ["Services Directory"]; what [driver.get] raises is raised as it is. *)
Theorem load_map_page_returns_despite_timeout
    (web : pyval -> result page) (URL : pyval) (s : state) :
  (forall p, web URL = Ok p ->
     exists s',
       load_map_page web URL s = (Ok tt, s') /\
       fetched s' = fetched s ++ [URL] /\ current s' = p /\
       gallerylinks s' = gallerylinks s /\ csvfile s' = csvfile s /\
       ((exists a, a ∈ document p /\ has_partial_link_text "Services Directory" a = true) ->
          printed s' = printed s) /\
       ((forall a, a ∈ document p -> has_partial_link_text "Services Directory" a = false) ->
          printed s' = printed s ++ [MsgTimedOut])) /\
  (forall ex, web URL = Raise ex ->
     load_map_page web URL s =
       (Raise ex, State (fetched s ++ [URL]) (current s) (printed s) (gallerylinks s) (csvfile s))).
Proof.
  split.
  - intros p Hweb. unfold load_map_page.
    rewrite (bind_run _ _ _ _ _ (driver_get_run web _ s _ Hweb)).
    unfold try_except, wait_until_present, print. simpl.
    destruct (find_element _ (document p)) as [a|ex] eqn:E; simpl.
    + eexists. split; [done|]. simpl. repeat split; try done.
      intros Hnone. apply find_element_Ok_elem in E as [Hin Hby].
      by rewrite (Hnone a Hin) in Hby.
    + eexists. split; [done|]. simpl. repeat split; try done.
      intros (a & Hin & Hby). unfold find_element in E.
      destruct (List.find _ (document p)) eqn:Ef; [done|].
      apply list_elem_of_In in Hin. by rewrite (find_none _ _ Ef a Hin) in Hby.
  - intros ex Hweb. unfold load_map_page, bind, driver_get. by rewrite Hweb.
Qed.

Lemma load_map_page_returns_despite_timeout_witness :
  (exists s', load_map_page Sample.web (PStr "https://h/map/parcels") Sample.start = (Ok tt, s') /\
     printed s' = [MsgTimedOut] /\ current s' = Sample.parcels) /\
  load_map_page Sample.web (PStr "no-scheme") Sample.start =
    (Raise InvalidArgumentException, State [PStr "no-scheme"] (Sample.plain "") [] [] []).
Proof.
  destruct (load_map_page_returns_despite_timeout
              Sample.web (PStr "https://h/map/parcels") Sample.start) as [Hok _].
  destruct (load_map_page_returns_despite_timeout
              Sample.web (PStr "no-scheme") Sample.start) as [_ Hraise].
  split.
  - destruct (Hok Sample.parcels eq_refl) as (s' & Hrun & _ & Hcur & _ & _ & _ & Hprint).
    exists s'. split; [done|]. split; [|done]. apply Hprint.
    intros a Ha. vm_compute in Ha.
    repeat (apply elem_of_cons in Ha as [->|Ha]; [reflexivity|]). by apply elem_of_nil in Ha.
  - apply Hraise. reflexivity.
Defined.

(** ** The links of an index page *)

Lemma gallery_links_loop_run (l : list element) (acc : list pyval) s :
  (Forall (fun c => exists a, find_element (has_tag_name "a") (descendants c) = Ok a) l ->
   exists links,
     gallery_links_loop l acc s = (Ok (acc ++ links), s) /\
     Forall2 (fun c link => exists a,
                find_element (has_tag_name "a") (descendants c) = Ok a /\
                link = get_attribute a "href") l links) /\
  (Exists (fun c => find_element (has_tag_name "a") (descendants c)
                    = Raise NoSuchElementException) l ->
   gallery_links_loop l acc s = (Raise NoSuchElementException, s)).
Proof.
  revert acc. induction l as [|c l IH]; intros acc; simpl.
  - split; [|by intros ?%Exists_nil]. intros _. exists []. by rewrite app_nil_r.
  - unfold bind, element_find_element, lift.
    destruct (find_element (has_tag_name "a") (descendants c)) as [a|ex] eqn:E.
    + destruct (IH (acc ++ [get_attribute a "href"])) as [IHok IHraise]. split.
      * intros Hall. apply Forall_cons in Hall as [_ Hall].
        destruct (IHok Hall) as (links & Hrun & Hlinks).
        exists (get_attribute a "href" :: links). split.
        -- by rewrite Hrun, <- app_assoc.
        -- constructor; [by exists a | done].
      * intros Hex. apply Exists_cons in Hex as [Hc|Hex]; [congruence | by apply IHraise].
    + apply find_element_Raise in E as E'. subst ex. split; [|done].
      intros Hall. apply Forall_cons in Hall as [[a Ha] _]. congruence.
Qed.

(** X2.  [gallery_links_visit] on an index page that loads: it returns
    exactly when every container of class [brgt mcfw] has a link below it,
    and then gives, container by container in document order, the [href]
    of the first link of each, leaving duplicates in; a container without
    a link makes it raise [NoSuchElementException]. *)
Theorem gallery_links_visit_one_link_per_container
    (web : pyval -> result page) (URL : pyval) (s : state) (p : page) :
  web URL = Ok p ->
  let containers := find_elements (has_class_name "brgt.mcfw") (document p) in
  let s1 := State (fetched s ++ [URL]) p (printed s) (gallerylinks s) (csvfile s) in
  (Forall (fun c => exists a, find_element (has_tag_name "a") (descendants c) = Ok a) containers ->
   exists links,
     gallery_links_visit web URL s = (Ok links, s1) /\
     Forall2 (fun c link => exists a,
                find_element (has_tag_name "a") (descendants c) = Ok a /\
                link = get_attribute a "href") containers links) /\
  (Exists (fun c => find_element (has_tag_name "a") (descendants c)
                    = Raise NoSuchElementException) containers ->
   gallery_links_visit web URL s = (Raise NoSuchElementException, s1)).
Proof.
  intros Hweb containers s1. unfold gallery_links_visit.
  rewrite (bind_run _ _ _ _ _ (driver_get_run web _ s _ Hweb)). fold s1.
  unfold bind, driver_find_elements. simpl. fold containers.
  destruct (gallery_links_loop_run containers [] s1) as [Hok Hraise]. split; [|done].
  intros Hall. destruct (Hok Hall) as (links & Hrun & Hlinks). by exists links.
Qed.

Lemma gallery_links_visit_one_link_per_container_witness :
  exists links,
    gallery_links_visit Sample.web (PStr gallery_url) Sample.start
      = (Ok links,
         State [PStr gallery_url]
           (Sample.index_page "https://h/map/zoning" (Some (gallery_url +:+ "?page=1"))) [] [] []) /\
    links = [PStr "https://h/map/zoning"].
Proof.
  destruct (gallery_links_visit_one_link_per_container Sample.web (PStr gallery_url) Sample.start
              (Sample.index_page "https://h/map/zoning" (Some (gallery_url +:+ "?page=1")))
              eq_refl) as [Hok _].
  destruct Hok as (links & Hrun & Hlinks).
  - vm_compute. repeat constructor. by eexists.
  - exists links. split; [exact Hrun|].
    vm_compute in Hrun. by injection Hrun as <-.
Defined.

(** ** The crawl for any number of pages *)

Lemma to_int_nonnil (z : Z) :
  Z.to_int z <> Decimal.Pos Decimal.Nil /\ Z.to_int z <> Decimal.Neg Decimal.Nil.
Proof.
  destruct z as [|p|p]; simpl; split; try done; intros [= H];
    by apply DecimalPos.Unsigned.to_uint_nonnil in H.
Qed.

Lemma of_int_inj (m n : Z) : PyString.of_int m = PyString.of_int n -> m = n.
Proof.
  unfold PyString.of_int. intros H.
  destruct (to_int_nonnil m) as [Hm1 Hm2]. destruct (to_int_nonnil n) as [Hn1 Hn2].
  pose proof (NilZero.isi (Z.to_int m) Hm1 Hm2) as Hm.
  pose proof (NilZero.isi (Z.to_int n) Hn1 Hn2) as Hn.
  assert (Z.to_int m = Z.to_int n) as E by congruence.
  transitivity (Z.of_int (Z.to_int m)); [symmetry; apply DecimalZ.of_to|].
  rewrite E. apply DecimalZ.of_to.
Qed.

Lemma page_url_inj (m n : Z) : page_url m = page_url n -> m = n.
Proof.
  unfold page_url. intros H. apply of_int_inj.
  by do 2 apply (inj (String.app _)) in H.
Qed.

Lemma page_url_not_gallery (n : Z) : page_url n <> gallery_url.
Proof.
  unfold page_url. intros H.
  assert (gallery_url +:+ "?page=" +:+ PyString.of_int n = gallery_url +:+ "") as E
    by (by rewrite append_empty_r).
  apply (inj (String.app _)) in E. done.
Qed.

Lemma NoDup_map_inj {A B} (f : A -> B) (l : list A) :
  (forall x y, f x = f y -> x = y) -> NoDup l -> NoDup (map f l).
Proof.
  intros Hinj. induction 1 as [|x l Hx Hl IH]; simpl; constructor; [|done].
  intros Hin. apply list_elem_of_In, in_map_iff in Hin as (y & Hy & Hin).
  apply Hinj in Hy as ->. by apply Hx, list_elem_of_In.
Qed.

(** X3.  For any last-page number the script reads, a crawl that returns
    has called [gallery_links_visit] on the gallery page and on its pages
    [1] to [pages], in this order; these are [pages + 1] different URLs, so
    no page is visited twice; for a number below [1] the gallery page is
    the only one visited. *)
Theorem crawl_visits_every_page_once
    (web : pyval -> result page) (s s1 s2 : state) (pages : Z) (links : list pyval) :
  count_pages web s = (Ok pages, s1) ->
  crawl web s = (Ok links, s2) ->
  let visited := PStr gallery_url :: map (fun page => PStr (page_url page)) (page_range pages) in
  fetched s2 = fetched s1 ++ visited /\
  NoDup visited /\
  length visited = S (Z.to_nat pages) /\
  (forall i, (1 <= i <= pages)%Z -> PStr (page_url i) ∈ visited) /\
  ((pages < 1)%Z -> visited = [PStr gallery_url]).
Proof.
  intros Hcount Hcrawl visited.
  unfold crawl, bind in Hcrawl. rewrite Hcount in Hcrawl.
  apply collect_links_fetched in Hcrawl. split; [done|]. split; [|split; [|split]].
  - unfold visited. constructor.
    + intros Hin. apply list_elem_of_In, in_map_iff in Hin as (n & Hn & _).
      apply (f_equal py_str) in Hn. change (page_url n = gallery_url) in Hn.
      by apply page_url_not_gallery in Hn.
    + apply NoDup_map_inj.
      { intros x y H. apply (f_equal py_str) in H. by apply page_url_inj. }
      unfold page_range. apply NoDup_map_inj; [intros x y H; lia | apply NoDup_seq].
  - unfold visited, page_range. simpl. by rewrite !length_map, length_seq.
  - intros i Hi. unfold visited. right.
    apply list_elem_of_In, (in_map (fun page => PStr (page_url page))).
    unfold page_range. apply in_map_iff. exists (Z.to_nat i - 1)%nat. split; [lia|].
    apply in_seq. lia.
  - intros Hlt. unfold visited, page_range. by replace (Z.to_nat pages) with 0%nat by lia.
Qed.

Lemma crawl_visits_every_page_once_witness :
  let s1 := snd (count_pages Sample.web Sample.start) in
  let s2 := snd (crawl Sample.web Sample.start) in
  let visited := PStr gallery_url :: map (fun page => PStr (page_url page)) (page_range 1) in
  fetched s2 = fetched s1 ++ visited /\
  NoDup visited /\
  length visited = S (Z.to_nat 1) /\
  (forall i, (1 <= i <= 1)%Z -> PStr (page_url i) ∈ visited) /\
  ((1 < 1)%Z -> visited = [PStr gallery_url]).
Proof.
  apply (crawl_visits_every_page_once Sample.web Sample.start _ _ 1
           [PStr "https://h/map/zoning"; PStr "https://h/map/aerial"]).
  - vm_compute. reflexivity.
  - vm_compute. reflexivity.
Defined.

Lemma collect_pages_concat (web : pyval -> result page) pages acc s links s' :
  collect_pages web pages acc s = (Ok links, s') ->
  exists per_page,
    links = acc ++ concat per_page /\
    Forall2 (fun page found => exists t1 t2,
               gallery_links_visit web (PStr (page_url page)) t1 = (Ok found, t2))
            pages per_page.
Proof.
  revert acc s. induction pages as [|page pages IH]; intros acc s; simpl.
  - intros [= <- _]. exists []. split; [by rewrite app_nil_r | constructor].
  - intros H. apply bind_Ok in H as ([] & s1 & _ & H).
    apply bind_Ok in H as (found & s2 & Hv & H).
    apply IH in H as (per_page & -> & Hall).
    exists (found :: per_page). split; [by rewrite <- app_assoc|].
    constructor; [eauto | done].
Qed.

(** X4.  The links a crawl returns are those of the gallery page followed
    by those of the pages [1], [2], ... in turn, each list as
    [gallery_links_visit] gave it: nothing is dropped, reordered or
    deduplicated across pages. *)
Theorem crawl_concatenates_links_in_page_order
    (web : pyval -> result page) (s s1 s2 : state) (pages : Z) (links : list pyval) :
  count_pages web s = (Ok pages, s1) ->
  crawl web s = (Ok links, s2) ->
  exists first per_page,
    links = first ++ concat per_page /\
    (exists t, gallery_links_visit web (PStr gallery_url) s1 = (Ok first, t)) /\
    Forall2 (fun page found => exists t1 t2,
               gallery_links_visit web (PStr (page_url page)) t1 = (Ok found, t2))
            (page_range pages) per_page /\
    length links = length first + sum_list (map length per_page).
Proof.
  intros Hcount Hcrawl. unfold crawl, bind in Hcrawl. rewrite Hcount in Hcrawl.
  unfold collect_links in Hcrawl. apply bind_Ok in Hcrawl as (first & t & Hfirst & H).
  apply collect_pages_concat in H as (per_page & -> & Hall).
  exists first, per_page. split; [done|]. split; [by exists t|]. split; [done|].
  simpl. rewrite length_app. f_equal.
  clear. induction per_page as [|l ls IH]; simpl; [done|]. by rewrite length_app, IH.
Qed.

Lemma crawl_concatenates_links_in_page_order_witness :
  exists first per_page,
    [PStr "https://h/map/zoning"; PStr "https://h/map/aerial"] = first ++ concat per_page /\
    (exists t, gallery_links_visit Sample.web (PStr gallery_url)
                 (snd (count_pages Sample.web Sample.start)) = (Ok first, t)) /\
    Forall2 (fun page found => exists t1 t2,
               gallery_links_visit Sample.web (PStr (page_url page)) t1 = (Ok found, t2))
            (page_range 1) per_page /\
    length [PStr "https://h/map/zoning"; PStr "https://h/map/aerial"]
      = length first + sum_list (map length per_page).
Proof.
  apply (crawl_concatenates_links_in_page_order Sample.web Sample.start
           (snd (count_pages Sample.web Sample.start))
           (snd (crawl Sample.web Sample.start)) 1).
  - vm_compute. reflexivity.
  - vm_compute. reflexivity.
Defined.

(** X5.  The ways the page count fails besides a missing control: a
    target of the last-page control without ["="], which includes a link
    without [href] since [str(None)] is ["None"], makes [totalpages] raise
    [IndexError]; a parameter that [int] does not accept makes the
    conversion raise [ValueError]; either ends the script. *)
Theorem page_count_fails_on_malformed_target
    (web : pyval -> result page) (s : state) (p : page) (pager a : element) :
  web (PStr gallery_url) = Ok p ->
  find_element (has_class_name "pager-last.last") (document p) = Ok pager ->
  find_element (has_tag_name "a") (descendants pager) = Ok a ->
  let s1 := State (fetched s ++ [PStr gallery_url]) p (printed s) (gallerylinks s) (csvfile s) in
  (PyString.contains "=" (py_str (get_attribute a "href")) = false ->
     totalpages web (PStr gallery_url) s = (Raise IndexError, s1) /\
     main web s = (Raise IndexError, s1)) /\
  (get_attribute a "href" = PNone -> totalpages web (PStr gallery_url) s = (Raise IndexError, s1)) /\
  (forall max_pg,
     PyString.split (py_str (get_attribute a "href")) "=" !! 1 = Some max_pg ->
     PyString.to_int max_pg = None ->
     count_pages web s = (Raise ValueError, s1) /\ main web s = (Raise ValueError, s1)).
Proof.
  intros Hweb Hpager Ha s1.
  pose proof (totalpages_run web _ s _ Hweb) as Hrun. fold s1 in Hrun.
  rewrite Hpager in Hrun. simpl in Hrun. rewrite Ha in Hrun. simpl in Hrun.
  assert (PyString.contains "=" (py_str (get_attribute a "href")) = false ->
          totalpages web (PStr gallery_url) s = (Raise IndexError, s1)) as Hindex.
  { intros Hno. by rewrite (split_absent _ _ Hno) in Hrun. }
  split; [|split].
  - intros Hno. split; [by apply Hindex|].
    unfold main, crawl, count_pages, bind. by rewrite (Hindex Hno).
  - intros Hnone. apply Hindex. by rewrite Hnone.
  - intros max_pg Hsplit Hint. unfold py_index in Hrun. rewrite Hsplit in Hrun.
    assert (count_pages web s = (Raise ValueError, s1)) as Hcount.
    { unfold count_pages, bind. by rewrite Hrun, Hint. }
    split; [done|]. unfold main, crawl, bind. by rewrite Hcount.
Qed.

Lemma page_count_fails_on_malformed_target_witness :
  let web (u : pyval) := Ok (Sample.index_page "https://h/map/zoning" (Some "https://h/gallery?page=last")) in
  let p := Sample.index_page "https://h/map/zoning" (Some "https://h/gallery?page=last") in
  count_pages web Sample.start = (Raise ValueError, State [PStr gallery_url] p [] [] []) /\
  main web Sample.start = (Raise ValueError, State [PStr gallery_url] p [] [] []).
Proof.
  intros web p.
  destruct (page_count_fails_on_malformed_target web Sample.start p
              (Elem "li" ["pager-last"; "last"] [] ""
                 [Sample.a_link "https://h/gallery?page=last" "last"])
              (Sample.a_link "https://h/gallery?page=last" "last")
              eq_refl eq_refl eq_refl) as (_ & _ & Hvalue).
  apply (Hvalue "last"); reflexivity.
Defined.

(** ** What the Entry Scraper stores *)

Section Stored.
Variable web : pyval -> result page.

Lemma load_map_page_in_place webpage s p :
  web webpage = Ok p ->
  exists out,
    load_map_page web webpage s =
      (Ok tt, State (fetched s ++ [webpage]) p out (gallerylinks s) (csvfile s)).
Proof.
  intros Hweb. unfold load_map_page.
  rewrite (bind_run _ _ _ _ _ (driver_get_run web _ s _ Hweb)).
  unfold try_except, wait_until_present, print. simpl.
  destruct (find_element _ (document p)); simpl; eauto.
Qed.

Lemma scrape_link_run sn f by_ s e :
  PyDict.get sn (gallerylinks s) = Some e ->
  scrape_link sn f by_ s =
    (Ok tt, State (fetched s) (current s) (printed s)
              (PyDict.set sn (<[f := href_or_error (find_element by_ (document (current s)))]> e)
                          (gallerylinks s))
              (csvfile s)).
Proof.
  intros He. unfold scrape_link, try_except, bind, driver_find_element.
  destruct (find_element by_ _) as [a|ex] eqn:E; simpl.
  - by rewrite (set_field_run _ _ _ _ _ He).
  - apply find_element_Raise in E as ->. simpl. by rewrite (set_field_run _ _ _ _ _ He).
Qed.

Lemma scrape_metadata_run sn s e :
  PyDict.get sn (gallerylinks s) = Some e ->
  scrape_metadata sn s =
    (Ok tt, State (fetched s) (current s) (printed s)
              (PyDict.set sn
                 (<["Metadata_Link" :=
                      href_or_error
                        (pane ← find_element (has_class_name "pane-node-field-map-meta-data")
                                  (document (current s));
                         find_element (has_tag_name "a") (descendants pane))]> e)
                 (gallerylinks s))
              (csvfile s)).
Proof.
  intros He. unfold scrape_metadata, try_except, bind, driver_find_element,
    element_find_element, lift.
  destruct (find_element _ (document _)) as [pane|ex] eqn:E; simpl.
  - destruct (find_element _ (descendants pane)) as [a|ex] eqn:Ea; simpl.
    + by rewrite (set_field_run _ _ _ _ _ He).
    + apply find_element_Raise in Ea as ->. simpl. by rewrite (set_field_run _ _ _ _ _ He).
  - apply find_element_Raise in E as ->. simpl. by rewrite (set_field_run _ _ _ _ _ He).
Qed.

(** The blocks before the iframe, on a page that loads: the entry is made
    anew and holds the page's URL and its five links or absent markers. *)
Lemma scrape_entry_links sn webpage p s :
  web webpage = Ok p ->
  exists out,
    scrape_entry web sn webpage s =
      (scrape_iframe sn ;; scrape_pdf sn)
        (State (fetched s ++ [webpage]) p out
               (PyDict.set sn (links_entry p webpage) (gallerylinks s)) (csvfile s)).
Proof.
  intros Hweb. unfold scrape_entry.
  unfold bind at 1, new_entry at 1, bind at 1, read_gallery, write_gallery.
  destruct (load_map_page_in_place webpage
              (State (fetched s) (current s) (printed s)
                     (PyDict.set sn ∅ (gallerylinks s)) (csvfile s)) p Hweb)
    as (out & Hload).
  simpl in Hload. rewrite (bind_run _ _ _ _ _ Hload). exists out.
  erewrite bind_run by (apply set_field_run; simpl; apply get_set_eq).
  simpl. rewrite set_set.
  do 2 (erewrite bind_run by (apply scrape_link_run; simpl; apply get_set_eq);
        simpl; rewrite set_set).
  erewrite bind_run by (apply scrape_metadata_run; simpl; apply get_set_eq).
  simpl. rewrite set_set.
  do 2 (erewrite bind_run by (apply scrape_link_run; simpl; apply get_set_eq);
        simpl; rewrite set_set).
  done.
Qed.

(** The iframe block, case by case. *)
Lemma scrape_iframe_run sn s e :
  PyDict.get sn (gallerylinks s) = Some e ->
  scrape_iframe sn s =
    match field ← find_element (has_class_name "field-name-field-map-iframe")
                    (document (current s));
          find_element (has_tag_name "iframe") (descendants field) with
    | Raise _ =>
        (Ok tt, State (fetched s) (current s) (printed s)
                  (PyDict.set sn (<["Iframe_Webmap_ID" := PStr "Error"]>
                                    (<["Iframe_Webmap_Link" := PStr "Error"]> e))
                              (gallerylinks s))
                  (csvfile s))
    | Ok iframe =>
        match parts ← py_split (get_attribute iframe "src") "&extent"; py_index parts 0 with
        | Raise ex => (Raise ex, s)
        | Ok webmaplink =>
            match py_index (PyString.split webmaplink "webmap=") 1 with
            | Raise ex =>
                (Raise ex, State (fetched s) (current s) (printed s)
                             (PyDict.set sn (<["Iframe_Webmap_Link" := PStr webmaplink]> e)
                                         (gallerylinks s))
                             (csvfile s))
            | Ok webmap_id =>
                (Ok tt, State (fetched s) (current s) (printed s)
                          (PyDict.set sn (<["Iframe_Webmap_ID" := PStr webmap_id]>
                                            (<["Iframe_Webmap_Link" := PStr webmaplink]> e))
                                      (gallerylinks s))
                          (csvfile s))
            end
        end
    end.
Proof.
  intros He. unfold scrape_iframe, try_except, bind at 1, driver_find_element.
  assert (forall v v', (set_field sn "Iframe_Webmap_Link" v ;; set_field sn "Iframe_Webmap_ID" v') s
            = (Ok tt, State (fetched s) (current s) (printed s)
                        (PyDict.set sn (<["Iframe_Webmap_ID" := v']>
                                          (<["Iframe_Webmap_Link" := v]> e)) (gallerylinks s))
                        (csvfile s))) as Hboth.
  { intros v v'. rewrite (bind_run _ _ _ _ _ (set_field_run _ _ _ _ _ He)).
    erewrite set_field_run by (simpl; apply get_set_eq). simpl. by rewrite set_set. }
  destruct (find_element _ (document _)) as [field|ex] eqn:Efield; simpl.
  2:{ apply find_element_Raise in Efield as ->. simpl. apply Hboth. }
  unfold bind at 1, element_find_element, lift.
  destruct (find_element _ (descendants field)) as [iframe|ex] eqn:Eiframe; simpl.
  2:{ apply find_element_Raise in Eiframe as ->. simpl. apply Hboth. }
  unfold bind at 1. destruct (get_attribute iframe "src") as [|src]; simpl; [done|].
  unfold bind at 1.
  destruct (py_index (PyString.split src "&extent") 0) as [webmaplink|ex] eqn:E0; simpl.
  2:{ unfold py_index in E0. by destruct (_ !! 0); simplify_eq. }
  unfold bind at 1. rewrite (set_field_run _ _ _ _ _ He).
  unfold bind at 1.
  destruct (py_index (PyString.split webmaplink "webmap=") 1) as [webmap_id|ex] eqn:E1; simpl.
  2:{ unfold py_index in E1. by destruct (_ !! 1); simplify_eq. }
  erewrite set_field_run by (simpl; apply get_set_eq). simpl. by rewrite set_set.
Qed.

(** The PDF block always returns; its three fields are those of the
    elements when all of them were found, and absent markers otherwise. *)
Lemma scrape_pdf_run sn s e :
  PyDict.get sn (gallerylinks s) = Some e ->
  exists e',
    scrape_pdf sn s =
      (Ok tt, State (fetched s) (current s) (printed s)
                (PyDict.set sn e' (gallerylinks s)) (csvfile s)) /\
    (forall f, f <> "PDF_Link_Text" -> f <> "PDF_Download_Link" -> f <> "PDF_File_Size" ->
       e' !! f = e !! f) /\
    match PDFDiv ← find_element (has_class_name "pane-node-field-map-pdf")
                     (document (current s));
          a ← find_element (has_tag_name "a") (descendants PDFDiv);
          size ← find_element (has_class_name "file-size") (descendants PDFDiv);
          Ok (a, size) with
    | Ok (a, size) =>
        e' !! "PDF_Link_Text" = Some (PStr (text a)) /\
        e' !! "PDF_Download_Link" = Some (get_attribute a "href") /\
        e' !! "PDF_File_Size" = Some (PStr (text size))
    | Raise _ =>
        e' !! "PDF_Link_Text" = Some (PStr "Error") /\
        e' !! "PDF_Download_Link" = Some (PStr "Error") /\
        e' !! "PDF_File_Size" = Some (PStr "Error")
    end.
Proof.
  intros He.
  assert (forall s0 e0,
            PyDict.get sn (gallerylinks s0) = Some e0 ->
            (set_field sn "PDF_Link_Text" (PStr "Error") ;;
             set_field sn "PDF_Download_Link" (PStr "Error") ;;
             set_field sn "PDF_File_Size" (PStr "Error")) s0
            = (Ok tt, State (fetched s0) (current s0) (printed s0)
                        (PyDict.set sn (<["PDF_File_Size" := PStr "Error"]>
                                          (<["PDF_Download_Link" := PStr "Error"]>
                                             (<["PDF_Link_Text" := PStr "Error"]> e0)))
                                    (gallerylinks s0))
                        (csvfile s0))) as Hall.
  { intros s0 e0 He0. rewrite (bind_run _ _ _ _ _ (set_field_run _ _ _ _ _ He0)).
    erewrite bind_run by (apply set_field_run; simpl; apply get_set_eq).
    erewrite set_field_run by (simpl; rewrite set_set; apply get_set_eq).
    simpl. by rewrite !set_set. }
  unfold scrape_pdf, try_except, bind at 1, driver_find_element.
  destruct (find_element _ (document _)) as [PDFDiv|ex] eqn:Ediv; simpl.
  2:{ apply find_element_Raise in Ediv as ->. simpl. rewrite (Hall s e He).
      eexists. split; [done|]. split; [|by simplify_map_eq].
      intros f H1 H2 H3. by rewrite !lookup_insert_ne. }
  unfold bind at 1, element_find_element, lift.
  destruct (find_element (has_tag_name "a") (descendants PDFDiv)) as [a|ex] eqn:Ea; simpl.
  2:{ apply find_element_Raise in Ea as ->. simpl. rewrite (Hall s e He).
      eexists. split; [done|]. split; [|by simplify_map_eq].
      intros f H1 H2 H3. by rewrite !lookup_insert_ne. }
  unfold bind at 1. rewrite (set_field_run _ _ _ _ _ He).
  unfold bind at 1. simpl.
  unfold bind at 1. erewrite set_field_run by (simpl; apply get_set_eq). simpl.
  rewrite set_set. unfold bind at 1.
  destruct (find_element (has_class_name "file-size") (descendants PDFDiv))
    as [size|ex] eqn:Esize; simpl.
  - erewrite set_field_run by (simpl; apply get_set_eq). simpl. rewrite set_set.
    eexists. split; [done|]. split; [|by simplify_map_eq].
    intros f H1 H2 H3. by rewrite !lookup_insert_ne.
  - apply find_element_Raise in Esize as ->. simpl.
    erewrite Hall by (simpl; apply get_set_eq). simpl. rewrite set_set.
    eexists. split; [done|]. split; [|by simplify_map_eq].
    intros f H1 H2 H3. by rewrite !lookup_insert_ne.
Qed.

Lemma scrape_iframe_Ok sn s s' e :
  PyDict.get sn (gallerylinks s) = Some e ->
  scrape_iframe sn s = (Ok tt, s') ->
  exists e',
    s' = State (fetched s) (current s) (printed s) (PyDict.set sn e' (gallerylinks s)) (csvfile s) /\
    (forall f, f <> "Iframe_Webmap_Link" -> f <> "Iframe_Webmap_ID" -> e' !! f = e !! f) /\
    iframe_fields (current s) e'.
Proof.
  intros He H. rewrite (scrape_iframe_run sn s e He) in H. unfold iframe_fields.
  destruct (_ ≫= _) as [iframe|ex]; simpl in *.
  - destruct (get_attribute iframe "src") as [|src]; simpl in *; [done|].
    destruct (py_index (PyString.split src "&extent") 0) as [webmaplink|] eqn:E0;
      simpl in *; [|done].
    destruct (py_index (PyString.split webmaplink "webmap=") 1) as [webmap_id|] eqn:E1;
      simpl in *; [|done].
    injection H as <-. apply py_index_Ok in E0, E1.
    eexists. split; [done|]. split; [intros f H1 H2; by rewrite !lookup_insert_ne|].
    exists src, webmaplink, webmap_id. by simplify_map_eq.
  - injection H as <-. eexists. split; [done|].
    split; [intros f H1 H2; by rewrite !lookup_insert_ne | by simplify_map_eq].
Qed.

(** One page of [galleryentries] that is scraped to the end: nothing but
    the page is loaded, and its entry holds what the blocks found. *)
Lemma gallery_entry_record url sn p s s' :
  gallery_entry web (PStr url) s = (Ok tt, s') ->
  web (PStr url) = Ok p ->
  PyString.split url "/map/" !! 1 = Some sn ->
  exists e,
    gallerylinks s' = PyDict.set sn e (gallerylinks s) /\
    fetched s' = fetched s ++ [PStr url] /\ current s' = p /\
    (forall f, f <> "Iframe_Webmap_Link" -> f <> "Iframe_Webmap_ID" ->
       f <> "PDF_Link_Text" -> f <> "PDF_Download_Link" -> f <> "PDF_File_Size" ->
       e !! f = links_entry p (PStr url) !! f) /\
    iframe_fields p e /\ pdf_fields p e.
Proof.
  intros H Hweb Hsn. rewrite gallery_entry_run in H.
  apply bind_Ok in H as (sn' & s0 & Hsn' & H).
  unfold lift in Hsn'. injection Hsn' as Hsn' <-. apply py_index_Ok in Hsn'.
  assert (sn' = sn) as -> by congruence.
  match type of H with scrape_entry web sn (PStr url) ?s0 = _ =>
    destruct (scrape_entry_links sn (PStr url) p s0 Hweb) as (out & Hlinks)
  end.
  rewrite Hlinks in H. clear Hlinks. simpl in H.
  apply bind_Ok in H as ([] & s6 & Hframe & Hpdf).
  apply (scrape_iframe_Ok sn _ _ (links_entry p (PStr url))) in Hframe
    as (e6 & -> & Hframe6 & Hiframe); [|simpl; apply get_set_eq].
  simpl in Hpdf, Hiframe. rewrite set_set in Hpdf.
  match type of Hpdf with scrape_pdf sn ?s6 = _ =>
    destruct (scrape_pdf_run sn s6 e6) as (e7 & Hrun & Hframe7 & Hfields);
      [simpl; apply get_set_eq|]
  end.
  rewrite Hrun in Hpdf. injection Hpdf as <-. simpl in *. rewrite set_set.
  exists e7. split; [done|]. split; [done|]. split; [done|]. split; [|split; [|done]].
  - intros f H1 H2 H3 H4 H5. by rewrite Hframe7, Hframe6.
  - unfold iframe_fields in *. destruct (_ ≫= _) as [iframe|ex].
    + destruct Hiframe as (src & wl & id & ? & ? & ? & HL & HID).
      exists src, wl, id. by rewrite !Hframe7.
    + by rewrite !Hframe7.
Qed.

End Stored.

(** X6.  Entry Scraper, one page scraped to the end: the only page loaded
    is the entry's own, so no link is checked here; the entries of other
    keys stay as they were; and the entry of the page holds the page's URL
    and, for each of the five links, the [href] of the element found
    ([None] if it has no [href]) or the absent marker ["Error"] when there
    is no such element. *)
Theorem scraper_stores_links_or_absent_markers
    (web : pyval -> result page) (url sn : string) (p : page) (s s' : state) :
  gallery_entry web (PStr url) s = (Ok tt, s') ->
  web (PStr url) = Ok p ->
  PyString.split url "/map/" !! 1 = Some sn ->
  fetched s' = fetched s ++ [PStr url] /\
  (forall k, k <> sn -> PyDict.get k (gallerylinks s') = PyDict.get k (gallerylinks s)) /\
  field_of sn "Gallery_Link" (gallerylinks s') = Some (PStr url) /\
  field_of sn "REST_Link" (gallerylinks s')
    = Some (href_or_error
              (find_element (has_partial_link_text "Services Directory") (document p))) /\
  field_of sn "AGOL_Link" (gallerylinks s')
    = Some (href_or_error (find_element (has_partial_link_text "ArcGIS Online") (document p))) /\
  field_of sn "Metadata_Link" (gallerylinks s')
    = Some (href_or_error
              (pane ← find_element (has_class_name "pane-node-field-map-meta-data") (document p);
               find_element (has_tag_name "a") (descendants pane))) /\
  field_of sn "WFS_Link" (gallerylinks s')
    = Some (href_or_error (find_element (has_link_text "WFS") (document p))) /\
  field_of sn "WMS_Link" (gallerylinks s')
    = Some (href_or_error (find_element (has_link_text "WMS") (document p))).
Proof.
  intros H Hweb Hsn.
  destruct (gallery_entry_record web url sn p s s' H Hweb Hsn)
    as (e & Hg & Hf & _ & Hlinks & _ & _).
  split; [done|]. split; [intros k Hk; by rewrite Hg, get_set_ne|].
  unfold field_of. rewrite Hg, get_set_eq. simpl.
  rewrite !Hlinks by done. unfold links_entry. by simplify_map_eq.
Qed.

Lemma scraper_stores_links_or_absent_markers_witness :
  let s' := snd (gallery_entry Sample.web (PStr "https://h/map/aerial") Sample.start) in
  fetched s' = [PStr "https://h/map/aerial"] /\
  field_of "aerial" "REST_Link" (gallerylinks s') = Some (PStr "https://gis/rest/aerial") /\
  field_of "aerial" "WFS_Link" (gallerylinks s') = Some (PStr "Error").
Proof.
  intros s'.
  destruct (scraper_stores_links_or_absent_markers Sample.web "https://h/map/aerial" "aerial"
              Sample.aerial Sample.start s')
    as (Hf & _ & _ & Hrest & _ & _ & Hwfs & _); [by vm_compute | done | done |].
  split; [exact Hf|]. split; [exact Hrest | exact Hwfs].
Defined.

(** X7.  Entry Scraper, the iframe fields of a page scraped to the end:
    without the iframe pane or without an iframe in it, both fields are
    the absent marker; with one, the link is the source up to ["&extent"]
    and the identifier what follows ["webmap="] in that link. *)
Theorem scraper_iframe_link_and_id
    (web : pyval -> result page) (url sn : string) (p : page) (s s' : state) :
  gallery_entry web (PStr url) s = (Ok tt, s') ->
  web (PStr url) = Ok p ->
  PyString.split url "/map/" !! 1 = Some sn ->
  exists e, PyDict.get sn (gallerylinks s') = Some e /\ iframe_fields p e.
Proof.
  intros H Hweb Hsn.
  destruct (gallery_entry_record web url sn p s s' H Hweb Hsn)
    as (e & Hg & _ & _ & _ & Hiframe & _).
  exists e. split; [by rewrite Hg, get_set_eq | done].
Qed.

Lemma scraper_iframe_link_and_id_witness :
  let s' := snd (gallery_entry Sample.web (PStr "https://h/map/zoning") Sample.start) in
  field_of "zoning" "Iframe_Webmap_Link" (gallerylinks s')
    = Some (PStr "https://arcgis/view?webmap=abc") /\
  field_of "zoning" "Iframe_Webmap_ID" (gallerylinks s') = Some (PStr "abc").
Proof.
  intros s'.
  destruct (scraper_iframe_link_and_id Sample.web "https://h/map/zoning" "zoning"
              Sample.zoning Sample.start s') as (e & He & Hfields);
    [by vm_compute | done | done |].
  unfold field_of. rewrite He. clear He. clearbody s'. simpl.
  destruct Hfields as (src & wl & id & Hsrc & Hwl & Hid & -> & ->).
  vm_compute in Hsrc. injection Hsrc as <-.
  vm_compute in Hwl. injection Hwl as <-.
  vm_compute in Hid. injection Hid as <-.
  split; reflexivity.
Defined.

(** X8.  Entry Scraper, the PDF fields of a page scraped to the end are
    all or nothing: the text and target of the link and the file size when
    the pane, its link and its size are all found, and three absent
    markers as soon as one of them is missing, whatever was stored before
    the search failed. *)
Theorem scraper_pdf_fields_all_or_nothing
    (web : pyval -> result page) (url sn : string) (p : page) (s s' : state) :
  gallery_entry web (PStr url) s = (Ok tt, s') ->
  web (PStr url) = Ok p ->
  PyString.split url "/map/" !! 1 = Some sn ->
  exists e, PyDict.get sn (gallerylinks s') = Some e /\ pdf_fields p e.
Proof.
  intros H Hweb Hsn.
  destruct (gallery_entry_record web url sn p s s' H Hweb Hsn)
    as (e & Hg & _ & _ & _ & _ & Hpdf).
  exists e. split; [by rewrite Hg, get_set_eq | done].
Qed.

Lemma scraper_pdf_fields_all_or_nothing_witness :
  let web (u : pyval) :=
    Ok (Page "" (Sample.html [Sample.div ["pane-node-field-map-pdf"]
                                [Sample.a_link "https://h/m.pdf" "Map PDF"]])) in
  let s' := snd (gallery_entry web (PStr "https://h/map/m") Sample.start) in
  field_of "m" "PDF_Link_Text" (gallerylinks s') = Some (PStr "Error") /\
  field_of "m" "PDF_Download_Link" (gallerylinks s') = Some (PStr "Error") /\
  field_of "m" "PDF_File_Size" (gallerylinks s') = Some (PStr "Error").
Proof.
  intros web s'.
  destruct (scraper_pdf_fields_all_or_nothing web "https://h/map/m" "m"
              (Page "" (Sample.html [Sample.div ["pane-node-field-map-pdf"]
                                       [Sample.a_link "https://h/m.pdf" "Map PDF"]]))
              Sample.start s') as (e & He & Hfields);
    [by vm_compute | done | done |].
  unfold field_of. rewrite He. clear He. clearbody s'. simpl. exact Hfields.
Defined.

(** ** The keys of the dictionary *)

Lemma keys_set_new {V} (k : string) (v : V) (d : dict V) :
  PyDict.get k d = None -> keys (PyDict.set k v d) = keys d ++ [k].
Proof.
  induction d as [|[k0 v0] d IH]; simpl; [done|].
  destruct (String.eqb_spec k0 k) as [->|]; simpl; [done|].
  intros H. unfold keys in *. f_equal. by apply IH.
Qed.

Lemma elem_of_keys_set {V} (k k' : string) (v : V) (d : dict V) :
  k' ∈ keys (PyDict.set k v d) <-> k' = k \/ k' ∈ keys d.
Proof.
  rewrite !elem_of_keys, get_set. case_decide as E.
  - subst. split; [by left | eauto].
  - split; [by right | intros [->|?]; done].
Qed.

Lemma NoDup_keys_set {V} (k : string) (v : V) (d : dict V) :
  NoDup (keys d) -> NoDup (keys (PyDict.set k v d)).
Proof.
  intros Hd. destruct (PyDict.get k d) as [v'|] eqn:E.
  - by rewrite (keys_set _ _ _ _ E).
  - rewrite (keys_set_new _ _ _ E). apply NoDup_app. split; [done|].
    split; [|apply NoDup_singleton].
    intros x Hx ->%list_elem_of_singleton. apply elem_of_keys in Hx as [? ?]. congruence.
Qed.

(** A page scraped to the end was loaded, and its entry replaces the one
    its key had. *)
Lemma gallery_entry_Ok_set (web : pyval -> result page) webpage s s' :
  gallery_entry web webpage s = (Ok tt, s') ->
  exists url sn e,
    webpage = PStr url /\ PyString.split url "/map/" !! 1 = Some sn /\
    gallerylinks s' = PyDict.set sn e (gallerylinks s).
Proof.
  intros H. destruct webpage as [|url]; [done|].
  pose proof H as H0. rewrite gallery_entry_run in H0.
  apply bind_Ok in H0 as (sn & s0 & Hsn & H0).
  unfold lift in Hsn. injection Hsn as Hsn <-. apply py_index_Ok in Hsn.
  unfold scrape_entry in H0. apply bind_Ok in H0 as ([] & s1 & _ & H0).
  apply bind_Ok in H0 as ([] & s2 & Hload & _).
  apply load_map_page_Ok in Hload as (p & Hweb & _).
  destruct (gallery_entry_record web url sn p s s' H Hweb Hsn) as (e & Hg & _).
  by exists url, sn, e.
Qed.

(** X9.  [galleryentries] starts from an empty dictionary and, when it
    returns, has one entry per short name: the keys are without
    repetition, and a key is there exactly when it is what follows
    ["/map/"] in one of the URLs; two URLs with the same short name share
    one entry, and what the dictionary held before is gone. *)
Theorem galleryentries_one_entry_per_short_name
    (web : pyval -> result page) (links : list pyval) (s s' : state) :
  galleryentries web links s = (Ok tt, s') ->
  NoDup (keys (gallerylinks s')) /\
  (forall k, k ∈ keys (gallerylinks s') <->
     exists url, PStr url ∈ links /\ PyString.split url "/map/" !! 1 = Some k) /\
  length (keys (gallerylinks s')) <= length links.
Proof.
  unfold galleryentries. intros H. apply bind_Ok in H as ([] & s0 & Hw & H).
  injection Hw as <-.
  assert (forall l t t',
            for_each l (gallery_entry web) t = (Ok tt, t') ->
            NoDup (keys (gallerylinks t)) ->
            NoDup (keys (gallerylinks t')) /\
            (forall k, k ∈ keys (gallerylinks t') <->
               k ∈ keys (gallerylinks t) \/
               exists url, PStr url ∈ l /\ PyString.split url "/map/" !! 1 = Some k) /\
            length (keys (gallerylinks t')) <= length (keys (gallerylinks t)) + length l)
    as Hloop.
  { induction l as [|webpage l IH]; intros t t' Hrun Hnd.
    - injection Hrun as <-. split; [done|]. split; [|simpl; lia].
      intros k. split; [by left|]. intros [?|(url & Hin & _)]; [done|].
      by apply elem_of_nil in Hin.
    - rewrite for_each_cons in Hrun. apply bind_Ok in Hrun as ([] & t1 & Hbody & Hrun).
      apply gallery_entry_Ok_set in Hbody as (url & sn & e & -> & Hsn & Hg).
      destruct (IH t1 t' Hrun) as (Hnd' & Hkeys & Hlen).
      { rewrite Hg. by apply NoDup_keys_set. }
      split; [done|]. split.
      + intros k. rewrite Hkeys, Hg, elem_of_keys_set. split.
        * intros [[->|?]|(u & Hu & Hk)]; [right; exists url; split; [left|done] | by left |].
          right. exists u. split; [by right | done].
        * intros [?|(u & Hu & Hk)]; [left; by right|].
          apply elem_of_cons in Hu as [[= ->]|Hu]; [left; left; congruence|].
          right. by exists u.
      + assert (length (keys (gallerylinks t1)) <= S (length (keys (gallerylinks t)))).
        { rewrite Hg. destruct (PyDict.get sn (gallerylinks t)) as [v|] eqn:E.
          - rewrite (keys_set _ _ _ _ E). lia.
          - rewrite (keys_set_new _ _ _ E), length_app. simpl. lia. }
        simpl. lia. }
  destruct (Hloop links _ s' H) as (Hnd & Hkeys & Hlen); [simpl; constructor|].
  split; [done|]. split; [|by simpl in Hlen].
  intros k. rewrite Hkeys. simpl. split; [intros [Hk|?]; [by apply elem_of_nil in Hk | done]|].
  by right.
Qed.

Lemma galleryentries_one_entry_per_short_name_witness :
  let links := [PStr "https://h/map/aerial"; PStr "https://x/map/aerial"] in
  let web (u : pyval) := Ok Sample.aerial in
  let s' := snd (galleryentries web links Sample.scraped) in
  NoDup (keys (gallerylinks s')) /\
  (forall k, k ∈ keys (gallerylinks s') <->
     exists url, PStr url ∈ links /\ PyString.split url "/map/" !! 1 = Some k) /\
  length (keys (gallerylinks s')) <= length links.
Proof.
  intros links web s'.
  apply (galleryentries_one_entry_per_short_name web links Sample.scraped).
  vm_compute. reflexivity.
Defined.

Example same_short_name_shares_one_entry :
  let links := [PStr "https://h/map/aerial"; PStr "https://x/map/aerial"] in
  let s' := snd (galleryentries (fun _ => Ok Sample.aerial) links Sample.scraped) in
  keys (gallerylinks s') = ["aerial"] /\
  field_of "aerial" "Gallery_Link" (gallerylinks s') = Some (PStr "https://x/map/aerial").
Proof. vm_compute. done. Qed.

(** ** What the Link Validator fetches and what it leaves alone *)

#[global] Instance same_field_preorder k f : PreOrder (same_field k f).
Proof. split; [done | intros x y z; unfold same_field; congruence]. Qed.

#[global] Instance links_kept_preorder : PreOrder links_kept.
Proof.
  split; [intros g k id_key v _ H; by left|].
  intros g1 g2 g3 H12 H23 k id_key v Hid H.
  destruct (H12 _ _ _ Hid H) as [H2|(-> & -> & H2)].
  - by apply H23.
  - destruct (H23 _ _ _ Hid H2) as [H3|(_ & [=] & _)]. right. by rewrite H3.
Qed.

Lemma validator_fetch_kept g g' v : links_kept g g' -> validator_fetch g v -> validator_fetch g' v.
Proof.
  assert ("REST_Link" ∈ link_values) as Hrest by (apply (bool_decide_unpack _); by vm_compute).
  assert ("WFS_Link" ∈ link_values) as Hwfs by (apply (bool_decide_unpack _); by vm_compute).
  intros Hkept [(k & id_key & Hid & Hv & Hne)|(k & rest & Hr & -> & Hw)].
  - left. exists k, id_key. split; [done|]. split; [|done].
    by destruct (Hkept _ _ _ Hid Hv) as [?|(_ & ? & _)].
  - right. exists k, rest. split; [by destruct (Hkept _ _ _ Hrest Hr) as [?|([=] & _)]|].
    split; [done|]. destruct Hw as [Hw|Hw].
    + destruct (Hkept _ _ _ Hwfs Hw) as [?|(_ & _ & ?)]; auto.
    + destruct (Hkept _ _ _ Hwfs Hw) as [?|(_ & [=] & _)]; auto.
Qed.

#[global] Instance fetches_links_preorder : PreOrder fetches_links.
Proof.
  split.
  - intros s. split; [reflexivity|]. exists []. by rewrite app_nil_r.
  - intros s1 s2 s3 [Hk12 (d1 & E1 & H1)] [Hk23 (d2 & E2 & H2)].
    split; [by etransitivity|]. exists (d1 ++ d2). split; [by rewrite E2, E1, app_assoc|].
    apply Forall_app. split; [|done].
    eapply Forall_impl; [exact H1|]. intros v. by apply validator_fetch_kept.
Qed.

Section Addresses.
Variable web : pyval -> result page.

(** A step that leaves the log and the dictionary as they are. *)
Lemma fetches_links_same s s' :
  fetched s' = fetched s -> gallerylinks s' = gallerylinks s -> fetches_links s s'.
Proof.
  intros Hf Hg. split; [rewrite Hg; reflexivity|]. exists []. by rewrite app_nil_r.
Qed.

(** Setting a status keeps the links. *)
Lemma links_kept_status g k e id_key status :
  id_key ∈ link_values -> PyDict.get k g = Some e ->
  links_kept g (PyDict.set k (<[id_key +:+ "_Status" := status]> e) g).
Proof.
  intros Hid Hk k' i v Hi H. left.
  rewrite field_of_set_other; [done | done |]. right. by apply status_ne_link.
Qed.

Lemma check_link_addresses k id_key :
  id_key ∈ link_values -> respects fetches_links (check_link web k id_key).
Proof.
  intros Hid s r s' H.
  destruct (PyDict.get k (gallerylinks s)) as [e|] eqn:Hk.
  2:{ unfold check_link in H. rewrite (bind_raise _ _ _ _ _ (get_field_no_entry _ _ _ Hk)) in H.
      injection H as _ <-. by apply fetches_links_same. }
  destruct (e !! id_key) as [v|] eqn:Hv.
  2:{ unfold check_link in H.
      rewrite (bind_raise _ _ _ _ _ (get_field_no_field _ _ _ _ Hk Hv)) in H.
      injection H as _ <-. by apply fetches_links_same. }
  destruct (decide (v = PStr "Error")) as [->|Hne].
  - rewrite (check_link_error web _ _ _ _ Hk Hv) in H. injection H as _ <-.
    split; [by apply links_kept_status|]. exists []. by rewrite app_nil_r.
  - rewrite (check_link_present web _ _ _ _ _ Hk Hv Hne) in H.
    assert (validator_fetch (gallerylinks s) v) as Hfetch.
    { left. exists k, id_key. split; [done|]. split; [|done]. unfold field_of. by rewrite Hk. }
    destruct (web v); injection H as _ <-; simpl.
    + split; [by apply links_kept_status|]. exists [v]. split; [done|].
      constructor; [|done]. eapply validator_fetch_kept; [|exact Hfetch].
      by apply links_kept_status.
    + split; [reflexivity|]. exists [v]. split; [done|]. by constructor.
Qed.

Lemma check_raster_addresses k : respects fetches_links (check_raster web k).
Proof.
  assert ("WFS_Link" ∈ link_values) as Hwfs by (apply (bool_decide_unpack _); by vm_compute).
  intros s r s' H.
  destruct (PyDict.get k (gallerylinks s)) as [e|] eqn:Hk.
  2:{ unfold check_raster in H. rewrite (bind_raise _ _ _ _ _ (get_field_no_entry _ _ _ Hk)) in H.
      injection H as _ <-. by apply fetches_links_same. }
  destruct (e !! "WFS_Link") as [v|] eqn:Hv.
  2:{ unfold check_raster in H.
      rewrite (bind_raise _ _ _ _ _ (get_field_no_field _ _ _ _ Hk Hv)) in H.
      injection H as _ <-. by apply fetches_links_same. }
  destruct (decide (v = PStr "Error")) as [->|Hne].
  2:{ unfold check_raster in H. rewrite (bind_run _ _ _ _ _ (get_field_run _ _ _ _ _ Hk Hv)) in H.
      unfold py_eq in H. rewrite bool_decide_eq_false_2 in H by done.
      injection H as _ <-. by apply fetches_links_same. }
  destruct (e !! "REST_Link") as [rest|] eqn:Hrest.
  - rewrite (check_raster_error web _ _ _ _ Hk Hv Hrest) in H.
    set (url := PStr (py_str rest +:+ "/0")) in *.
    assert (validator_fetch (gallerylinks s) url) as Hfetch.
    { right. exists k, rest. unfold field_of. rewrite Hk. simpl. auto. }
    assert (links_kept (gallerylinks s)
              (PyDict.set k (<["WFS_Link_Status" := PStr "NA-Raster"]>
                               (<["WFS_Link" := PStr "NA-Raster"]> e)) (gallerylinks s)))
      as Hraster.
    { intros k' i v Hi H'. unfold field_of in *. rewrite get_set.
      destruct (decide (k = k')) as [<-|]; [|by left]. rewrite Hk in H'. simpl in *.
      rewrite lookup_insert_ne by exact (status_ne_link _ _ Hi Hwfs).
      destruct (decide (i = "WFS_Link")) as [->|Hi'].
      - right. rewrite lookup_insert_eq. split; [done|]. split; [congruence | done].
      - left. by rewrite lookup_insert_ne. }
    destruct (web url) as [p|ex].
    + destruct (PyString.contains _ _); injection H as _ <-; simpl.
      * split; [done|]. exists [url]. split; [done|]. constructor; [|done].
        by eapply validator_fetch_kept.
      * split; [reflexivity|]. exists [url]. split; [done|]. by constructor.
    + destruct ex; injection H as _ <-; simpl;
        try (split; [reflexivity|]; exists [url]; split; [done|]; by constructor).
      assert (links_kept (gallerylinks s)
                (PyDict.set k (<["WFS_Link_Status" := PStr "Error"]> e) (gallerylinks s)))
        as Hst by exact (links_kept_status _ _ _ "WFS_Link" _ Hwfs Hk).
      split; [done|]. exists [url]. split; [done|]. constructor; [|done].
      by eapply validator_fetch_kept.
  - unfold check_raster in H. rewrite (bind_run _ _ _ _ _ (get_field_run _ _ _ _ _ Hk Hv)) in H.
    unfold py_eq in H. rewrite bool_decide_eq_true_2 in H by done.
    unfold try_except in H.
    rewrite (bind_raise _ _ _ _ _ (get_field_no_field _ _ _ _ Hk Hrest)) in H.
    simpl in H. injection H as _ <-. by apply fetches_links_same.
Qed.

Lemma checklinks_addresses : respects fetches_links (checklinks web).
Proof.
  unfold checklinks. apply respects_bind; [apply _ | apply respects_read_gallery; apply _ |].
  intros g. apply respects_for_each; [apply _|]. intros k _. unfold check_entry.
  apply respects_bind; [apply _ | |].
  { intros s r s' H. injection H as _ <-. by apply fetches_links_same. }
  intros _. apply respects_bind; [apply _ | |].
  - apply respects_for_each; [apply _|]. intros id_key Hid. by apply check_link_addresses.
  - intros _. apply check_raster_addresses.
Qed.

End Addresses.

(** X10.  Whatever comes of a run of [checklinks], it has never called
    [driver.get] on the absent marker: every address it has loaded is, in
    the dictionary as the run leaves it, the value of one of the six link
    fields of some entry, other than ["Error"], or the REST link,
    followed by ["/0"], of an entry whose WFS link is ["Error"] or
    ["NA-Raster"]. *)
Theorem validator_never_fetches_the_absent_marker
    (web : pyval -> result page) (s s' : state) (r : result unit) :
  checklinks web s = (r, s') ->
  exists fetched_now,
    fetched s' = fetched s ++ fetched_now /\
    (PStr "Error" ∉ fetched_now) /\
    Forall (fun v =>
              (exists k id_key,
                 id_key ∈ link_values /\ field_of k id_key (gallerylinks s') = Some v /\
                 v <> PStr "Error") \/
              (exists k rest,
                 field_of k "REST_Link" (gallerylinks s') = Some rest /\
                 v = PStr (py_str rest +:+ "/0") /\
                 (field_of k "WFS_Link" (gallerylinks s') = Some (PStr "Error") \/
                  field_of k "WFS_Link" (gallerylinks s') = Some (PStr "NA-Raster"))))
           fetched_now.
Proof.
  intros H. apply checklinks_addresses in H as [_ (d & Hd & Hall)].
  exists d. split; [done|]. split; [|exact Hall].
  intros Hin. apply (proj1 (Forall_forall _ _) Hall) in Hin
    as [(_ & _ & _ & _ & Hne)|(_ & rest & _ & [= E] & _)]; [done|].
  symmetry in E. by apply probe_url_not_marker in E.
Qed.

Lemma validator_never_fetches_the_absent_marker_witness :
  let s' := snd (checklinks Sample.web Sample.scraped_two) in
  exists fetched_now,
    fetched s' = fetched Sample.scraped_two ++ fetched_now /\
    (PStr "Error" ∉ fetched_now) /\
    Forall (fun v =>
              (exists k id_key,
                 id_key ∈ link_values /\ field_of k id_key (gallerylinks s') = Some v /\
                 v <> PStr "Error") \/
              (exists k rest,
                 field_of k "REST_Link" (gallerylinks s') = Some rest /\
                 v = PStr (py_str rest +:+ "/0") /\
                 (field_of k "WFS_Link" (gallerylinks s') = Some (PStr "Error") \/
                  field_of k "WFS_Link" (gallerylinks s') = Some (PStr "NA-Raster"))))
           fetched_now.
Proof.
  apply (validator_never_fetches_the_absent_marker Sample.web Sample.scraped_two _
           (fst (checklinks Sample.web Sample.scraped_two))).
  by destruct (checklinks Sample.web Sample.scraped_two).
Defined.

(** X11.  A link whose page does not load stops the validator: if
    [driver.get] raises on the value of one of the six link fields of
    some entry, a malformed URL included, [checklinks] raises instead of
    recording an error status; the exception of a malformed URL is caught
    for the raster probe only. *)
Theorem validator_stops_on_a_fetch_that_raises
    (web : pyval -> result page) (s : state) (map_key id_key : string)
    (e : entry) (url : pyval) (ex : exn) :
  PyDict.get map_key (gallerylinks s) = Some e ->
  id_key ∈ link_values ->
  e !! id_key = Some url ->
  url <> PStr "Error" ->
  web url = Raise ex ->
  exists ex' s', checklinks web s = (Raise ex', s').
Proof.
  intros Hk Hid He Hurl Hweb.
  destruct (checklinks web s) as [[[]|ex'] s'] eqn:Hrun; [|by eauto].
  destruct (checklinks_checks web (fetched s) map_key id_key url Hid Hurl s s')
    as [_ (p & l & Hp & _)]; [|done|congruence].
  split; [|by exists []; rewrite app_nil_r]. unfold field_of. by rewrite Hk.
Qed.

Lemma validator_stops_on_a_fetch_that_raises_witness :
  exists ex' s',
    checklinks Sample.web
      (State [] (Sample.plain "") [] [("m", <["AGOL_Link" := PNone]> Sample.aerial_entry)] [])
    = (Raise ex', s').
Proof.
  apply (validator_stops_on_a_fetch_that_raises Sample.web _ "m" "AGOL_Link"
           (<["AGOL_Link" := PNone]> Sample.aerial_entry) PNone InvalidArgumentException).
  - reflexivity.
  - repeat constructor.
  - vm_compute. reflexivity.
  - discriminate.
  - reflexivity.
Defined.

#[global] Instance wfs_kept_or_raster_preorder k : PreOrder (wfs_kept_or_raster k).
Proof.
  split; [by left|]. intros x y z [Hxy|[Hx Hy]] [Hyz|[Hy' Hz]].
  - left. congruence.
  - right. split; congruence.
  - right. split; congruence.
  - congruence.
Qed.

Lemma status_in_status_fields id_key :
  id_key ∈ link_values -> id_key +:+ "_Status" ∈ status_fields.
Proof.
  intros H. unfold status_fields.
  by apply list_elem_of_In, (in_map (fun i => i +:+ "_Status")), list_elem_of_In.
Qed.

Section Untouched.
Variable web : pyval -> result page.

Lemma checklinks_same_field k f :
  f ∉ status_fields -> f <> "WFS_Link" ->
  respects (on_gallery (same_field k f)) (checklinks web).
Proof.
  intros Hf Hwfs.
  assert ("WFS_Link_Status" ∈ status_fields) as Hs by (apply (bool_decide_unpack _); by vm_compute).
  respects_go; step_apart; unfold same_field; try done.
  all: apply field_of_set_other; [done|]; right; try congruence.
  all: intros <-; by apply Hf, status_in_status_fields.
Qed.

Lemma check_raster_wfs k y :
  respects (on_gallery (wfs_kept_or_raster k)) (check_raster web y).
Proof.
  intros s r s' H. unfold on_gallery.
  destruct (PyDict.get y (gallerylinks s)) as [e|] eqn:Hy.
  2:{ unfold check_raster in H. rewrite (bind_raise _ _ _ _ _ (get_field_no_entry _ _ _ Hy)) in H.
      injection H as _ <-. reflexivity. }
  destruct (e !! "WFS_Link") as [v|] eqn:Hv.
  2:{ unfold check_raster in H.
      rewrite (bind_raise _ _ _ _ _ (get_field_no_field _ _ _ _ Hy Hv)) in H.
      injection H as _ <-. reflexivity. }
  destruct (decide (v = PStr "Error")) as [->|Hne].
  2:{ unfold check_raster in H. rewrite (bind_run _ _ _ _ _ (get_field_run _ _ _ _ _ Hy Hv)) in H.
      unfold py_eq in H. rewrite bool_decide_eq_false_2 in H by done.
      injection H as _ <-. reflexivity. }
  destruct (e !! "REST_Link") as [rest|] eqn:Hrest.
  - rewrite (check_raster_error web _ _ _ _ Hy Hv Hrest) in H.
    destruct (web _) as [p|ex].
    + destruct (PyString.contains _ _); injection H as _ <-; simpl; [|reflexivity].
      destruct (decide (y = k)) as [->|Hne].
      * right. unfold field_of. rewrite Hy, get_set_eq. simpl.
        split; [done|]. by rewrite lookup_insert_ne, lookup_insert_eq.
      * left. unfold field_of. by rewrite get_set_ne.
    + destruct ex; injection H as _ <-; simpl; try reflexivity.
      left. apply field_of_set_other; [done|]. by right.
  - unfold check_raster in H. rewrite (bind_run _ _ _ _ _ (get_field_run _ _ _ _ _ Hy Hv)) in H.
    unfold py_eq in H. rewrite bool_decide_eq_true_2 in H by done.
    unfold try_except in H.
    rewrite (bind_raise _ _ _ _ _ (get_field_no_field _ _ _ _ Hy Hrest)) in H.
    simpl in H. injection H as _ <-. reflexivity.
Qed.

Lemma checklinks_wfs k : respects (on_gallery (wfs_kept_or_raster k)) (checklinks web).
Proof.
  unfold checklinks. apply respects_bind; [apply _ | apply respects_read_gallery; apply _ |].
  intros g. apply respects_for_each; [apply _|]. intros y _. unfold check_entry.
  apply respects_bind; [apply _ | |].
  { intros s r s' H. injection H as _ <-. unfold on_gallery. simpl. reflexivity. }
  intros _. apply respects_bind; [apply _ | | intros _; apply check_raster_wfs].
  apply respects_for_each; [apply _|]. intros id_key Hid.
  assert (id_key +:+ "_Status" <> "WFS_Link") as Hne.
  { apply status_ne_link; [apply (bool_decide_unpack _); by vm_compute | done]. }
  respects_go; step_apart; try reflexivity.
  all: left; apply field_of_set_other; [done|]; by right.
Qed.

End Untouched.

(** X12.  Whatever comes of a run of [checklinks], it keeps the keys of
    the dictionary and writes nothing to the file; of an entry it changes
    only the six status fields and the WFS link: every other field holds
    what it held, and the WFS link either holds what it held or has gone
    from ["Error"] to ["NA-Raster"]. *)
Theorem validator_changes_only_statuses_and_wfs
    (web : pyval -> result page) (s s' : state) (r : result unit) :
  checklinks web s = (r, s') ->
  keys (gallerylinks s') = keys (gallerylinks s) /\
  csvfile s' = csvfile s /\
  (forall k f, f ∉ status_fields -> f <> "WFS_Link" ->
     field_of k f (gallerylinks s') = field_of k f (gallerylinks s)) /\
  (forall k,
     field_of k "WFS_Link" (gallerylinks s') = field_of k "WFS_Link" (gallerylinks s) \/
     (field_of k "WFS_Link" (gallerylinks s) = Some (PStr "Error") /\
      field_of k "WFS_Link" (gallerylinks s') = Some (PStr "NA-Raster"))).
Proof.
  intros H. split; [|split; [|split]].
  - assert (respects (on_gallery same_keys) (checklinks web)) as Hresp.
    { unfold same_keys. respects_fields. }
    by apply Hresp in H.
  - by apply checklinks_keeps_csvfile in H.
  - intros k f Hf Hwfs. by apply (checklinks_same_field web k f Hf Hwfs) in H.
  - intros k. by apply (checklinks_wfs web k) in H.
Qed.

Lemma validator_changes_only_statuses_and_wfs_witness :
  let s' := snd (checklinks Sample.web Sample.scraped) in
  keys (gallerylinks s') = keys (gallerylinks Sample.scraped) /\
  csvfile s' = csvfile Sample.scraped /\
  (forall k f, f ∉ status_fields -> f <> "WFS_Link" ->
     field_of k f (gallerylinks s') = field_of k f (gallerylinks Sample.scraped)) /\
  (forall k,
     field_of k "WFS_Link" (gallerylinks s')
       = field_of k "WFS_Link" (gallerylinks Sample.scraped) \/
     (field_of k "WFS_Link" (gallerylinks Sample.scraped) = Some (PStr "Error") /\
      field_of k "WFS_Link" (gallerylinks s') = Some (PStr "NA-Raster"))).
Proof.
  apply (validator_changes_only_statuses_and_wfs Sample.web Sample.scraped _
           (fst (checklinks Sample.web Sample.scraped))).
  by destruct (checklinks Sample.web Sample.scraped).
Defined.

(** ** How often the Link Validator calls the driver *)

Section Calls.
Variable web : pyval -> result page.

(** A run of [check_link] that returns, read backwards. *)
Lemma check_link_Ok k id_key s s' e :
  PyDict.get k (gallerylinks s) = Some e ->
  check_link web k id_key s = (Ok tt, s') ->
  exists v status,
    e !! id_key = Some v /\
    gallerylinks s' = PyDict.set k (<[id_key +:+ "_Status" := status]> e) (gallerylinks s) /\
    fetched s' = fetched s ++ (if decide (v = PStr "Error") then [] else [v]).
Proof.
  intros Hk H. destruct (e !! id_key) as [v|] eqn:Hv.
  2:{ unfold check_link in H.
      by rewrite (bind_raise _ _ _ _ _ (get_field_no_field _ _ _ _ Hk Hv)) in H. }
  exists v. destruct (decide (v = PStr "Error")) as [->|Hne].
  - rewrite (check_link_error web _ _ _ _ Hk Hv) in H. injection H as <-.
    eexists. split; [done|]. split; [done|]. simpl. by rewrite app_nil_r.
  - rewrite (check_link_present web _ _ _ _ _ Hk Hv Hne) in H.
    destruct (web v) as [p|]; [|done]. injection H as <-. by eexists.
Qed.

Lemma check_links_calls k (l : list string) s s' e :
  (forall id_key, id_key ∈ l -> id_key ∈ link_values) ->
  PyDict.get k (gallerylinks s) = Some e ->
  for_each l (check_link web k) s = (Ok tt, s') ->
  exists vals e',
    Forall2 (fun id_key v => id_key ∈ link_values /\ e !! id_key = Some v) l vals /\
    fetched s' = fetched s ++ filter (fun v => v <> PStr "Error") vals /\
    PyDict.get k (gallerylinks s') = Some e' /\
    (forall id_key, id_key ∈ link_values -> e' !! id_key = e !! id_key).
Proof.
  revert s e. induction l as [|id_key l IH]; intros s e Hl Hk H.
  - injection H as <-. exists [], e. split; [constructor|]. by rewrite app_nil_r.
  - rewrite for_each_cons in H. apply bind_Ok in H as ([] & s1 & Hstep & H).
    apply (check_link_Ok _ _ _ _ _ Hk) in Hstep as (v & status & Hv & Hg & Hf).
    assert (id_key ∈ link_values) as Hid by (apply Hl; left).
    destruct (IH s1 (<[id_key +:+ "_Status" := status]> e)) as (vals & e' & Hvals & Hf' & Hk' & Hsame).
    { intros i Hi. apply Hl. by right. }
    { rewrite Hg. apply get_set_eq. }
    { done. }
    assert (forall i, i ∈ link_values -> (<[id_key +:+ "_Status" := status]> e) !! i = e !! i) as Hagree.
    { intros i Hi. apply lookup_insert_ne. by apply status_ne_link. }
    exists (v :: vals), e'. split; [|split; [|split; [done|]]].
    + constructor; [done|]. eapply Forall2_impl; [exact Hvals|].
      intros i w [Hi Hw]. split; [done|]. by rewrite <- Hagree.
    + rewrite Hf', Hf, filter_cons. case_decide; case_decide; try done;
        by rewrite <- app_assoc.
    + intros i Hi. by rewrite Hsame, Hagree.
Qed.

(** The raster check that returns: one more call when the WFS link is the
    absent marker, none otherwise. *)
Lemma check_raster_calls k s s' e :
  PyDict.get k (gallerylinks s) = Some e ->
  check_raster web k s = (Ok tt, s') ->
  exists wfs,
    e !! "WFS_Link" = Some wfs /\
    ((wfs <> PStr "Error" /\ fetched s' = fetched s) \/
     (wfs = PStr "Error" /\ exists rest,
        e !! "REST_Link" = Some rest /\
        fetched s' = fetched s ++ [PStr (py_str rest +:+ "/0")])).
Proof.
  intros Hk H. destruct (e !! "WFS_Link") as [wfs|] eqn:Hv.
  2:{ unfold check_raster in H.
      by rewrite (bind_raise _ _ _ _ _ (get_field_no_field _ _ _ _ Hk Hv)) in H. }
  exists wfs. split; [done|]. destruct (decide (wfs = PStr "Error")) as [->|Hne].
  - right. split; [done|]. destruct (e !! "REST_Link") as [rest|] eqn:Hrest.
    + exists rest. split; [done|]. rewrite (check_raster_error web _ _ _ _ Hk Hv Hrest) in H.
      destruct (web _) as [p|ex].
      * by destruct (PyString.contains _ _); inversion H.
      * by destruct ex; inversion H.
    + unfold check_raster in H. rewrite (bind_run _ _ _ _ _ (get_field_run _ _ _ _ _ Hk Hv)) in H.
      unfold py_eq in H. rewrite bool_decide_eq_true_2 in H by done.
      unfold try_except in H.
      rewrite (bind_raise _ _ _ _ _ (get_field_no_field _ _ _ _ Hk Hrest)) in H.
      done.
  - left. split; [done|]. unfold check_raster in H.
    rewrite (bind_run _ _ _ _ _ (get_field_run _ _ _ _ _ Hk Hv)) in H.
    unfold py_eq in H. rewrite bool_decide_eq_false_2 in H by done. by injection H as <-.
Qed.

End Calls.

(** X13.  The calls of [driver.get] that checking one entry makes, when it
    returns: one for each of the six link fields that holds something else
    than ["Error"], in the order of [link_values], and after them one for
    the raster probe exactly when the WFS link is ["Error"]; so an entry
    with [n] absent links costs [6 - n] fetches, and one more if the WFS
    link is among them. *)
Theorem validator_calls_per_entry
    (web : pyval -> result page) (s s' : state) (map_key : string) (e : entry) :
  PyDict.get map_key (gallerylinks s) = Some e ->
  check_entry web map_key s = (Ok tt, s') ->
  exists vals wfs rest,
    Forall2 (fun id_key v => e !! id_key = Some v) link_values vals /\
    e !! "WFS_Link" = Some wfs /\ e !! "REST_Link" = Some rest /\
    fetched s' =
      fetched s ++ filter (fun v => v <> PStr "Error") vals
                ++ (if decide (wfs = PStr "Error") then [PStr (py_str rest +:+ "/0")] else []) /\
    length (fetched s') =
      length (fetched s) + length (filter (fun v => v <> PStr "Error") vals)
      + (if decide (wfs = PStr "Error") then 1 else 0).
Proof.
  intros Hk H. unfold check_entry in H.
  apply bind_Ok in H as ([] & s1 & Hprint & H). injection Hprint as <-.
  apply bind_Ok in H as ([] & s2 & Hloop & Hraster).
  destruct (check_links_calls web map_key link_values _ _ e (fun _ Hi => Hi)
              (Hk : PyDict.get map_key (gallerylinks (State _ _ _ _ _)) = _) Hloop)
    as (vals & e' & Hvals & Hf & Hk' & Hsame).
  apply (check_raster_calls web _ _ _ _ Hk') in Hraster as (wfs & Hwfs & Hcases).
  assert ("WFS_Link" ∈ link_values) as Hin1 by (apply (bool_decide_unpack _); by vm_compute).
  assert ("REST_Link" ∈ link_values) as Hin2 by (apply (bool_decide_unpack _); by vm_compute).
  rewrite (Hsame _ Hin1) in Hwfs.
  assert (exists rest, e !! "REST_Link" = Some rest) as [rest Hrest].
  { unfold link_values in Hvals. inversion Hvals as [|? v ? ? [_ Hv] _]; subst. by exists v. }
  assert (Forall2 (fun id_key v => e !! id_key = Some v) link_values vals) as Hvals'.
  { eapply Forall2_impl; [exact Hvals|]. by intros i w [_ Hw]. }
  exists vals, wfs, rest. split; [done|]. split; [done|]. split; [done|].
  simpl in Hf. destruct Hcases as [[Hne Hf']|[-> (rest' & Hrest' & Hf')]].
  - rewrite !decide_False by done. rewrite Hf', Hf, !app_nil_r.
    split; [done|]. rewrite length_app. lia.
  - rewrite !decide_True by done. rewrite (Hsame _ Hin2) in Hrest'.
    assert (rest' = rest) as -> by congruence.
    rewrite Hf', Hf, <- app_assoc. split; [done|]. rewrite !length_app. simpl. lia.
Qed.

Lemma validator_calls_per_entry_witness :
  let s' := snd (check_entry Sample.web "aerial" Sample.scraped) in
  fetched s' = [PStr "https://gis/rest/aerial"; PStr "https://agol/aerial";
                PStr "https://gis/wms/aerial"; PStr "https://gis/rest/aerial/0"].
Proof.
  intros s'.
  destruct (validator_calls_per_entry Sample.web Sample.scraped s' "aerial" Sample.aerial_entry)
    as (vals & wfs & rest & Hvals & Hwfs & Hrest & Hf & _); [done | by vm_compute |].
  rewrite Hf. clear Hf. clearbody s'.
  vm_compute in Hwfs. injection Hwfs as <-. vm_compute in Hrest. injection Hrest as <-.
  unfold link_values in Hvals.
  repeat (match goal with H : Forall2 _ _ _ |- _ => inversion H as [|? ? ? ? ? ?]; clear H; subst end).
  repeat match goal with H : _ !! _ = Some _ |- _ => vm_compute in H; injection H as <- end.
  reflexivity.
Defined.
(** ** The Summary Reducer, run again *)

(** An entry that carries its own summary is left as it is. *)
Lemma sum_entry_fixed k s e :
  PyDict.get k (gallerylinks s) = Some e -> summed e = e -> sum_entry k s = (Ok tt, s).
Proof.
  intros Hk He. rewrite (sum_entry_run _ _ _ Hk), He, (set_get_id _ _ _ Hk). by destruct s.
Qed.

Lemma sum_entries_fixed (ks : list string) s :
  (forall k, k ∈ ks -> exists e, PyDict.get k (gallerylinks s) = Some e /\ summed e = e) ->
  for_each ks sum_entry s = (Ok tt, s).
Proof.
  induction ks as [|k ks IH]; intros Hks; [done|].
  destruct (Hks k) as (e & Hk & He); [left|].
  rewrite for_each_cons, (bind_run _ _ _ _ _ (sum_entry_fixed _ _ _ Hk He)).
  apply IH. intros k' Hk'. apply Hks. by right.
Qed.

(** X14.  The Summary Reducer can be run again: after one run, whose
    ["Summary Status"] values are themselves values of the entries that
    the next run looks through, a second run returns and leaves the whole
    state, the dictionary and its order included, as the first left it. *)
Theorem summary_reducer_is_idempotent (s : state) :
  exists s1, dictsumvalue s = (Ok tt, s1) /\ dictsumvalue s1 = (Ok tt, s1).
Proof.
  destruct (dictsumvalue_run s) as (g' & Hrun & Hkeys & Hget).
  eexists. split; [exact Hrun|].
  unfold dictsumvalue, bind, read_gallery. apply sum_entries_fixed.
  intros k Hk. simpl in *. apply elem_of_keys in Hk as [e He].
  exists e. split; [done|]. rewrite Hget in He.
  destruct (PyDict.get k (gallerylinks s)) as [e0|]; [|done].
  injection He as <-. apply summed_idemp.
Qed.

(** ** The script as a whole *)

Section Whole.
Variable web : pyval -> result page.

(** The Entry Scraper stores no field outside [scraped_fields]. *)
Lemma galleryentries_scraped_only links s s' :
  galleryentries web links s = (Ok tt, s') -> fields_in scraped_fields (gallerylinks s').
Proof.
  unfold galleryentries. intros H. apply bind_Ok in H as ([] & s0 & Hw & H).
  injection Hw as <-.
  assert (respects (on_gallery (kept (fields_in scraped_fields)))
            (for_each links (gallery_entry web))) as Hresp by respects_fields.
  apply Hresp in H. apply H. by intros k e f.
Qed.

(** The script that returns, stage by stage: the dictionary that the
    Summary Reducer found has no summaries, the final one has the
    summed entries, and the rows are those of the final entries. *)
Lemma main_stages s s' :
  main web s = (Ok tt, s') ->
  exists g3 rows,
    (forall k e0, PyDict.get k g3 = Some e0 -> e0 !! "Summary Status" = None) /\
    (forall k, PyDict.get k (gallerylinks s') = summed <$> PyDict.get k g3) /\
    csvfile s' = csvfile s ++ map PStr csv_fields :: rows /\
    Forall2 (fun k row => exists e, PyDict.get k (gallerylinks s') = Some e /\
                                    row = cells_of k e)
            (keys (gallerylinks s')) rows.
Proof.
  unfold main. intros H.
  apply bind_Ok in H as (links & s1 & Hcrawl & H).
  apply bind_Ok in H as ([] & s2 & Hentries & H).
  apply bind_Ok in H as ([] & s3 & Hcheck & H).
  unfold bind at 1, read_gallery, bind at 1, print at 1 in H.
  destruct (dictsumvalue_run
              (State (fetched s3) (current s3)
                 (printed s3 ++ [MsgGallery (gallerylinks s3)]) (gallerylinks s3) (csvfile s3)))
    as (g' & Hsum & Hkeys & Hget).
  rewrite (bind_run _ _ _ _ _ Hsum) in H. simpl in H.
  unfold bind at 1, print at 1 in H.
  match type of H with bind write_csv _ ?s0 = _ =>
    destruct (write_csv_run s0) as (rows & Hcsv & Hrows)
  end.
  rewrite (bind_run _ _ _ _ _ Hcsv) in H. unfold print in H. injection H as <-. simpl in *.
  apply crawl_keeps_csvfile in Hcrawl.
  assert (respects (unchanged csvfile) (galleryentries web links)) as Hr2
    by (respects_go; by step_apart).
  apply Hr2 in Hentries as Hcsv2.
  apply checklinks_keeps_csvfile in Hcheck as Hcsv3.
  unfold unchanged in *.
  exists (gallerylinks s3), rows. split; [|split; [done|split; [congruence|done]]].
  intros k e0 Hk.
  assert (field_of k "Summary Status" (gallerylinks s3)
          = field_of k "Summary Status" (gallerylinks s2)) as Hsame.
  { apply (checklinks_same_field web k "Summary Status") in Hcheck; [done| |done].
    intros Hin. by apply (bool_decide_pack _) in Hin. }
  unfold field_of in Hsame. rewrite Hk in Hsame. simpl in Hsame. rewrite Hsame.
  destruct (PyDict.get k (gallerylinks s2)) as [e2|] eqn:Hk2; [|done]. simpl.
  destruct (e2 !! "Summary Status") eqn:E; [|done].
  assert ("Summary Status" ∈ scraped_fields) as Hin.
  { eapply (galleryentries_scraped_only _ _ _ Hentries); [exact Hk2|]. by rewrite E. }
  by apply (bool_decide_pack _) in Hin.
Qed.

End Whole.

(** X15.  In the report of a run of the whole script, the last cell of
    the row of an entry, the column ["Summary Status"], is ["Error"] when
    some other field of the entry, a scraped value or a link status, is
    ["Error"], and ["No problem"] when none is; it is one of the two in
    every row, so the fallback to the key of the entry, which fills the
    other columns where a value is missing, never applies here. *)
Theorem report_summary_cell_tells_errors
    (web : pyval -> result page) (s s' : state) :
  main web s = (Ok tt, s') ->
  exists rows,
    csvfile s' = csvfile s ++ map PStr csv_fields :: rows /\
    last csv_fields = Some "Summary Status" /\
    Forall2 (fun k row => exists e summary,
               PyDict.get k (gallerylinks s') = Some e /\
               last row = Some (PStr summary) /\
               (summary = "Error" \/ summary = "No problem") /\
               (summary = "Error" <->
                  exists f, f <> "Summary Status" /\ e !! f = Some (PStr "Error")) /\
               (summary = "No problem" <->
                  forall f, f <> "Summary Status" -> e !! f <> Some (PStr "Error")))
            (keys (gallerylinks s')) rows.
Proof.
  intros H. apply main_stages in H as (g3 & rows & Hnone & Hget & Hcsv & Hrows).
  exists rows. split; [done|]. split; [done|].
  eapply Forall2_impl; [exact Hrows|]. intros k row (e & Hk & ->).
  rewrite Hget in Hk. destruct (PyDict.get k g3) as [e0|] eqn:Hk0; [|done].
  injection Hk as <-. pose proof (Hnone _ _ Hk0) as Hno.
  exists (summed e0), (summary_of e0). split; [by rewrite Hget, Hk0|]. split.
  { unfold cells_of, csv_fields. simpl. f_equal. unfold get_or, summed.
    rewrite lookup_insert_eq. unfold summary_of. by destruct (in_values _ _). }
  assert (forall f, f <> "Summary Status" -> summed e0 !! f = e0 !! f) as Hother.
  { intros f Hf. unfold summed. by rewrite lookup_insert_ne. }
  destruct (summary_of_spec e0) as [[[f Hf] ->]|[Hall ->]].
  - assert (f <> "Summary Status") as Hne by (intros ->; congruence).
    split; [by left|].
    split; [split; [intros _; exists f; by rewrite Hother | done]|].
    split; [done|]. intros Hcontra. exfalso. apply (Hcontra f Hne). by rewrite Hother.
  - split; [by right|]. split; [split; [done|]|split; [intros _|done]].
    + intros (f & Hne & Hf). rewrite Hother in Hf by done. by apply Hall in Hf.
    + intros f Hne. rewrite Hother by done. apply Hall.
Qed.

Lemma report_summary_cell_tells_errors_witness :
  let s' := snd (main Sample.web Sample.start) in
  exists rows,
    csvfile s' = csvfile Sample.start ++ map PStr csv_fields :: rows /\
    last csv_fields = Some "Summary Status" /\
    Forall2 (fun k row => exists e summary,
               PyDict.get k (gallerylinks s') = Some e /\
               last row = Some (PStr summary) /\
               (summary = "Error" \/ summary = "No problem") /\
               (summary = "Error" <->
                  exists f, f <> "Summary Status" /\ e !! f = Some (PStr "Error")) /\
               (summary = "No problem" <->
                  forall f, f <> "Summary Status" -> e !! f <> Some (PStr "Error")))
            (keys (gallerylinks s')) rows.
Proof.
  apply (report_summary_cell_tells_errors Sample.web Sample.start).
  vm_compute. reflexivity.
Defined.


